(** * Recurring billing: scheduler, payment submitter and outcome reconciler

    A shallow embedding of [app/iamport/iamport.service.js] and the
    properties of its billing state machine.

    Conventions of the embedding.
    - A JavaScript [Date] is its time value: milliseconds since the epoch,
      in [Z].  Amounts are integers (won), in [Z].
    - A charge number is a JavaScript number: a non-negative integer of at
      most 2^53, in [N], with the sum [plus_one] that rounds as a double
      does.  A charge number above 2^53 is not modelled.
    - A moment in the zone 'ASIA/SEOUL' is the instant shifted by the fixed
      offset UTC+9 (the zone has had no daylight saving since 1988).
    - A Mongo collection is the list of its documents in natural order;
      [insertOne] appends, [findOne] and [updateOne] act on the first
      document that matches the filter.
    - A JSON text is represented by its syntax tree ([json]); printing the
      tree and reading it back are inverse, so only the conversion of
      JavaScript values into trees and back is modelled.
    - The gateway is a parameter: a function from requests to answers.
    - Failures of the store itself (a rejected write, a lost connection)
      are not modelled: every read and write succeeds. *)

From Stdlib Require Import ZArith Lia List String Ascii Bool Permutation Sorted.
From Stdlib Require Import DecimalString DecimalN Decimal.
From stdpp Require Import base option list strings.

Local Open Scope string_scope.
Local Open Scope Z_scope.

(** ** Decimal digits and numbers in text *)

Module Digits.

Definition is_digit (c : ascii) : bool :=
let n := Z.of_N (N_of_ascii c) in (48 <=? n) && (n <=? 57).

Definition digit_val (c : ascii) : option Z :=
if is_digit c then Some (Z.of_N (N_of_ascii c) - 48) else None.

Definition digit_char (n : Z) : ascii :=
ascii_of_N (Z.to_N (48 + n)).

Fixpoint all_digits (s : string) : bool :=
match s with
| EmptyString => true
| String c s' => is_digit c && all_digits s'
end.

(** [Number.MAX_SAFE_INTEGER], 2^53 - 1.  A JavaScript number is a double:
  every integer up to 2^53 is a double of its own and a template prints
  all its digits.  Above 2^53 not every integer is a double: a result is
  rounded to the nearest double, ties to the one with an even
  significand, and from 1e21 on a template prints the exponent form.
  The numbers of the model are the non-negative integers up to 2^53;
  a number above them is not modelled. *)
Definition MAX_SAFE_INTEGER : N := 9007199254740991.

(** [n + 1] for a number [n] of the model.  Up to [MAX_SAFE_INTEGER] the
  sum is exact.  2^53 + 1 is no double: it lies halfway between the
  doubles 2^53 and 2^53 + 2, and the sum is rounded to 2^53, whose
  significand is even. *)
Definition plus_one (n : N) : N :=
if (n <=? MAX_SAFE_INTEGER)%N then (n + 1)%N else n.

(** [`${n}`] for a number [n] that is a non-negative integer up to 2^53:
  all its digits. *)
Definition decimal (n : N) : string :=
NilEmpty.string_of_uint (N.to_uint n).

(** The value of a non-empty run of decimal digits. *)
Definition digits_value (s : string) : option N :=
match s with
| EmptyString => None
| _ => option_map N.of_uint (NilEmpty.uint_of_string s)
end.

(** [parseInt(s)] on a string of decimal digits, for a value up to 2^53,
  where the result is exact.  [None] stands for NaN (the string is not a
  run of digits) and for a value above 2^53, which [parseInt] rounds to
  a double: "not modelled". *)
Definition parseInt (s : string) : option N :=
n ← digits_value s;
if (n <=? MAX_SAFE_INTEGER + 1)%N then Some n else None.

(** [s.match(/\d+$/)]: the longest run of digits that ends the string. *)
Fixpoint trailing_digits (s : string) : string :=
match s with
| EmptyString => EmptyString
| String c s' =>
    let r := trailing_digits s' in
    if is_digit c && (String.length r =? String.length s')%nat
    then String c r else r
end.

(** The match object of [/\d+$/]: [None] is JavaScript's [null]. *)
Definition match_digits_at_end (s : string) : option string :=
match trailing_digits s with
| EmptyString => None
| r => Some r
end.

(** Fixed-width fields of a date in text. *)
Definition pad2 (n : Z) : string :=
String (digit_char (n / 10 mod 10)) (String (digit_char (n mod 10)) "").

Definition pad3 (n : Z) : string :=
String (digit_char (n / 100 mod 10)) (pad2 n).

Definition pad4 (n : Z) : string :=
String (digit_char (n / 1000 mod 10)) (pad3 n).

Definition pad6 (n : Z) : string :=
String (digit_char (n / 100000 mod 10))
  (String (digit_char (n / 10000 mod 10)) (pad4 n)).

End Digits.
Export Digits.

(** ** Calendar: the proleptic Gregorian calendar of [Date] and moment *)

Module Calendar.

Definition ms_per_second : Z := 1000.
Definition ms_per_minute : Z := 60000.
Definition ms_per_hour : Z := 3600000.
Definition ms_per_day : Z := 86400000.

(** Day number (days since 1970-01-01) to year, month, day. *)
Definition civil_from_days (z : Z) : Z * Z * Z :=
let z' := z + 719468 in
let era := z' / 146097 in
let doe := z' - era * 146097 in
let yoe := (doe - doe / 1460 + doe / 36524 - doe / 146096) / 365 in
let doy := doe - (365 * yoe + yoe / 4 - yoe / 100) in
let mp := (5 * doy + 2) / 153 in
let d := doy - (153 * mp + 2) / 5 + 1 in
let m := if mp <? 10 then mp + 3 else mp - 9 in
let y := yoe + era * 400 in
(if m <=? 2 then y + 1 else y, m, d).

(** Year, month, day to the day number. *)
Definition days_from_civil (y m d : Z) : Z :=
let y' := if m <=? 2 then y - 1 else y in
let era := y' / 400 in
let yoe := y' - era * 400 in
let mp := if 2 <? m then m - 3 else m + 9 in
let doy := (153 * mp + 2) / 5 + d - 1 in
let doe := yoe * 365 + yoe / 4 - yoe / 100 + doy in
era * 146097 + doe - 719468.

(** [Date.prototype.toISOString], which [JSON.stringify] calls through
  [toJSON]: YYYY-MM-DDTHH:mm:ss.sssZ in UTC; years outside 0..9999 are
  written with a sign and six digits. *)
Definition toISOString (t : Z) : string :=
let day := t / ms_per_day in
let tod := t mod ms_per_day in
let '(y, m, d) := civil_from_days day in
let year :=
  if (0 <=? y) && (y <=? 9999) then pad4 y
  else String (if y <? 0 then "-"%char else "+"%char) (pad6 (Z.abs y)) in
year ++ "-" ++ pad2 m ++ "-" ++ pad2 d ++ "T"
  ++ pad2 (tod / ms_per_hour) ++ ":"
  ++ pad2 (tod / ms_per_minute mod 60) ++ ":"
  ++ pad2 (tod / ms_per_second mod 60) ++ "."
  ++ pad3 (tod mod 1000) ++ "Z".

(** A date the calendar has: 02-30 and the like are refused. *)
Definition valid_date (y m d : Z) : bool :=
let '(y', m', d') := civil_from_days (days_from_civil y m d) in
(y' =? y) && (m' =? m) && (d' =? d).

Definition num2 (a b : ascii) : option Z :=
x ← digit_val a; y ← digit_val b; Some (10 * x + y).

Definition num3 (a b c : ascii) : option Z :=
x ← digit_val a; y ← num2 b c; Some (100 * x + y).

Definition num4 (a b c d : ascii) : option Z :=
x ← num2 a b; y ← num2 c d; Some (100 * x + y).

(** [moment(s)] for a string [s] in the format [toISOString] writes for
  the years 0..9999.  moment reads many more formats; for those this
  function returns [None], which means "not modelled", not "invalid". *)
Definition moment (s : string) : option Z :=
match s with
| String y1 (String y2 (String y3 (String y4 (String "-"
  (String m1 (String m2 (String "-"
  (String d1 (String d2 (String "T"
  (String h1 (String h2 (String ":"
  (String i1 (String i2 (String ":"
  (String s1 (String s2 (String "."
  (String f1 (String f2 (String f3 (String "Z" EmptyString)))))))))))))))))))))))
  =>
    y ← num4 y1 y2 y3 y4;
    m ← num2 m1 m2;
    d ← num2 d1 d2;
    h ← num2 h1 h2;
    i ← num2 i1 i2;
    sec ← num2 s1 s2;
    f ← num3 f1 f2 f3;
    if valid_date y m d && (h <? 24) && (i <? 60) && (sec <? 60)
    then Some (days_from_civil y m d * ms_per_day
               + h * ms_per_hour + i * ms_per_minute
               + sec * ms_per_second + f)
    else None
| _ => None
end.

(** The zone 'ASIA/SEOUL'. *)
Definition seoul_offset : Z := 9 * ms_per_hour.

(** [m.add(n, 'week')]: the zone has no transitions, a week is 7 days. *)
Definition add_weeks (n : Z) (t : Z) : Z := t + n * 7 * ms_per_day.

(** [m.tz(seoul).hour(0).minute(0).second(0).millisecond(0).toDate()]. *)
Definition seoul_midnight (t : Z) : Z :=
(t + seoul_offset) / ms_per_day * ms_per_day - seoul_offset.

(** [m.tz(seoul).format('M/D')]. *)
Definition format_M_D (t : Z) : string :=
let '(_, m, d) := civil_from_days ((t + seoul_offset) / ms_per_day) in
decimal (Z.to_N m) ++ "/" ++ decimal (Z.to_N d).

End Calendar.
Export Calendar.

(** ** JavaScript values and JSON *)

Module JS.

Set Warnings "-register-all".

(** The values that travel in a payment intent. *)
Inductive value :=
| VUndefined
| VNull
| VBool (b : bool)
| VNum (n : Z)
| VStr (s : string)
| VDate (t : Z)
| VObj (fields : list (string * value)).

(** The syntax tree of a JSON text. *)
Inductive json :=
| JNull
| JBool (b : bool)
| JNum (n : Z)
| JStr (s : string)
| JObj (fields : list (string * json)).

(** SerializeJSONProperty: [undefined] has no JSON form (a property that
  holds it is left out), a [Date] is written through [toJSON]. *)
Fixpoint stringify_value (v : value) : option json :=
match v with
| VUndefined => None
| VNull => Some JNull
| VBool b => Some (JBool b)
| VNum n => Some (JNum n)
| VStr s => Some (JStr s)
| VDate t => Some (JStr (toISOString t))
| VObj fields =>
    Some (JObj ((fix properties (l : list (string * value)) :=
                   match l with
                   | [] => []
                   | (k, x) :: l' =>
                       match stringify_value x with
                       | Some j => (k, j) :: properties l'
                       | None => properties l'
                       end
                   end) fields))
end.

(** [JSON.stringify({...})] on an object literal. *)
Definition JSON_stringify (fields : list (string * value)) : json :=
default JNull (stringify_value (VObj fields)).

(** [JSON.parse]. *)
Fixpoint JSON_parse (j : json) : value :=
match j with
| JNull => VNull
| JBool b => VBool b
| JNum n => VNum n
| JStr s => VStr s
| JObj fields =>
    VObj ((fix properties (l : list (string * json)) :=
             match l with
             | [] => []
             | (k, x) :: l' => (k, JSON_parse x) :: properties l'
             end) fields)
end.

(** Property read [o.k]; an absent property reads as [undefined]. *)
Fixpoint assoc (k : string) (l : list (string * value)) : value :=
match l with
| [] => VUndefined
| (k', x) :: l' => if String.eqb k k' then x else assoc k l'
end.

Definition get (k : string) (o : value) : value :=
match o with
| VObj fields => assoc k fields
| _ => VUndefined
end.

Definition as_string (v : value) : option string :=
match v with VStr s => Some s | _ => None end.

Definition as_number (v : value) : option Z :=
match v with VNum n => Some n | _ => None end.

End JS.
Export JS.

(** ** The document store *)

Module Mongo.
Section Collection.
Context {A : Type}.

(** [collection.findOne(q)]. *)
Definition findOne (q : A -> bool) (c : list A) : option A := List.find q c.

(** [collection.find(q)], read to the end of the cursor. *)
Definition find (q : A -> bool) (c : list A) : list A := List.filter q c.

(** [collection.insertOne(x)]. *)
Definition insertOne (x : A) (c : list A) : list A := c ++ [x].

(** [collection.updateOne(q, u)]: the collection after the update and
    [matchedCount]. *)
Fixpoint updateOne (q : A -> bool) (u : A -> A) (c : list A) : list A * nat :=
  match c with
  | [] => ([], 0%nat)
  | x :: c' =>
      if q x then (u x :: c', 1%nat)
      else let '(c'', n) := updateOne q u c' in (x :: c'', n)
  end.

(** [collection.updateOne(q, u, { upsert: true })]: when nothing matches,
    the document [fresh] (the query's fields, [$setOnInsert] and [$set])
    is inserted. *)
Definition upsertOne (q : A -> bool) (u : A -> A) (fresh : A) (c : list A) : list A :=
  let '(c', n) := updateOne q u c in
  if (n =? 0)%nat then insertOne fresh c else c'.

(** [$sort: { key: -1 }] of [$push]: the array in descending order of the
    key. *)
Fixpoint insert_desc (key : A -> Z) (x : A) (l : list A) : list A :=
  match l with
  | [] => [x]
  | y :: l' => if key y <? key x then x :: y :: l' else y :: insert_desc key x l'
  end.

Fixpoint sort_desc (key : A -> Z) (l : list A) : list A :=
  match l with
  | [] => []
  | x :: l' => insert_desc key x (sort_desc key l')
  end.
End Collection.
End Mongo.
Export Mongo.

(** ** Constants of the service *)

(** [billing_plan_type[plan]]: the cadence in weeks; [None] is
    [undefined]. *)
Definition billing_plan_type (plan : string) : option Z :=
  if String.eqb plan "4_WEEK" then Some 4
  else if String.eqb plan "26_WEEK" then Some 26
  else if String.eqb plan "52_WEEK" then Some 52
  else None.

Module payment_type.
Definition initial : string := "INITIAL".
Definition scheduled : string := "SCHEDULED".
Definition refund : string := "REFUND".
End payment_type.

Module status_type.
Definition paid : string := "PAID".
Definition cancelled : string := "REFUNDED".
Definition failed : string := "FAILED".
Definition pending : string := "PENDING".

(** [status_type[key]].  Any other key reads as [None]: it is either
    [undefined] or an inherited member, and neither equals a status. *)
Definition at_key (key : string) : option string :=
  if String.eqb key "paid" then Some paid
  else if String.eqb key "cancelled" then Some cancelled
  else if String.eqb key "failed" then Some failed
  else if String.eqb key "pending" then Some pending
  else None.
End status_type.

(** ** Data model *)

(** The name of a payment, as [_generateName] returns it. *)
Module Name.
Record t := { short : string; long : string; long_kr : string }.

Definition to_value (n : t) : value :=
  VObj [("short", VStr (short n)); ("long", VStr (long n));
        ("long_kr", VStr (long_kr n))].

Definition of_value (v : value) : option t :=
  s ← as_string (get "short" v);
  l ← as_string (get "long" v);
  k ← as_string (get "long_kr" v);
  Some {| short := s; long := l; long_kr := k |}.
End Name.

(** The argument of [pay]: a billing intent. *)
Module Params.
Record t := {
  business_id : string;
  merchant_uid : string;
  type : string;
  billing_plan : string;
  pay_date : Z;
  amount : Z;
  vat : Z;
}.
End Params.

(** [custom_data] as the reconciler reads it after [JSON.parse]. *)
Module CustomData.
Record t := {
  business_id : string;
  merchant_uid : string;
  customer_uid : string;
  name : Name.t;
  type : string;
  billing_plan : string;
  pay_date : string;
  amount : Z;
  cancel_amount : Z;
  vat : Z;
}.

(** The typed view of a parsed [custom_data].  [None]: the object does
    not have the fields [pay] writes; such a confirmation is outside
    this model. *)
Definition of_value (v : value) : option t :=
  b ← as_string (get "business_id" v);
  m ← as_string (get "merchant_uid" v);
  c ← as_string (get "customer_uid" v);
  n ← Name.of_value (get "name" v);
  ty ← as_string (get "type" v);
  bp ← as_string (get "billing_plan" v);
  pd ← as_string (get "pay_date" v);
  a ← as_number (get "amount" v);
  ca ← as_number (get "cancel_amount" v);
  va ← as_number (get "vat" v);
  Some {| business_id := b; merchant_uid := m; customer_uid := c;
          name := n; type := ty; billing_plan := bp; pay_date := pd;
          amount := a; cancel_amount := ca; vat := va |}.
End CustomData.

(** The request of [iamport.subscribe.again]. *)
Module Charge.
Record t := {
  merchant_uid : string;
  customer_uid : string;
  name : string;
  amount : Z;
  cancel_amount : Z;
  vat : Z;
  custom_data : json;
}.
End Charge.

(** The result of a charge, returned by the gateway or delivered later. *)
Module Result.
Record t := {
  status : string;
  imp_uid : string;
  merchant_uid : string;
  currency : string;
  amount : Z;
  pay_method : string;
  card_name : string;
  receipt_url : string;
  paid_at : Z;
  failed_at : Z;
  fail_reason : string;
  custom_data : json;
}.
End Result.

(** A rejection of the gateway client. *)
Module GatewayError.
Record t := { code : string; message : string }.
End GatewayError.

(** A document of 'payment-methods'. *)
Module Method.
Record t := {
  business_id : string;
  customer_uid : string;
  default_method : bool;
  created_time : Z;
  updated_time : Z;
}.

Definition set_default_method (b : bool) (m : t) : t :=
  {| business_id := business_id m; customer_uid := customer_uid m;
     default_method := b; created_time := created_time m;
     updated_time := updated_time m |}.
End Method.

(** An element of [failures] in a document of 'payment-schedule'. *)
Module Failure.
Record t := {
  imp_uid : string;
  params : CustomData.t;
  reason : string;
  time_failed : Z;
}.
End Failure.

(** A document of 'payment-schedule'.  [failures] is [None] while the
    document has no such field. *)
Module Schedule.
Record t := {
  merchant_uid : string;
  business_id : string;
  schedule : Z;
  amount : Z;
  vat : Z;
  billing_plan : string;
  status : string;
  failures : option (list Failure.t);
}.

Definition set_status (s : string) (e : t) : t :=
  {| merchant_uid := merchant_uid e; business_id := business_id e;
     schedule := schedule e; amount := amount e; vat := vat e;
     billing_plan := billing_plan e; status := s;
     failures := failures e |}.

Definition set_failures (f : option (list Failure.t)) (e : t) : t :=
  {| merchant_uid := merchant_uid e; business_id := business_id e;
     schedule := schedule e; amount := amount e; vat := vat e;
     billing_plan := billing_plan e; status := status e;
     failures := f |}.

Definition set_plan_amount (plan : string) (a : Z) (e : t) : t :=
  {| merchant_uid := merchant_uid e; business_id := business_id e;
     schedule := schedule e; amount := a; vat := vat e;
     billing_plan := plan; status := status e;
     failures := failures e |}.
End Schedule.

(** A document of 'payment-transactions'. *)
Module Tx.
Record t := {
  business_id : string;
  imp_uid : string;
  merchant_uid : string;
  type : string;
  name : Name.t;
  currency : string;
  amount : Z;
  vat : Z;
  customer_uid : string;
  pay_method : string;
  card_name : string;
  status : string;
  receipt_url : string;
  pay_date : string;
  time_paid : Z;
}.
End Tx.

(** The three collections. *)
Record db := {
  payment_methods : list Method.t;
  payment_schedule : list Schedule.t;
  payment_transactions : list Tx.t;
}.

(** The process: the store, the calls of [paymentHook] that
    [setTimeout(this.paymentHook, 0, result)] has armed and that have not
    run yet, and the requests sent to the gateway so far. *)
Record world := {
  store : db;
  timers : list Result.t;
  charges : list Charge.t;
}.

(** ** The gateway client *)

Module Card.
(** The body of a request to register a payment method. *)
Record t := {
  card_number : string;
  expiry : string;
  birth : string;
  pwd_2digit : string;
  customer_name : option string;
  customer_tel : option string;
  customer_email : option string;
  customer_addr : option string;
  customer_postcode : option string;
}.
End Card.

Module Gateway.
(** [iamport.subscribe.again] and [iamport.subscribe_customer.create];
    the latter answers with the [customer_uid] it registered. *)
Record t := {
  again : Charge.t -> GatewayError.t + Result.t;
  create : string -> Card.t -> GatewayError.t + string;
}.
End Gateway.

(** ** Results of the operations *)

Inductive error_params :=
| OfIntent (p : Params.t)
| OfCustomData (v : value)
| OfCharge (c : Charge.t) (custom_data : value).

Record pay_error := {
  params : error_params;
  code : option string;
  message : string;
}.

Inductive pay_result :=
| Resolve (data : Result.t)
| Reject (error : pay_error).

(** What [res.send] receives; [code] is the code of the error payload,
    when it has one. *)
Inductive response (D : Type) :=
| Sent (success : bool) (message : string) (data : D)
| SentError (message : string) (code : option string).
Arguments Sent {D}.
Arguments SentError {D}.

Record change_data := {
  cd_business_id : string;
  cd_schedule : Z;
  cd_old_billing_plan : string;
  cd_new_billing_plan : string;
}.

(** ** The service *)

(** A number in a template string. *)
Definition number_text (z : Z) : string :=
  if z <? 0 then "-" ++ decimal (Z.to_N (- z)) else decimal (Z.to_N z).

(** [s.split(sep)] for a separator of one character. *)
Fixpoint split (sep : ascii) (s : string) : list string :=
  match s with
  | EmptyString => [EmptyString]
  | String c s' =>
      if Ascii.eqb c sep then EmptyString :: split sep s'
      else match split sep s' with
           | x :: r => String c x :: r
           | [] => [String c EmptyString]
           end
  end.

(** Writing a collection back leaves the rest of the process as it is. *)
Definition set_store (d : db) (w : world) : world :=
  {| store := d; timers := timers w; charges := charges w |}.

Definition set_methods (c : list Method.t) (d : db) : db :=
  {| payment_methods := c; payment_schedule := payment_schedule d;
     payment_transactions := payment_transactions d |}.

Definition set_schedule (c : list Schedule.t) (d : db) : db :=
  {| payment_methods := payment_methods d; payment_schedule := c;
     payment_transactions := payment_transactions d |}.

Definition set_transactions (c : list Tx.t) (d : db) : db :=
  {| payment_methods := payment_methods d;
     payment_schedule := payment_schedule d; payment_transactions := c |}.

(** [checkScheduleAt6AM]: the delay, in milliseconds, of the timer it arms
    for the next scan. *)
Definition checkScheduleAt6AM (utc_now : Z) : Z :=
  let full_day := 24 * 60 * 60 * 1000 in
  let local_next_morning :=
    seoul_midnight (utc_now + ms_per_day) + 6 * ms_per_hour in
  Z.rem (local_next_morning - utc_now) full_day.

(** [_generateName].  [payment_type.menucast] is not defined, so the first
    branch of the source is never taken for a [type] that is a string.
    An unknown plan has cadence [undefined]: moment adds nothing and the
    template prints the word. *)
Definition _generateName (params : Params.t) : Name.t :=
  let business_id := Params.business_id params in
  let billing_plan := Params.billing_plan params in
  let weeks := billing_plan_type billing_plan in
  let weeks_text :=
    match weeks with Some n => number_text n | None => "undefined" end in
  let start := Params.pay_date params in
  let end_ := add_weeks (default 0 weeks) start - ms_per_day in
  let span := format_M_D start ++ "-" ++ format_M_D end_ in
  {| Name.short := "CAS#" ++ business_id ++ "=" ++ span
                   ++ "(" ++ weeks_text ++ "WK)";
     Name.long := "Castr subscription #" ++ business_id ++ " " ++ span
                  ++ " (" ++ billing_plan ++ ")";
     Name.long_kr := "캐스터 정기구독 #" ++ business_id ++ " " ++ span
                     ++ " (" ++ weeks_text ++ "주)" |}.

(** The object that [pay] hands to [JSON.stringify]. *)
Definition custom_data_fields
    (payment_params : Params.t) (customer_uid : string) (name : Name.t)
  : list (string * value) :=
  [("business_id", VStr (Params.business_id payment_params));
   ("merchant_uid", VStr (Params.merchant_uid payment_params));
   ("customer_uid", VStr customer_uid);
   ("name", Name.to_value name);
   ("type", VStr (Params.type payment_params));
   ("billing_plan", VStr (Params.billing_plan payment_params));
   ("pay_date", VDate (Params.pay_date payment_params));
   ("amount", VNum (Params.amount payment_params));
   ("cancel_amount", VNum (Params.amount payment_params));
   ("vat", VNum (Params.vat payment_params))].

(** The filter [{ business_id: b, default_method: true }]. *)
Definition is_default_of (b : string) (m : Method.t) : bool :=
  bool_decide (Method.business_id m = b /\ Method.default_method m = true).

Section Service.
Variable iamport : Gateway.t.

(** [pay]: the settled promise and the process afterwards. *)
Definition pay (payment_params : Params.t) (w : world) : pay_result * world :=
  match
    findOne (is_default_of (Params.business_id payment_params))
      (payment_methods (store w))
  with
  | None =>
      (Reject {| params := OfIntent payment_params;
                 code := Some "castr_payment_error";
                 message := "Could not find a default payment method for the business ("
                            ++ Params.business_id payment_params ++ ")." |},
       w)
  | Some default_method =>
      let name := _generateName payment_params in
      let params :=
        {| Charge.merchant_uid := Params.merchant_uid payment_params;
           Charge.customer_uid := Method.customer_uid default_method;
           Charge.name := Name.short name;
           Charge.amount := Params.amount payment_params;
           Charge.cancel_amount := Params.amount payment_params;
           Charge.vat := Params.vat payment_params;
           Charge.custom_data :=
             JSON_stringify
               (custom_data_fields payment_params
                  (Method.customer_uid default_method) name) |} in
      let w1 := {| store := store w; timers := timers w;
                   charges := charges w ++ [params] |} in
      match Gateway.again iamport params with
      | inr iamport_result =>
          let w2 := {| store := store w1;
                       timers := timers w1 ++ [iamport_result];
                       charges := charges w1 |} in
          if bool_decide (status_type.at_key (Result.status iamport_result)
                          = Some status_type.failed)
          then (Reject {| params := OfCustomData
                                      (JSON_parse (Charge.custom_data params));
                          code := None;
                          message := Result.fail_reason iamport_result |},
                w2)
          else (Resolve iamport_result, w2)
      | inl iamport_error =>
          (Reject {| params := OfCharge params
                                 (JSON_parse (Charge.custom_data params));
                     code := Some (GatewayError.code iamport_error);
                     message := GatewayError.message iamport_error |},
           w1)
      end
  end.
End Service.

(** The record that the PAID branch inserts into 'payment-transactions'. *)
Definition transaction_of
    (iamport_result : Result.t) (custom_data : CustomData.t) (status : string)
  : Tx.t :=
  {| Tx.business_id := CustomData.business_id custom_data;
     Tx.imp_uid := Result.imp_uid iamport_result;
     Tx.merchant_uid := CustomData.merchant_uid custom_data;
     Tx.type := CustomData.type custom_data;
     Tx.name := CustomData.name custom_data;
     Tx.currency := Result.currency iamport_result;
     Tx.amount := CustomData.amount custom_data;
     Tx.vat := CustomData.vat custom_data;
     Tx.customer_uid := CustomData.customer_uid custom_data;
     Tx.pay_method := Result.pay_method iamport_result;
     Tx.card_name := Result.card_name iamport_result;
     Tx.status := status;
     Tx.receipt_url := Result.receipt_url iamport_result;
     Tx.pay_date := CustomData.pay_date custom_data;
     Tx.time_paid := Result.paid_at iamport_result * 1000 |}.

(** The filter [{ merchant_uid: uid }] on 'payment-schedule'. *)
Definition has_merchant_uid (uid : string) (e : Schedule.t) : bool :=
  bool_decide (Schedule.merchant_uid e = uid).

(** [$push: { failures: { $each: [failure], $sort: { time_failed: -1 } } }];
    the field is created when the document does not have it. *)
Definition push_failure (failure : Failure.t) (e : Schedule.t) : Schedule.t :=
  Schedule.set_failures
    (Some (sort_desc Failure.time_failed
             (default [] (Schedule.failures e) ++ [failure]))) e.

(** [paymentHook]: the store once the writes of the call have completed.
    [None] means that the confirmation is outside the model (its
    [custom_data] is not what [pay] writes, its pay date is in a format
    [moment] above does not cover, or the number at the end of its
    merchant_uid is above 2^53, where [parseInt] rounds).  The next
    charge number is a JavaScript sum, [plus_one]; being at most 2^53,
    it is printed with all its digits.

    In the PAID branch the second [then] throws when the merchant_uid has
    no digits at its end ([match] returns [null]); the [catch] logs the
    error, and the writes made before it stay. *)
Definition paymentHook (iamport_result : Result.t) (d : db) : option db :=
  match status_type.at_key (Result.status iamport_result) with
  | None => Some d
  | Some status =>
      if String.eqb status status_type.paid then
        custom_data ←
          CustomData.of_value (JSON_parse (Result.custom_data iamport_result));
        let d1 :=
          set_transactions
            (insertOne (transaction_of iamport_result custom_data status)
               (payment_transactions d)) d in
        let d2 :=
          if String.eqb (CustomData.type custom_data) payment_type.scheduled
          then set_schedule
                 (fst (updateOne
                         (has_merchant_uid (CustomData.merchant_uid custom_data))
                         (Schedule.set_status status)
                         (payment_schedule d1))) d1
          else d1 in
        pay_date ← moment (CustomData.pay_date custom_data);
        let next_pay_date :=
          seoul_midnight
            (add_weeks
               (default 0 (billing_plan_type (CustomData.billing_plan custom_data)))
               pay_date) in
        match match_digits_at_end (CustomData.merchant_uid custom_data) with
        | None => Some d2
        | Some digits =>
            charge_num ← parseInt digits;
            let next_charge_num := plus_one charge_num in
            let next_merchant_uid :=
              CustomData.business_id custom_data ++ "_ch"
                ++ decimal next_charge_num in
            Some (set_schedule
                    (insertOne
                       {| Schedule.merchant_uid := next_merchant_uid;
                          Schedule.business_id := CustomData.business_id custom_data;
                          Schedule.schedule := next_pay_date;
                          Schedule.amount := CustomData.amount custom_data;
                          Schedule.vat := CustomData.vat custom_data;
                          Schedule.billing_plan := CustomData.billing_plan custom_data;
                          Schedule.status := status_type.pending;
                          Schedule.failures := None |}
                       (payment_schedule d2)) d2)
        end
      else if String.eqb status status_type.cancelled then Some d
      else if String.eqb status status_type.failed then
        custom_data ←
          CustomData.of_value (JSON_parse (Result.custom_data iamport_result));
        if String.eqb (CustomData.type custom_data) payment_type.scheduled
        then
          let failure :=
            {| Failure.imp_uid := Result.imp_uid iamport_result;
               Failure.params := custom_data;
               Failure.reason := Result.fail_reason iamport_result;
               Failure.time_failed := Result.failed_at iamport_result * 1000 |} in
          Some (set_schedule
                  (fst (updateOne
                          (has_merchant_uid (CustomData.merchant_uid custom_data))
                          (fun e => push_failure failure
                                      (Schedule.set_status status e))
                          (payment_schedule d))) d)
        else Some d
      else Some d
  end.

(** The timers armed by [pay] run in the order they were armed. *)
Fixpoint run_hooks (l : list Result.t) (d : db) : option db :=
  match l with
  | [] => Some d
  | r :: l' => d' ← paymentHook r d; run_hooks l' d'
  end.

Definition run_timers (w : world) : option world :=
  d ← run_hooks (timers w) (store w);
  Some {| store := d; timers := []; charges := charges w |}.

(** The intent that the scan and the retry build from a document of
    'payment-schedule'. *)
Definition schedule_params (pay_date : Z) (document : Schedule.t) : Params.t :=
  {| Params.business_id := Schedule.business_id document;
     Params.merchant_uid := Schedule.merchant_uid document;
     Params.type := payment_type.scheduled;
     Params.billing_plan := Schedule.billing_plan document;
     Params.pay_date := pay_date;
     Params.amount := Schedule.amount document;
     Params.vat := Schedule.vat document |}.

(** The query of the daily scan. *)
Definition due (now : Z) (e : Schedule.t) : bool :=
  bool_decide (Schedule.status e = status_type.pending)
  && (Schedule.schedule e <=? seoul_midnight now).

(** The filter [{ customer_uid: uid }] on 'payment-methods'. *)
Definition has_customer_uid (uid : string) (m : Method.t) : bool :=
  bool_decide (Method.customer_uid m = uid).

(** The filter [{ business_id: b, status: FAILED }] on 'payment-schedule'. *)
Definition is_failed_of (b : string) (e : Schedule.t) : bool :=
  bool_decide (Schedule.business_id e = b
               /\ Schedule.status e = status_type.failed).

(** The filter [{ business_id: b, status: { $in: [PENDING, FAILED] } }]. *)
Definition is_in_flight_of (b : string) (e : Schedule.t) : bool :=
  bool_decide (Schedule.business_id e = b
               /\ (Schedule.status e = status_type.pending
                   \/ Schedule.status e = status_type.failed)).

(** The two updates of [setAsDefault], the second in the callback of the
    first: 'payment-methods' afterwards and the [matchedCount] of the
    second. *)
Definition unset_then_set (business_id customer_uid : string) (c : list Method.t)
  : list Method.t * nat :=
  let '(unset, _) :=
    updateOne (is_default_of business_id) (Method.set_default_method false) c in
  updateOne (has_customer_uid customer_uid) (Method.set_default_method true) unset.

Section Operations.
Variable iamport : Gateway.t.

(** The iteration callback of the scan, for the intents in turn: each
    call of [pay] with the promise it returns. *)
Fixpoint submit_all (l : list Params.t) (w : world)
  : list (Params.t * pay_result) * world :=
  match l with
  | [] => ([], w)
  | p :: l' =>
      let '(r, w1) := pay iamport p w in
      let '(rs, w2) := submit_all l' w1 in
      ((p, r) :: rs, w2)
  end.

(** [_checkScheduledPayments]: the promises it collects, each with the
    intent it was made for, and the process afterwards.  [pay] reads
    only 'payment-methods', which no reconciler call writes, so the
    order in which the calls of [pay] make progress does not matter.
    The call of [checkScheduleAt6AM] at its end arms the timer of the
    next scan and touches neither the store nor the gateway. *)
Definition _checkScheduledPayments (now : Z) (w : world)
  : list (Params.t * pay_result) * world :=
  submit_all
    (map (fun document => schedule_params (Schedule.schedule document) document)
       (find (due now) (payment_schedule (store w))))
    w.

(** [setAsDefault]: the response and the process afterwards.  The
    response is sent before the lookup of a failed payment completes.
    Reading [failures.length] of a document without [failures] throws
    before [pay] is called. *)
Definition setAsDefault (now : Z) (business_id customer_uid : string) (w : world)
  : response string * world :=
  let '(set, matchedCount) :=
    unset_then_set business_id customer_uid (payment_methods (store w)) in
  let w1 := set_store (set_methods set (store w)) w in
  if (matchedCount =? 0)%nat then
    (SentError ("No payment method was found for the given 'customer_uid' ("
                ++ customer_uid ++ ").") (Some "castr_payment_error"),
     w1)
  else
    let w2 :=
      match
        findOne (is_failed_of business_id) (payment_schedule (store w1))
      with
      | None => w1
      | Some failed_payment =>
          match Schedule.failures failed_payment with
          | None => w1
          | Some _ => snd (pay iamport (schedule_params now failed_payment) w1)
          end
      end in
    (Sent true ("Payment method (" ++ customer_uid ++ ") has been set as default.")
       customer_uid,
     w2).

(** [createPaymentMethod].  [None]: the card number has fewer than four
    groups and reading the length of the fourth throws; nothing is
    written. *)
Definition createPaymentMethod (now : Z) (business_id : string) (body : Card.t) (d : db)
  : option (response string * db) :=
  last_4_digits ← nth_error (split "-" (Card.card_number body)) 3;
  if negb (String.length last_4_digits =? 4)%nat then
    let msg := "The last 4 digits are not 4 digits long ("
               ++ last_4_digits ++ ")." in
    Some (SentError msg (Some "castr_payment_error"), d)
  else
    let customer_uid := business_id ++ "_" ++ last_4_digits in
    match Gateway.create iamport customer_uid body with
    | inr result_customer_uid =>
        let c :=
          upsertOne
            (fun m => bool_decide (Method.business_id m = business_id
                                   /\ Method.customer_uid m = result_customer_uid))
            (fun m => {| Method.business_id := Method.business_id m;
                         Method.customer_uid := result_customer_uid;
                         Method.default_method := false;
                         Method.created_time := Method.created_time m;
                         Method.updated_time := now |})
            {| Method.business_id := business_id;
               Method.customer_uid := result_customer_uid;
               Method.default_method := false;
               Method.created_time := now;
               Method.updated_time := now |}
            (payment_methods d) in
        Some (Sent true ("New payment method (" ++ result_customer_uid
                         ++ ") has been created.") result_customer_uid,
              set_methods c d)
    | inl iamport_error =>
        Some (SentError "Something went wrong with I'mport while registering new payment method."
                (Some (GatewayError.code iamport_error)),
              d)
    end.
(** [subscribe]: the response and the process afterwards.  [charge_num]
    is [None] when the body has none (or has 0): the first charge is
    number 0.  Otherwise it is the number in the body, a non-negative
    integer.  The result is [None], "not modelled", when that number is
    above 2^53: the template prints such a number as the double it is
    rounded to, and from 1e21 on in the exponent form. *)
Definition subscribe (now : Z) (business_id billing_plan : string)
    (amount vat : Z) (charge_num : option N) (w : world)
  : option (response Result.t * world) :=
  match billing_plan_type billing_plan with
  | None =>
      Some
        (SentError "'billing_plan' not supported, must provide either: 4_WEEK,26_WEEK,52_WEEK."
           (Some "castr_payment_error"),
         w)
  | Some _ =>
      let charge_num := default 0%N charge_num in
      if negb (charge_num <=? MAX_SAFE_INTEGER + 1)%N then None else
      let merchant_uid := business_id ++ "_ch" ++ decimal charge_num in
      let subscription_params :=
        {| Params.business_id := business_id;
           Params.merchant_uid := merchant_uid;
           Params.type := payment_type.initial;
           Params.billing_plan := billing_plan;
           Params.pay_date := now;
           Params.amount := amount;
           Params.vat := vat |} in
      match pay iamport subscription_params w with
      | (Resolve data, w') =>
          Some
            (Sent true
               ("Initial payment requested (" ++ merchant_uid ++ ": "
                ++ number_text (Result.amount data) ++ " "
                ++ Result.currency data ++ ")")
               data,
             w')
      | (Reject error, w') =>
          Some
            (SentError
               ("Initial payment request failed (" ++ merchant_uid ++ ": "
                ++ number_text amount ++ ")")
               (code error),
             w')
      end
  end.
End Operations.

(** [changeSubscription]. *)
Definition changeSubscription
    (business_id new_billing_plan : string) (new_amount : Z) (d : db)
  : response change_data * db :=
  match
    findOne (is_in_flight_of business_id) (payment_schedule d)
  with
  | None =>
      (SentError ("Business (" ++ business_id
                  ++ ") is either invalid, not yet subscribed, or is missing next payment schedule")
         None,
       d)
  | Some scheduled_payment =>
      let old_billing_plan := Schedule.billing_plan scheduled_payment in
      let old_amount := Schedule.amount scheduled_payment in
      let schedule := Schedule.schedule scheduled_payment in
      let '(c, _) :=
        updateOne (has_merchant_uid (Schedule.merchant_uid scheduled_payment))
          (Schedule.set_plan_amount new_billing_plan new_amount)
          (payment_schedule d) in
      (Sent true
         ("Business (" ++ business_id ++ "): Subscription change "
          ++ old_billing_plan ++ "(" ++ number_text old_amount ++ ") => "
          ++ new_billing_plan ++ "(" ++ number_text new_amount ++ ")")
         {| cd_business_id := business_id; cd_schedule := schedule;
            cd_old_billing_plan := old_billing_plan;
            cd_new_billing_plan := new_billing_plan |},
       set_schedule c d)
  end.

(** ** The rest of the service: listing, removal, history *)

(** [collection.deleteOne(q)]: the first document that matches goes. *)
Fixpoint deleteOne {A : Type} (q : A -> bool) (c : list A) : list A :=
  match c with
  | [] => []
  | x :: c' => if q x then c' else x :: deleteOne q c'
  end.

(** What [getPaymentMethods] and [getHistory] send: the key of the flag is
    spelled [sucecss] in the source, so the object has no [success]. *)
Record listing (D : Type) := {
  sucecss : bool;
  listing_message : string;
  listing_data : list D;
}.
Arguments sucecss {D}.
Arguments listing_message {D}.
Arguments listing_data {D}.

(** An element of the data of [getPaymentMethods]: the answer of the
    gateway with the stored [default_method] added, or the error object
    built in the [catch]. *)
Inductive method_item (Info : Type) :=
| Fetched (info : Info) (default_method : bool)
| FetchFailed (message : string) (customer_uid : string) (error : GatewayError.t).
Arguments Fetched {Info}.
Arguments FetchFailed {Info}.

(** The filter [{ business_id: b }]. *)
Definition method_of (b : string) (m : Method.t) : bool :=
  bool_decide (Method.business_id m = b).

Definition transaction_of_business (b : string) (t : Tx.t) : bool :=
  bool_decide (Tx.business_id t = b).

Section Customers.
Variable Info : Type.

(** [iamport.subscribe_customer.get] and [iamport.subscribe_customer.delete];
    the latter answers with the [customer_uid] it removed. *)
Variable get_customer : string -> GatewayError.t + Info.
Variable delete_customer : string -> GatewayError.t + string.

(** One promise of [getPaymentMethods]. *)
Definition fetch_method (document : Method.t) : method_item Info :=
  match get_customer (Method.customer_uid document) with
  | inr iamport_result => Fetched iamport_result (Method.default_method document)
  | inl iamport_error =>
      FetchFailed
        ("Failed to fetch payment method (" ++ Method.customer_uid document
         ++ ") from I'mport.")
        (Method.customer_uid document) iamport_error
  end.

(** [getPaymentMethods].  The promises settle in an order the source does
    not fix; the data is given here in the order of the cursor. *)
Definition getPaymentMethods (business_id : string) (d : db)
  : listing (method_item Info) :=
  let documents := find (method_of business_id) (payment_methods d) in
  {| sucecss := true;
     listing_message :=
       "Successfully fetched " ++ decimal (N.of_nat (length documents))
       ++ " payment methods.";
     listing_data := map fetch_method documents |}.

(** [deletePaymentMethod]: the [customer_uid] comes from the body of the
    request; the business of the route is not used. *)
Definition deletePaymentMethod (customer_uid : string) (d : db)
  : response string * db :=
  match delete_customer customer_uid with
  | inr result_customer_uid =>
      (Sent true ("Payment method (" ++ result_customer_uid ++ ") has been removed.")
         result_customer_uid,
       set_methods
         (deleteOne (has_customer_uid result_customer_uid) (payment_methods d)) d)
  | inl iamport_error =>
      (SentError "Something went wrong with I'mport while removing the payment method."
         (Some (GatewayError.code iamport_error)),
       d)
  end.
End Customers.

(** A date of a transaction as [getHistory] sends it: the stored value and
    its renderings ([string] and [string_kr] in the source). *)
Record dated (D : Type) := {
  date : D;
  str : string;
  str_kr : string;
}.
Arguments date {D}.
Arguments str {D}.
Arguments str_kr {D}.

Module HistoryItem.
(** [document] keeps the other fields of the transaction; [pay_date] and
    [time_paid] replace the document's. *)
Record t := {
  document : Tx.t;
  pay_date : dated string;
  time_paid : dated Z;
}.
End HistoryItem.

(** The token YYYY of moment: at least four digits, a sign only when
    negative. *)
Fixpoint zeros (n : nat) : string :=
  match n with
  | O => ""
  | S k => String "0" (zeros k)
  end.

Definition format_YYYY (y : Z) : string :=
  let digits := decimal (Z.to_N (Z.abs y)) in
  (if y <? 0 then "-" else "")
  ++ zeros (4 - String.length digits) ++ digits.

(** [m.locale('kr').tz(seoul).format('LL')], with the long date format
    that [utils.js] gives the locale 'kr'. *)
Definition format_LL_kr (t : Z) : string :=
  let '(y, m, d) := civil_from_days ((t + seoul_offset) / ms_per_day) in
  format_YYYY y ++ "년 " ++ decimal (Z.to_N m) ++ "월 "
  ++ decimal (Z.to_N d) ++ "일".

Section History.
(** [m.tz(utc).format('LL')] in the locale the process runs with. *)
Variable format_LL_utc : Z -> string.

(** The iteration callback of [getHistory].  [None]: the stored pay date
    is in a format [moment] above does not cover. *)
Definition history_item (document : Tx.t) : option HistoryItem.t :=
  pay_date ← moment (Tx.pay_date document);
  Some {| HistoryItem.document := document;
          HistoryItem.pay_date :=
            {| date := Tx.pay_date document;
               str := format_LL_utc pay_date;
               str_kr := format_LL_kr pay_date |};
          HistoryItem.time_paid :=
            {| date := Tx.time_paid document;
               str := format_LL_utc (Tx.time_paid document);
               str_kr := format_LL_kr (Tx.time_paid document) |} |}.

(** [getHistory]. *)
Definition getHistory (business_id : string) (d : db)
  : option (listing HistoryItem.t) :=
  methods ←
    mapM history_item
      (sort_desc Tx.time_paid
         (find (transaction_of_business business_id) (payment_transactions d)));
  Some {| sucecss := true;
          listing_message :=
            "Transaction history fetched for business (" ++ business_id ++ ")";
          listing_data := methods |}.
End History.

(** * Notions used in the properties *)

(** The request [pay] sends for an intent and the default method found. *)
Definition charge_request (p : Params.t) (default_method : Method.t) : Charge.t :=
  {| Charge.merchant_uid := Params.merchant_uid p;
     Charge.customer_uid := Method.customer_uid default_method;
     Charge.name := Name.short (_generateName p);
     Charge.amount := Params.amount p;
     Charge.cancel_amount := Params.amount p;
     Charge.vat := Params.vat p;
     Charge.custom_data :=
       JSON_stringify
         (custom_data_fields p (Method.customer_uid default_method)
            (_generateName p)) |}.

(** The requests that one call of [pay] adds to the gateway log, and the
    reconciler calls it arms, when the store is [d]. *)
Definition request_of (d : db) (p : Params.t) : list Charge.t :=
  match findOne (is_default_of (Params.business_id p)) (payment_methods d) with
  | Some m => [charge_request p m]
  | None => []
  end.

Definition armed_by (iamport : Gateway.t) (d : db) (p : Params.t) : list Result.t :=
  match findOne (is_default_of (Params.business_id p)) (payment_methods d) with
  | Some m =>
      match Gateway.again iamport (charge_request p m) with
      | inr r => [r]
      | inl _ => []
      end
  | None => []
  end.

(** The intent of type SCHEDULED for a document of 'payment-schedule',
    dated at the document's schedule. *)
Definition scheduled_intent (e : Schedule.t) : Params.t :=
  {| Params.business_id := Schedule.business_id e;
     Params.merchant_uid := Schedule.merchant_uid e;
     Params.type := "SCHEDULED";
     Params.billing_plan := Schedule.billing_plan e;
     Params.pay_date := Schedule.schedule e;
     Params.amount := Schedule.amount e;
     Params.vat := Schedule.vat e |}.

(** The failure record of a confirmation. *)
Definition failure_of (r : Result.t) (cd : CustomData.t) : Failure.t :=
  {| Failure.imp_uid := Result.imp_uid r;
     Failure.params := cd;
     Failure.reason := Result.fail_reason r;
     Failure.time_failed := Result.failed_at r * 1000 |}.

(** The number of documents of a collection that satisfy a filter. *)
Definition count {A : Type} (p : A -> bool) (c : list A) : nat :=
  length (List.filter p c).

(** The number of stored methods of a business with [default_method = true]. *)
Definition count_default (b : string) (c : list Method.t) : nat :=
  length (List.filter (is_default_of b) c).

(** At most one default method per business. *)
Definition single_default (c : list Method.t) : Prop :=
  forall b, (count_default b c <= 1)%nat.

(** An array in the order [$sort: { key: -1 }] leaves it in. *)
Definition descending {A : Type} (key : A -> Z) (l : list A) : Prop :=
  StronglySorted (fun a b => key b <= key a) l.

(** Every document with status FAILED has a [failures] array. *)
Definition failed_have_failures (d : db) : Prop :=
  forall e, In e (payment_schedule d) ->
            Schedule.status e = status_type.failed ->
            Schedule.failures e <> None.

(** The merchant_uid of a document is the one the service gives to some
    charge number of the document's business, a number of the model (at
    most 2^53). *)
Definition numbered_merchant_uid (e : Schedule.t) : Prop :=
  exists n : N,
    (n <= MAX_SAFE_INTEGER + 1)%N
    /\ Schedule.merchant_uid e = Schedule.business_id e ++ "_ch" ++ decimal n.

(** The document the PAID branch inserts for the next cycle. *)
Definition next_entry (cd : CustomData.t) (next_charge_num : N) (schedule : Z)
  : Schedule.t :=
  {| Schedule.merchant_uid :=
       CustomData.business_id cd ++ "_ch" ++ decimal next_charge_num;
     Schedule.business_id := CustomData.business_id cd;
     Schedule.schedule := schedule;
     Schedule.amount := CustomData.amount cd;
     Schedule.vat := CustomData.vat cd;
     Schedule.billing_plan := CustomData.billing_plan cd;
     Schedule.status := status_type.pending;
     Schedule.failures := None |}.

(** The year of an instant, in UTC. *)
Definition year_of (t : Z) : Z :=
  let '(y, _, _) := civil_from_days (t / ms_per_day) in y.

(** The object [pay] serializes, and what the reconciler gets back when
    the gateway echoes the text. *)
Definition submitted_metadata (p : Params.t) (m : Method.t) : value :=
  VObj (custom_data_fields p (Method.customer_uid m) (_generateName p)).

Definition echoed_metadata (p : Params.t) (m : Method.t) : value :=
  JSON_parse (Charge.custom_data (charge_request p m)).

(** The typed view the reconciler has of the metadata of an intent. *)
Definition metadata_of (p : Params.t) (m : Method.t) : CustomData.t :=
  {| CustomData.business_id := Params.business_id p;
     CustomData.merchant_uid := Params.merchant_uid p;
     CustomData.customer_uid := Method.customer_uid m;
     CustomData.name := _generateName p;
     CustomData.type := Params.type p;
     CustomData.billing_plan := Params.billing_plan p;
     CustomData.pay_date := toISOString (Params.pay_date p);
     CustomData.amount := Params.amount p;
     CustomData.cancel_amount := Params.amount p;
     CustomData.vat := Params.vat p |}.

(** The position of a day in its 400-year era fixes year of era, month
    and day within their ranges; this is checked on each of the 146097
    days of an era. *)
Definition era_day_ok (doe : Z) : bool :=
  let yoe := (doe - doe / 1460 + doe / 36524 - doe / 146096) / 365 in
  let doy := doe - (365 * yoe + yoe / 4 - yoe / 100) in
  let mp := (5 * doy + 2) / 153 in
  let d := doy - (153 * mp + 2) / 5 + 1 in
  (0 <=? yoe) && (yoe <=? 399) && (0 <=? mp) && (mp <=? 11)
  && (1 <=? d) && (d <=? 31).

(** [f] holds on the [n] integers from [z] on. *)
Fixpoint all_from (n : nat) (z : Z) (f : Z -> bool) : bool :=
  match n with
  | O => true
  | S k => f z && all_from k (z + 1) f
  end.

(** Sample documents, intents and gateways. *)
Module Sample.
Definition method (business_id customer_uid : string) (default_method : bool)
  : Method.t :=
  {| Method.business_id := business_id; Method.customer_uid := customer_uid;
     Method.default_method := default_method;
     Method.created_time := 1700000000000;
     Method.updated_time := 1700000000000 |}.

Definition entry (merchant_uid business_id : string) (schedule : Z)
    (billing_plan status : string) (failures : option (list Failure.t))
  : Schedule.t :=
  {| Schedule.merchant_uid := merchant_uid;
     Schedule.business_id := business_id; Schedule.schedule := schedule;
     Schedule.amount := 11000; Schedule.vat := 1000;
     Schedule.billing_plan := billing_plan; Schedule.status := status;
     Schedule.failures := failures |}.

(** A gateway that answers every charge with the given status and echoes
    the metadata. *)
Definition answer (status : string) (c : Charge.t) : Result.t :=
  {| Result.status := status; Result.imp_uid := "imp_0001";
     Result.merchant_uid := Charge.merchant_uid c;
     Result.currency := "KRW"; Result.amount := Charge.amount c;
     Result.pay_method := "card"; Result.card_name := "BC";
     Result.receipt_url := "https://receipt.example/0001";
     Result.paid_at := 1704067260; Result.failed_at := 1704067260;
     Result.fail_reason := "limit exceeded";
     Result.custom_data := Charge.custom_data c |}.

Definition gateway (status : string) : Gateway.t :=
  {| Gateway.again := fun c => inr (answer status c);
     Gateway.create := fun customer_uid _ => inr customer_uid |}.

Definition gateway_down : Gateway.t :=
  {| Gateway.again := fun _ =>
       inl {| GatewayError.code := "-1"; GatewayError.message := "timeout" |};
     Gateway.create := fun _ _ =>
       inl {| GatewayError.code := "-1"; GatewayError.message := "timeout" |} |}.

(** 2024-01-01 00:00 in Seoul. *)
Definition jan1 : Z := 1704034800000.

Definition intent (type : string) : Params.t :=
  {| Params.business_id := "B1"; Params.merchant_uid := "B1_ch3";
     Params.type := type; Params.billing_plan := "4_WEEK";
     Params.pay_date := jan1; Params.amount := 11000; Params.vat := 1000 |}.

Definition world_of (d : db) : world :=
  {| store := d; timers := []; charges := [] |}.

Definition store_of (m : list Method.t) (s : list Schedule.t) : db :=
  {| payment_methods := m; payment_schedule := s; payment_transactions := [] |}.
End Sample.

(** One business, B1, with two cards and its third scheduled charge. *)
Module SampleRuns.
Import Sample.

Definition m1 : Method.t := method "B1" "B1_1234" true.
Definition m2 : Method.t := method "B1" "B1_5678" false.
Definition p3 : Params.t := intent payment_type.scheduled.
Definition paid3 : Result.t := answer "paid" (charge_request p3 m1).
Definition failed3 : Result.t := answer "failed" (charge_request p3 m1).
Definition e2 : Schedule.t :=
  entry "B1_ch2" "B1" 1701615600000 "4_WEEK" "PAID" None.
Definition e3 : Schedule.t :=
  entry "B1_ch3" "B1" jan1 "4_WEEK" "PENDING" None.
Definition f3 : Schedule.t :=
  entry "B1_ch3" "B1" jan1 "4_WEEK" "FAILED"
    (Some [failure_of failed3 (metadata_of p3 m1)]).
Definition d3 : db := store_of [m1; m2] [e2; e3].
Definition d3_failed : db := store_of [m1; m2] [e2; f3].
End SampleRuns.

(** A run of the service: business B1, with one card, subscribes on
    2024-01-01 with the charge number [MAX_SAFE_INTEGER]; the initial
    charge is confirmed as paid; the scan of 2024-01-29 charges the cycle
    that is due, and that charge is confirmed as paid.  The store at the
    end. *)
Definition subscribed_at_last_safe_number : option db :=
  let gw := Sample.gateway "paid" in
  let w0 := Sample.world_of (Sample.store_of [SampleRuns.m1] []) in
  r1 ← subscribe gw Sample.jan1 "B1" "4_WEEK" 11000 1000 (Some MAX_SAFE_INTEGER) w0;
  w2 ← run_timers (snd r1);
  w4 ← run_timers (snd (_checkScheduledPayments gw 1706454000000 w2));
  Some (store w4).

(** A run of the service: business B1, with one card, subscribes twice
    with the same (absent) charge number on 2024-01-01; both initial
    charges are confirmed as paid; the scan of 2024-01-29 charges what is
    due, and those charges are confirmed as paid.  The store at the end. *)
Definition twice_subscribed : option db :=
  let gw := Sample.gateway "paid" in
  let w0 := Sample.world_of (Sample.store_of [SampleRuns.m1] []) in
  r1 ← subscribe gw Sample.jan1 "B1" "4_WEEK" 11000 1000 None w0;
  r2 ← subscribe gw Sample.jan1 "B1" "4_WEEK" 11000 1000 None (snd r1);
  w3 ← run_timers (snd r2);
  w5 ← run_timers (snd (_checkScheduledPayments gw 1706454000000 w3));
  Some (store w5).

(** The [customer_uid] that [createPaymentMethod] asks the gateway to
    register. *)
Definition customer_uid_of (business_id last_4_digits : string) : string :=
  business_id ++ "_" ++ last_4_digits.

(** The intent [subscribe] submits. *)
Definition initial_intent (now : Z) (business_id billing_plan : string)
    (amount vat : Z) (charge_num : N) : Params.t :=
  {| Params.business_id := business_id;
     Params.merchant_uid := business_id ++ "_ch" ++ decimal charge_num;
     Params.type := payment_type.initial;
     Params.billing_plan := billing_plan;
     Params.pay_date := now;
     Params.amount := amount;
     Params.vat := vat |}.

(** The store of the PAID branch before the next cycle is inserted: the
    transaction is recorded and, for a scheduled payment, the status of
    the paid document is set. *)
Definition paid_store (r : Result.t) (cd : CustomData.t) (d : db) : db :=
  let d1 :=
    set_transactions
      (insertOne (transaction_of r cd status_type.paid) (payment_transactions d))
      d in
  if String.eqb (CustomData.type cd) payment_type.scheduled
  then set_schedule
         (fst (updateOne (has_merchant_uid (CustomData.merchant_uid cd))
                 (Schedule.set_status status_type.paid) (payment_schedule d1)))
         d1
  else d1.

(** The date of the next cycle: the start of the Seoul day that lies the
    cadence of the plan after the pay date (no cadence, no shift). *)
Definition next_pay_date (billing_plan : string) (pay_date : Z) : Z :=
  seoul_midnight (add_weeks (default 0 (billing_plan_type billing_plan)) pay_date).

(** A gateway answer that reports the charge as paid and echoes the
    metadata of the request. *)
Definition paid_echo (request : Charge.t) (r : Result.t) : Prop :=
  Result.status r = "paid"
  /\ Result.custom_data r = Charge.custom_data request.

(** The terms of a billing cycle: everything in a document of
    'payment-schedule' but its status and its failures. *)
Definition terms_of (e : Schedule.t) : string * string * Z * Z * Z * string :=
  (Schedule.merchant_uid e, Schedule.business_id e, Schedule.schedule e,
   Schedule.amount e, Schedule.vat e, Schedule.billing_plan e).

(** A group of a card number: it holds no dash. *)
Fixpoint no_dash (s : string) : bool :=
  match s with
  | EmptyString => true
  | String c s' => negb (Ascii.eqb c "-") && no_dash s'
  end.

(** The filter [{ business_id: b, customer_uid: uid }] of the upsert in
    [createPaymentMethod]. *)
Definition is_method (b uid : string) (m : Method.t) : bool :=
  bool_decide (Method.business_id m = b /\ Method.customer_uid m = uid).

(** The document that the upsert of [createPaymentMethod] inserts. *)
Definition fresh_method (now : Z) (b uid : string) : Method.t :=
  {| Method.business_id := b; Method.customer_uid := uid;
     Method.default_method := false;
     Method.created_time := now; Method.updated_time := now |}.

(** The [$set] of the upsert of [createPaymentMethod]. *)
Definition reset_method (now : Z) (uid : string) (m : Method.t) : Method.t :=
  {| Method.business_id := Method.business_id m;
     Method.customer_uid := uid;
     Method.default_method := false;
     Method.created_time := Method.created_time m;
     Method.updated_time := now |}.

(** The [default_method] of an element of the data of
    [getPaymentMethods]; the error object has none. *)
Definition listed_default {Info : Type} (i : method_item Info) : bool :=
  match i with
  | Fetched _ b => b
  | FetchFailed _ _ _ => false
  end.

(** The text between the business and the plan in the names of a
    payment: the first and the last day of the period. *)
Definition period_text (first_day last_day : Z) : string :=
  format_M_D first_day ++ "-" ++ format_M_D last_day.

(** * Properties *)

(** ** The store primitives *)

Section MongoFacts.
Context {A : Type}.
Implicit Types (q : A -> bool) (u : A -> A) (c : list A).

Lemma updateOne_none q u c :
  findOne q c = None -> updateOne q u c = (c, 0%nat).
Proof.
  unfold findOne. induction c as [|x c IH]; simpl; [done|].
  destruct (q x); [done|]. intros H. by rewrite (IH H).
Qed.

(** The first match is the one document [updateOne] rewrites. *)
Lemma updateOne_some q u c x :
  findOne q c = Some x ->
  exists i : nat,
    c !! i = Some x /\ q x = true
    /\ (forall (j : nat) y, (j < i)%nat -> c !! j = Some y -> q y = false)
    /\ updateOne q u c = (<[i := u x]> c, 1%nat).
Proof.
  unfold findOne. induction c as [|y c IH]; simpl; [done|].
  destruct (q y) eqn:Hq.
  - intros [= ->]. exists 0%nat. repeat split; try done. intros j z Hj. lia.
  - intros H. destruct (IH H) as (i & Hi & Hx & Hlt & Hu).
    exists (S i). rewrite Hu. repeat split; try done.
    intros [|j] z Hj; simpl.
    + by intros [= <-].
    + apply Hlt. lia.
Qed.

Lemma updateOne_length q u c : length (fst (updateOne q u c)) = length c.
Proof.
  induction c as [|x c IH]; simpl; [done|].
  destruct (q x); simpl; [done|].
  destruct (updateOne q u c); simpl in *. by rewrite IH.
Qed.

Lemma updateOne_matched q u c :
  snd (updateOne q u c) = match findOne q c with Some _ => 1%nat | None => 0%nat end.
Proof.
  unfold findOne. induction c as [|x c IH]; simpl; [done|].
  destruct (q x); simpl; [done|].
  destruct (updateOne q u c); simpl in *. done.
Qed.

Lemma findOne_In q c x : findOne q c = Some x -> In x c /\ q x = true.
Proof. apply find_some. Qed.

Lemma findOne_none q c x : findOne q c = None -> In x c -> q x = false.
Proof. intros H. by apply find_none. Qed.

(** Sorting for [$sort]. *)
Lemma insert_desc_perm (key : A -> Z) x l :
  Permutation (insert_desc key x l) (x :: l).
Proof.
  induction l as [|y l IH]; simpl; [done|].
  destruct (key y <? key x); [done|].
  rewrite IH. apply perm_swap.
Qed.

Lemma sort_desc_perm (key : A -> Z) l : Permutation (sort_desc key l) l.
Proof.
  induction l as [|x l IH]; simpl; [done|].
  rewrite insert_desc_perm. by constructor.
Qed.

Lemma insert_desc_sorted (key : A -> Z) x l :
  descending key l -> descending key (insert_desc key x l).
Proof.
  unfold descending. induction l as [|y l IH]; simpl; intros Hs.
  - repeat constructor.
  - apply StronglySorted_inv in Hs as [Hs Hy].
    destruct (key y <? key x) eqn:Hlt.
    + apply Z.ltb_lt in Hlt. constructor.
      * by constructor.
      * constructor; [lia|]. eapply Forall_impl; [exact Hy|].
        simpl. intros. lia.
    + apply Z.ltb_ge in Hlt. constructor; [by apply IH|].
      eapply Permutation_Forall; [symmetry; apply insert_desc_perm|].
      by constructor.
Qed.

Lemma sort_desc_sorted (key : A -> Z) l : descending key (sort_desc key l).
Proof.
  induction l as [|x l IH]; simpl; [constructor|].
  by apply insert_desc_sorted.
Qed.

(** After [$sort] the first element has the greatest key. *)
Lemma sort_desc_head (key : A -> Z) l x :
  exists f0 rest,
    sort_desc key (l ++ [x]) = f0 :: rest
    /\ forall f, In f (f0 :: rest) -> key f <= key f0.
Proof.
  pose proof (sort_desc_sorted key (l ++ [x])) as Hs.
  pose proof (sort_desc_perm key (l ++ [x])) as Hp.
  destruct (sort_desc key (l ++ [x])) as [|f0 rest] eqn:E.
  - apply Permutation_nil in Hp. by destruct l.
  - exists f0, rest. split; [done|].
    apply StronglySorted_inv in Hs as [_ Hall].
    intros f [<-|Hin]; [lia|].
    rewrite Forall_forall in Hall. apply Hall. by apply list_elem_of_In.
Qed.
End MongoFacts.

(** ** The payment submitter *)

Lemma findOne_default_none b c :
  (forall m, In m c -> Method.business_id m = b -> Method.default_method m = false) ->
  findOne (is_default_of b) c = None.
Proof.
  intros H. unfold findOne. destruct (List.find _ c) as [m|] eqn:E; [|done].
  apply find_some in E as [Hin Hq]. unfold is_default_of in Hq.
  apply bool_decide_eq_true in Hq as [Hb Hd].
  rewrite (H m Hin Hb) in Hd. done.
Qed.

(** C3.  When no stored payment method of the intent's business has
    [default_method = true], [pay] rejects with the error about the
    missing default method (code 'castr_payment_error', the intent as
    [params]) and leaves the process as it was: no request is sent to the
    gateway and no reconciler call is armed. *)
Theorem pay_without_default_method
    (iamport : Gateway.t) (p : Params.t) (w : world) :
  (forall m, In m (payment_methods (store w)) ->
             Method.business_id m = Params.business_id p ->
             Method.default_method m = false) ->
  fst (pay iamport p w)
  = Reject {| params := OfIntent p;
              code := Some "castr_payment_error";
              message := "Could not find a default payment method for the business ("
                         ++ Params.business_id p ++ ")." |}
  /\ charges (snd (pay iamport p w)) = charges w
  /\ snd (pay iamport p w) = w.
Proof.
  intros H. apply findOne_default_none in H.
  unfold pay. rewrite H. done.
Qed.

Lemma pay_without_default_method_witness :
  let w := Sample.world_of
             (Sample.store_of [Sample.method "B1" "B1_1234" false;
                               Sample.method "B2" "B2_9999" true] []) in
  let p := Sample.intent payment_type.scheduled in
  (forall m, In m (payment_methods (store w)) ->
             Method.business_id m = Params.business_id p ->
             Method.default_method m = false)
  /\ charges (snd (pay (Sample.gateway "paid") p w)) = [].
Proof.
  intros w p.
  assert (Hno : forall m, In m (payment_methods (store w)) ->
                          Method.business_id m = Params.business_id p ->
                          Method.default_method m = false).
  { intros m [<-|[<-|[]]]; [reflexivity|]. intros Hb. vm_compute in Hb. discriminate Hb. }
  split; [exact Hno|].
  exact (proj1 (proj2 (pay_without_default_method (Sample.gateway "paid") p w Hno))).
Defined.

(** C2.  When the business has a default method, [pay] sends one request
    to the gateway.  If the gateway answers with a result, whatever its
    status, exactly one call of [paymentHook] is armed, with that result;
    if the transport fails, none is armed. *)
Theorem pay_arms_one_reconciler_per_transport_success
    (iamport : Gateway.t) (p : Params.t) (w : world) (m : Method.t) :
  findOne (is_default_of (Params.business_id p)) (payment_methods (store w))
  = Some m ->
  charges (snd (pay iamport p w)) = (charges w ++ [charge_request p m])%list
  /\ match Gateway.again iamport (charge_request p m) with
     | inr iamport_result =>
         timers (snd (pay iamport p w)) = (timers w ++ [iamport_result])%list
     | inl _ => timers (snd (pay iamport p w)) = timers w
     end.
Proof.
  intros H. unfold pay. rewrite H. fold (charge_request p m).
  destruct (Gateway.again iamport (charge_request p m)) as [e|r]; simpl; [done|].
  by destruct (bool_decide _).
Qed.

Lemma pay_arms_one_reconciler_per_transport_success_witness :
  let w := Sample.world_of
             (Sample.store_of [Sample.method "B1" "B1_1234" true] []) in
  let p := Sample.intent payment_type.scheduled in
  let m := Sample.method "B1" "B1_1234" true in
  findOne (is_default_of (Params.business_id p)) (payment_methods (store w)) = Some m
  /\ timers (snd (pay (Sample.gateway "failed") p w))
     = [Sample.answer "failed" (charge_request p m)]
  /\ timers (snd (pay (Sample.gateway "paid") p w))
     = [Sample.answer "paid" (charge_request p m)]
  /\ timers (snd (pay Sample.gateway_down p w)) = [].
Proof.
  intros w p m.
  assert (H : findOne (is_default_of (Params.business_id p))
                (payment_methods (store w)) = Some m) by reflexivity.
  split; [exact H|]. split; [|split].
  - exact (proj2 (pay_arms_one_reconciler_per_transport_success
                    (Sample.gateway "failed") p w m H)).
  - exact (proj2 (pay_arms_one_reconciler_per_transport_success
                    (Sample.gateway "paid") p w m H)).
  - exact (proj2 (pay_arms_one_reconciler_per_transport_success
                    Sample.gateway_down p w m H)).
Defined.

(** ** The daily scan *)

Lemma submit_all_intents iamport l w :
  map fst (fst (submit_all iamport l w)) = l.
Proof.
  revert w. induction l as [|p l IH]; intros w; simpl; [done|].
  destruct (pay iamport p w) as [r w1].
  specialize (IH w1). destruct (submit_all iamport l w1) as [rs w2].
  simpl in *. by rewrite IH.
Qed.

(** What one call of [pay] does to the process: the store is kept, the
    request goes to the gateway log and the answer, if any, arms the
    reconciler.  The settled promise depends on the store only. *)
Lemma pay_effects iamport p w :
  store (snd (pay iamport p w)) = store w
  /\ charges (snd (pay iamport p w)) = (charges w ++ request_of (store w) p)%list
  /\ timers (snd (pay iamport p w)) = (timers w ++ armed_by iamport (store w) p)%list.
Proof.
  unfold pay, request_of, armed_by. destruct (findOne _ _) as [m|].
  - fold (charge_request p m).
    destruct (Gateway.again iamport (charge_request p m)) as [e|r]; cbv zeta.
    + cbn. by rewrite app_nil_r.
    + by destruct (bool_decide _).
  - cbn. by rewrite !app_nil_r.
Qed.

Lemma pay_promise iamport p w1 w2 :
  store w1 = store w2 -> fst (pay iamport p w1) = fst (pay iamport p w2).
Proof.
  intros H. unfold pay. rewrite H. destruct (findOne _ _) as [m|]; [|done].
  destruct (Gateway.again _ _) as [e|r]; cbv zeta; [done|].
  by destruct (bool_decide _).
Qed.

Lemma submit_all_effects iamport l w :
  fst (submit_all iamport l w) = map (fun p => (p, fst (pay iamport p w))) l
  /\ store (snd (submit_all iamport l w)) = store w
  /\ charges (snd (submit_all iamport l w))
     = (charges w ++ flat_map (request_of (store w)) l)%list
  /\ timers (snd (submit_all iamport l w))
     = (timers w ++ flat_map (armed_by iamport (store w)) l)%list.
Proof.
  revert w. induction l as [|p l IH]; intros w.
  - cbn. by rewrite !app_nil_r.
  - cbn [submit_all flat_map map].
    destruct (pay_effects iamport p w) as (Hs & Hc & Ht).
    pose proof (fun q => pay_promise iamport q _ _ Hs) as Hq.
    destruct (pay iamport p w) as [r w1] eqn:Hpay. cbn [fst snd] in *.
    destruct (IH w1) as (IH1 & IH2 & IH3 & IH4).
    destruct (submit_all iamport l w1) as [rs w2]. cbn [fst snd] in *.
    rewrite IH1, IH2, IH3, IH4, Hs, Hc, Ht, <- !app_assoc.
    repeat split; try done. f_equal. apply map_ext. intros q. by rewrite Hq.
Qed.

(** C8.  The daily scan submits, through [pay], one intent of type
    SCHEDULED for each document of 'payment-schedule' that has status
    PENDING and a schedule not later than the start of the current day in
    Seoul (UTC+9), in the order of the collection, and for no other
    document; a document with status FAILED is never among them.  Each
    promise it collects is the one [pay] settles for the intent, the
    gateway log grows by the requests of these calls of [pay] and the
    reconciler is armed with their answers; the store is not written. *)
Theorem daily_scan_submits_pending_due
    (iamport : Gateway.t) (now : Z) (w : world) :
  exists (day_start : Z) (selects : Schedule.t -> bool),
    (day_start + 32400000) mod 86400000 = 0
    /\ day_start <= now < day_start + 86400000
    /\ (forall e, selects e = true <->
                  Schedule.status e = "PENDING" /\ Schedule.schedule e <= day_start)
    /\ (forall e, Schedule.status e = "FAILED" -> selects e = false)
    /\ let intents :=
         map scheduled_intent (List.filter selects (payment_schedule (store w))) in
       let scan := _checkScheduledPayments iamport now w in
       fst scan = map (fun p => (p, fst (pay iamport p w))) intents
       /\ store (snd scan) = store w
       /\ charges (snd scan)
          = (charges w ++ flat_map (request_of (store w)) intents)%list
       /\ timers (snd scan)
          = (timers w ++ flat_map (armed_by iamport (store w)) intents)%list.
Proof.
  exists (seoul_midnight now), (due now).
  assert (Hsel : forall e, due now e = true <->
                   Schedule.status e = "PENDING"
                   /\ Schedule.schedule e <= seoul_midnight now).
  { intros e. unfold due.
    rewrite andb_true_iff, bool_decide_eq_true, Z.leb_le. done. }
  split; [|split; [|split; [exact Hsel|split]]].
  - unfold seoul_midnight, seoul_offset, ms_per_day, ms_per_hour.
    Z.div_mod_to_equations. lia.
  - unfold seoul_midnight, seoul_offset, ms_per_day, ms_per_hour.
    Z.div_mod_to_equations. lia.
  - intros e Hf. destruct (due now e) eqn:Hd; [|done].
    apply Hsel in Hd as [Hp _]. rewrite Hf in Hp. discriminate Hp.
  - cbv zeta. unfold _checkScheduledPayments.
    apply (submit_all_effects iamport
             (map scheduled_intent
                (List.filter (due now) (payment_schedule (store w)))) w).
Qed.

(** A scan on the first of January 2024, 06:00 in Seoul: of a paid, a due
    and a failed document only the due one is submitted, and the gateway
    receives the request for it. *)
Lemma daily_scan_submits_pending_due_witness :
  let gw := Sample.gateway "paid" in
  let now := 1704056400000 in
  let later := Sample.entry "B1_ch5" "B1" (Sample.jan1 + 1) "4_WEEK" "PENDING" None in
  let w := Sample.world_of
             (Sample.store_of [SampleRuns.m1]
                [SampleRuns.e2; SampleRuns.f3; SampleRuns.e3; later]) in
  let scan := _checkScheduledPayments gw now w in
  map fst (fst scan) = [scheduled_intent SampleRuns.e3]
  /\ map Charge.merchant_uid (charges (snd scan)) = ["B1_ch3"]
  /\ map Result.merchant_uid (timers (snd scan)) = ["B1_ch3"]
  /\ exists day_start selects,
       day_start = Sample.jan1
       /\ map selects [SampleRuns.e2; SampleRuns.f3; SampleRuns.e3; later]
          = [false; false; true; false].
Proof.
  intros gw now later w scan.
  split; [vm_compute; reflexivity|]. split; [vm_compute; reflexivity|].
  split; [vm_compute; reflexivity|].
  destruct (daily_scan_submits_pending_due gw now w)
    as (day_start & selects & Hmid & Hday & Hsel & Hfailed & _).
  exists day_start, selects.
  assert (Hstart : day_start = Sample.jan1).
  { unfold now, Sample.jan1 in *. Z.div_mod_to_equations. lia. }
  split; [exact Hstart|]. subst day_start. cbn [map].
  assert (selects SampleRuns.e2 = false) as ->.
  { destruct (selects SampleRuns.e2) eqn:H; [|done].
    apply Hsel in H as [H _]. discriminate H. }
  assert (selects SampleRuns.f3 = false) as -> by (by apply Hfailed).
  assert (selects SampleRuns.e3 = true) as ->.
  { apply Hsel. split; [reflexivity|]. cbn. lia. }
  assert (selects later = false) as ->.
  { destruct (selects later) eqn:H; [|done].
    apply Hsel in H as [_ H]. cbn in H. lia. }
  reflexivity.
Defined.

(** ** The outcome reconciler: FAILED *)

Lemma paymentHook_failed r cd d :
  status_type.at_key (Result.status r) = Some status_type.failed ->
  CustomData.of_value (JSON_parse (Result.custom_data r)) = Some cd ->
  paymentHook r d
  = if String.eqb (CustomData.type cd) payment_type.scheduled
    then Some (set_schedule
                 (fst (updateOne
                         (has_merchant_uid (CustomData.merchant_uid cd))
                         (fun e => push_failure (failure_of r cd)
                                     (Schedule.set_status status_type.failed e))
                         (payment_schedule d))) d)
    else Some d.
Proof.
  intros Hs Hcd. unfold paymentHook. rewrite Hs.
  change (String.eqb status_type.failed status_type.paid) with false.
  change (String.eqb status_type.failed status_type.cancelled) with false.
  change (String.eqb status_type.failed status_type.failed) with true.
  cbv iota. rewrite Hcd. reflexivity.
Qed.

(** C4.  For a FAILED confirmation whose metadata is [cd]: if the intent
    type is not SCHEDULED the store is unchanged; if it is SCHEDULED, only
    'payment-schedule' changes, and there only the first document with the
    merchant_uid of [cd] (none when there is no such document): its status
    becomes FAILED, its [failures] are the former ones and the failure
    record of the confirmation (transaction id, [cd], decline reason,
    failure time), ordered so that [failures[0]] has the latest
    [time_failed]; its other fields stay. *)
Theorem failed_confirmation_updates_only_scheduled
    (r : Result.t) (cd : CustomData.t) (d : db) :
  status_type.at_key (Result.status r) = Some status_type.failed ->
  CustomData.of_value (JSON_parse (Result.custom_data r)) = Some cd ->
  (CustomData.type cd <> payment_type.scheduled -> paymentHook r d = Some d)
  /\ (CustomData.type cd = payment_type.scheduled ->
      exists d',
        paymentHook r d = Some d'
        /\ payment_methods d' = payment_methods d
        /\ payment_transactions d' = payment_transactions d
        /\ match findOne (has_merchant_uid (CustomData.merchant_uid cd))
                   (payment_schedule d) with
           | None => payment_schedule d' = payment_schedule d
           | Some e =>
               exists (i : nat) (e' : Schedule.t) (f0 : Failure.t) (rest : list Failure.t),
                 payment_schedule d !! i = Some e
                 /\ payment_schedule d' = <[i := e']> (payment_schedule d)
                 /\ Schedule.status e' = status_type.failed
                 /\ Schedule.failures e' = Some (f0 :: rest)
                 /\ Permutation (f0 :: rest)
                      (failure_of r cd :: default [] (Schedule.failures e))
                 /\ (forall f, In f (f0 :: rest) ->
                               Failure.time_failed f <= Failure.time_failed f0)
                 /\ Schedule.merchant_uid e' = Schedule.merchant_uid e
                 /\ Schedule.business_id e' = Schedule.business_id e
                 /\ Schedule.schedule e' = Schedule.schedule e
                 /\ Schedule.amount e' = Schedule.amount e
                 /\ Schedule.vat e' = Schedule.vat e
                 /\ Schedule.billing_plan e' = Schedule.billing_plan e
           end).
Proof.
  intros Hs Hcd. rewrite (paymentHook_failed r cd d Hs Hcd). split.
  - intros Hty. apply String.eqb_neq in Hty. by rewrite Hty.
  - intros Hty. rewrite Hty. rewrite String.eqb_refl.
    eexists. split; [reflexivity|]. split; [reflexivity|]. split; [reflexivity|].
    simpl.
    destruct (findOne _ (payment_schedule d)) as [e|] eqn:Hfind.
    + destruct (updateOne_some _
                  (fun e => push_failure (failure_of r cd)
                              (Schedule.set_status status_type.failed e))
                  _ _ Hfind) as (i & Hi & _ & _ & Hu).
      rewrite Hu. simpl.
      destruct (sort_desc_head Failure.time_failed
                  (default [] (Schedule.failures e)) (failure_of r cd))
        as (f0 & rest & Hsort & Hmax).
      exists i, (push_failure (failure_of r cd)
                   (Schedule.set_status status_type.failed e)), f0, rest.
      split; [exact Hi|]. split; [reflexivity|]. split; [reflexivity|].
      split; [simpl; by rewrite Hsort|].
      split.
      { rewrite <- Hsort. rewrite sort_desc_perm.
        rewrite Permutation_app_comm. reflexivity. }
      split; [exact Hmax|]. repeat split.
    + by rewrite (updateOne_none _ _ _ Hfind).
Qed.

(** ** Changing a subscription *)

Lemma lookup_same_key {A B : Type} (f : A -> B) (l : list A) (i j : nat) x y :
  NoDup (map f l) -> l !! i = Some x -> l !! j = Some y -> f x = f y -> i = j.
Proof.
  revert i j. induction l as [|a l IH]; intros i j Hnd Hi Hj Hf; [done|].
  simpl in Hnd. apply NoDup_cons in Hnd as [Hnotin Hnd].
  destruct i as [|i], j as [|j]; simpl in *.
  - done.
  - injection Hi as ->. exfalso. apply Hnotin. rewrite Hf.
    apply list_elem_of_In, in_map, list_elem_of_In.
    by eapply list_elem_of_lookup_2.
  - injection Hj as ->. exfalso. apply Hnotin. rewrite <- Hf.
    apply list_elem_of_In, in_map, list_elem_of_In.
    by eapply list_elem_of_lookup_2.
  - f_equal. by eapply IH.
Qed.

(** C7.  With merchant_uids that identify the documents of
    'payment-schedule': when the business has a document with status
    PENDING or FAILED, [changeSubscription] rewrites that document (the
    first such) and nothing else, and in it only [billing_plan] and
    [amount]; when it has none, the answer is the error and the store is
    unchanged. *)
Theorem changeSubscription_touches_one_entry
    (business_id new_billing_plan : string) (new_amount : Z) (d : db) :
  NoDup (map Schedule.merchant_uid (payment_schedule d)) ->
  let answer := fst (changeSubscription business_id new_billing_plan new_amount d) in
  let d' := snd (changeSubscription business_id new_billing_plan new_amount d) in
  match findOne (is_in_flight_of business_id) (payment_schedule d) with
  | Some e =>
      exists (i : nat) (e' : Schedule.t),
        payment_schedule d !! i = Some e
        /\ payment_schedule d' = <[i := e']> (payment_schedule d)
        /\ payment_methods d' = payment_methods d
        /\ payment_transactions d' = payment_transactions d
        /\ Schedule.billing_plan e' = new_billing_plan
        /\ Schedule.amount e' = new_amount
        /\ Schedule.schedule e' = Schedule.schedule e
        /\ Schedule.status e' = Schedule.status e
        /\ Schedule.merchant_uid e' = Schedule.merchant_uid e
        /\ Schedule.failures e' = Schedule.failures e
        /\ Schedule.business_id e' = Schedule.business_id e
        /\ Schedule.vat e' = Schedule.vat e
        /\ exists message data, answer = Sent true message data
  | None =>
      d' = d
      /\ answer
         = SentError ("Business (" ++ business_id
                      ++ ") is either invalid, not yet subscribed, or is missing next payment schedule")
             None
  end.
Proof.
  intros Hnd. unfold changeSubscription.
  destruct (findOne (is_in_flight_of business_id) (payment_schedule d))
    as [e|] eqn:Hfind; [|done].
  destruct (updateOne_some _ (fun x => x) _ _ Hfind) as (i & Hi & _ & _ & _).
  assert (Hfirst : findOne (has_merchant_uid (Schedule.merchant_uid e))
                     (payment_schedule d) <> None).
  { intros Hn. apply findOne_In in Hfind as [Hin _].
    pose proof (findOne_none _ _ e Hn Hin) as Hq.
    unfold has_merchant_uid in Hq. by rewrite bool_decide_eq_false in Hq. }
  destruct (findOne (has_merchant_uid (Schedule.merchant_uid e))
              (payment_schedule d)) as [e0|] eqn:Hfind0; [|done].
  destruct (updateOne_some _
              (Schedule.set_plan_amount new_billing_plan new_amount)
              _ _ Hfind0) as (i0 & Hi0 & Hq0 & _ & Hu).
  unfold has_merchant_uid in Hq0. apply bool_decide_eq_true in Hq0.
  assert (i0 = i) as -> by (by eapply (lookup_same_key Schedule.merchant_uid)).
  assert (e0 = e) as -> by congruence.
  rewrite Hu.
  exists i, (Schedule.set_plan_amount new_billing_plan new_amount e).
  repeat split; try done. by eexists _, _.
Qed.

(** ** Default payment methods *)

Section CountFacts.
Context {A : Type}.
Implicit Types (p q : A -> bool) (u : A -> A) (c : list A).

Lemma count_cons p x c :
  count p (x :: c) = ((if p x then 1 else 0) + count p c)%nat.
Proof. unfold count. simpl. by destruct (p x). Qed.

Lemma count_app p c1 c2 : count p (c1 ++ c2) = (count p c1 + count p c2)%nat.
Proof. unfold count. by rewrite List.filter_app, List.length_app. Qed.

Lemma count_pos p c x : In x c -> p x = true -> (1 <= count p c)%nat.
Proof.
  induction c as [|y c IH]; [done|]. rewrite count_cons.
  intros [->|Hin] Hp; [rewrite Hp; lia|]. specialize (IH Hin Hp). lia.
Qed.

Lemma count_zero p c : count p c = 0%nat -> forall x, In x c -> p x = false.
Proof.
  intros H x Hin. destruct (p x) eqn:Hp; [|done].
  pose proof (count_pos p c x Hin Hp). lia.
Qed.

(** What one [updateOne] does to a count. *)
Lemma count_updateOne p q u c :
  (count p (fst (updateOne q u c)) + match findOne q c with
                                     | Some x => if p x then 1 else 0
                                     | None => 0
                                     end
   = count p c + match findOne q c with
                 | Some x => if p (u x) then 1 else 0
                 | None => 0
                 end)%nat.
Proof.
  unfold findOne. induction c as [|x c IH]; simpl; [done|].
  destruct (q x) eqn:Hq; simpl.
  - rewrite !count_cons. destruct (p x), (p (u x)); lia.
  - destruct (updateOne q u c) as [c' n]. simpl in *.
    rewrite !count_cons. destruct (p x); lia.
Qed.
End CountFacts.

Lemma count_default_unset b b' c :
  count_default b' (fst (updateOne (is_default_of b)
                           (Method.set_default_method false) c))
  = if bool_decide (b' = b) then pred (count_default b c) else count_default b' c.
Proof.
  pose proof (count_updateOne (is_default_of b') (is_default_of b)
                (Method.set_default_method false) c) as H.
  unfold count in H. unfold count_default.
  destruct (findOne (is_default_of b) c) as [x|] eqn:Hfind.
  - apply findOne_In in Hfind as [Hin Hq].
    assert (Hu : is_default_of b' (Method.set_default_method false x) = false).
    { unfold is_default_of. apply bool_decide_eq_false. simpl. by intros [_ ?]. }
    rewrite Hu in H. unfold is_default_of in Hq.
    apply bool_decide_eq_true in Hq as [Hb Hd].
    case_bool_decide as Hbb.
    + subst b'. assert (Hp : is_default_of b x = true).
      { unfold is_default_of. by apply bool_decide_eq_true. }
      rewrite Hp in H. lia.
    + assert (Hp : is_default_of b' x = false).
      { unfold is_default_of. apply bool_decide_eq_false. intros [? _]. congruence. }
      rewrite Hp in H. lia.
  - case_bool_decide as Hbb; [|lia]. subst b'.
    assert (length (List.filter (is_default_of b) c) = 0%nat) as Hz.
    { destruct (List.filter _ c) as [|y l] eqn:E; [done|].
      assert (Hy : In y (List.filter (is_default_of b) c)) by (rewrite E; by left).
      apply filter_In in Hy as [Hin Hq].
      by rewrite (findOne_none _ _ y Hfind Hin) in Hq. }
    lia.
Qed.

(** An update of [default_method] keeps the business and the customer_uid
    of every document. *)
Lemma updateOne_set_default_In q v (c : list Method.t) m :
  In m (fst (updateOne q (Method.set_default_method v) c)) ->
  exists m0, In m0 c
             /\ Method.business_id m = Method.business_id m0
             /\ Method.customer_uid m = Method.customer_uid m0.
Proof.
  induction c as [|x c IH]; simpl; [done|].
  destruct (q x); simpl.
  - intros [<-|Hin]; [exists x; split; [by left|done]|].
    exists m. split; [by right|done].
  - destruct (updateOne q _ c) as [c' n']. simpl in *.
    intros [<-|Hin]; [exists x; split; [by left|done]|].
    destruct (IH Hin) as (m0 & ? & ?). exists m0. split; [by right|done].
Qed.

Lemma unset_then_set_no_match b cu c :
  (forall m, In m c -> Method.customer_uid m <> cu) ->
  unset_then_set b cu c
  = (fst (updateOne (is_default_of b) (Method.set_default_method false) c), 0%nat).
Proof.
  intros Hno. unfold unset_then_set.
  pose proof (fun m => updateOne_set_default_In (is_default_of b) false c m) as Hcu.
  destruct (updateOne (is_default_of b) (Method.set_default_method false) c)
    as [unset n]. simpl in *.
  apply updateOne_none. unfold findOne.
  destruct (List.find _ unset) as [m|] eqn:E; [|done].
  apply find_some in E as [Hin Hq]. unfold has_customer_uid in Hq.
  apply bool_decide_eq_true in Hq.
  destruct (Hcu m Hin) as (m0 & Hin0 & _ & Heq). exfalso.
  apply (Hno m0 Hin0). congruence.
Qed.

(** C10.  When no stored method has the given [customer_uid],
    [setAsDefault] answers with the error after the unset step has been
    applied: the first method of the business with [default_method =
    true], if there is one, is in the store with [default_method = false]
    and is otherwise as it was, so the business has one default method
    fewer than before, and none if it had at most one.  Nothing else is
    written, and no payment is submitted. *)
Theorem setAsDefault_unknown_method_unsets_default
    (iamport : Gateway.t) (now : Z) (business_id customer_uid : string) (w : world) :
  (forall m, In m (payment_methods (store w)) ->
             Method.customer_uid m <> customer_uid) ->
  let answer := fst (setAsDefault iamport now business_id customer_uid w) in
  let w' := snd (setAsDefault iamport now business_id customer_uid w) in
  answer = SentError ("No payment method was found for the given 'customer_uid' ("
                      ++ customer_uid ++ ").") (Some "castr_payment_error")
  /\ match findOne (is_default_of business_id) (payment_methods (store w)) with
     | Some m =>
         exists (i : nat) (m' : Method.t),
           payment_methods (store w) !! i = Some m
           /\ payment_methods (store w')
              = <[i := m']> (payment_methods (store w))
           /\ Method.default_method m' = false
           /\ Method.business_id m' = Method.business_id m
           /\ Method.customer_uid m' = Method.customer_uid m
           /\ Method.created_time m' = Method.created_time m
           /\ Method.updated_time m' = Method.updated_time m
     | None => payment_methods (store w') = payment_methods (store w)
     end
  /\ count_default business_id (payment_methods (store w'))
     = pred (count_default business_id (payment_methods (store w)))
  /\ ((count_default business_id (payment_methods (store w)) <= 1)%nat ->
      count_default business_id (payment_methods (store w')) = 0%nat)
  /\ payment_schedule (store w') = payment_schedule (store w)
  /\ payment_transactions (store w') = payment_transactions (store w)
  /\ timers w' = timers w
  /\ charges w' = charges w.
Proof.
  intros Hno answer w'. subst answer w'. unfold setAsDefault.
  rewrite (unset_then_set_no_match _ _ _ Hno). simpl.
  split; [done|]. split.
  - destruct (findOne _ (payment_methods (store w))) as [m|] eqn:Hfind.
    + destruct (updateOne_some _ (Method.set_default_method false) _ _ Hfind)
        as (i & Hi & _ & _ & Hu).
      exists i, (Method.set_default_method false m). by rewrite Hu.
    + by rewrite (updateOne_none _ _ _ Hfind).
  - rewrite count_default_unset.
    rewrite bool_decide_eq_true_2 by done. repeat split; try done. lia.
Qed.

(** C9.  When [setAsDefault] succeeds and the business has a document
    with status FAILED in 'payment-schedule' (the first such, [e], which
    as a failed payment has its [failures]), the call ends in the state
    that [pay] produces for the intent of type SCHEDULED with the
    merchant_uid, plan, amount and vat of [e] and the current time as pay
    date; the answer of [setAsDefault] is the same for every gateway, so
    it shows nothing of the outcome of that payment. *)
Theorem setAsDefault_resubmits_failed_payment
    (iamport : Gateway.t) (now : Z) (business_id customer_uid : string)
    (w : world) (e : Schedule.t) (fs : list Failure.t) :
  (exists message data,
     fst (setAsDefault iamport now business_id customer_uid w)
     = Sent true message data) ->
  findOne (is_failed_of business_id) (payment_schedule (store w)) = Some e ->
  Schedule.failures e = Some fs ->
  let w1 :=
    set_store
      (set_methods
         (fst (unset_then_set business_id customer_uid (payment_methods (store w))))
         (store w)) w in
  let intent :=
    {| Params.business_id := Schedule.business_id e;
       Params.merchant_uid := Schedule.merchant_uid e;
       Params.type := payment_type.scheduled;
       Params.billing_plan := Schedule.billing_plan e;
       Params.pay_date := now;
       Params.amount := Schedule.amount e;
       Params.vat := Schedule.vat e |} in
  snd (setAsDefault iamport now business_id customer_uid w)
  = snd (pay iamport intent w1)
  /\ forall iamport' : Gateway.t,
       fst (setAsDefault iamport' now business_id customer_uid w)
       = Sent true ("Payment method (" ++ customer_uid
                    ++ ") has been set as default.") customer_uid.
Proof.
  intros (message & data & Hok) Hfind Hfs w1 intent. subst w1 intent.
  unfold setAsDefault in *.
  destruct (unset_then_set business_id customer_uid (payment_methods (store w)))
    as [set matchedCount].
  destruct (matchedCount =? 0)%nat; [simpl in Hok; discriminate Hok|].
  simpl. rewrite Hfind, Hfs. split; [reflexivity|]. intros iamport'. reflexivity.
Qed.

(** C5, the failing case.  'payment-methods' holds two methods of B2, one
    of them the default; setting the other as default through a request
    for business B1 succeeds and leaves B2 with two default methods: the
    unset step filters on the business of the request, the set step on
    the [customer_uid] alone. *)
Theorem setAsDefault_foreign_method_two_defaults :
  let c := [Sample.method "B2" "B2_1111" true;
            Sample.method "B2" "B2_2222" false] in
  let w := Sample.world_of (Sample.store_of c []) in
  let r := setAsDefault (Sample.gateway "paid") Sample.jan1 "B1" "B2_2222" w in
  single_default c
  /\ fst r = Sent true "Payment method (B2_2222) has been set as default." "B2_2222"
  /\ payment_methods (store (snd r))
     = [Sample.method "B2" "B2_1111" true; Sample.method "B2" "B2_2222" true]
  /\ count_default "B2" (payment_methods (store (snd r))) = 2%nat
  /\ ~ single_default (payment_methods (store (snd r))).
Proof.
  intros c w r. split.
  - intros b. unfold count_default, c. simpl. unfold is_default_of. simpl.
    repeat case_bool_decide; simpl; try lia; naive_solver.
  - split; [reflexivity|]. split; [reflexivity|]. split; [reflexivity|].
    intros H. specialize (H "B2"). vm_compute in H. lia.
Qed.

(** ** Numbers in a merchant_uid *)

Section DigitFacts.
Lemma append_cons (a : ascii) (s t : string) :
  String a s ++ t = String a (s ++ t).
Proof. reflexivity. Qed.

Lemma append_empty (t : string) : "" ++ t = t.
Proof. reflexivity. Qed.

Lemma append_length (s t : string) :
  String.length (s ++ t) = (String.length s + String.length t)%nat.
Proof.
  induction s as [|a s IH]; [done|]. rewrite append_cons. simpl. by rewrite IH.
Qed.

Lemma append_assoc (s t v : string) : (s ++ t) ++ v = s ++ (t ++ v).
Proof.
  induction s as [|a s IH]; [done|]. rewrite !append_cons. by rewrite IH.
Qed.

Lemma all_digits_string_of_uint (d : Decimal.uint) :
  all_digits (NilEmpty.string_of_uint d) = true.
Proof. induction d; simpl; done. Qed.

Lemma all_digits_decimal (n : N) : all_digits (decimal n) = true.
Proof. apply all_digits_string_of_uint. Qed.

Lemma decimal_nonempty (n : N) : decimal n <> EmptyString.
Proof.
  unfold decimal. destruct n as [|p]; simpl; [done|].
  pose proof (DecimalPos.Unsigned.to_uint_nonnil p) as H.
  destruct (Pos.to_uint p); simpl; done.
Qed.

Lemma digits_value_decimal (n : N) : digits_value (decimal n) = Some n.
Proof.
  unfold digits_value. pose proof (decimal_nonempty n) as H.
  destruct (decimal n) eqn:E; [done|]. rewrite <- E. unfold decimal.
  rewrite NilEmpty.usu. simpl. by rewrite DecimalN.Unsigned.of_to.
Qed.

Lemma parseInt_safe (s : string) (n : N) :
  parseInt s = Some n
  <-> digits_value s = Some n /\ (n <= MAX_SAFE_INTEGER + 1)%N.
Proof.
  unfold parseInt. destruct (digits_value s) as [m|]; cbn [mbind option_bind].
  - destruct (N.leb_spec m (MAX_SAFE_INTEGER + 1)) as [Hle|Hgt].
    + split; [by intros [= <-]|by intros [[= <-] _]].
    + split; [done|]. intros [[= <-] Hle]. lia.
  - split; [done|by intros [? _]].
Qed.

Lemma parseInt_decimal (n : N) :
  (n <= MAX_SAFE_INTEGER + 1)%N -> parseInt (decimal n) = Some n.
Proof. intros H. apply parseInt_safe. split; [apply digits_value_decimal|done]. Qed.

Lemma plus_one_safe (n : N) : (n <= MAX_SAFE_INTEGER)%N -> plus_one n = (n + 1)%N.
Proof. intros H. unfold plus_one. by rewrite (proj2 (N.leb_le _ _) H). Qed.

Lemma plus_one_bound (n : N) :
  (n <= MAX_SAFE_INTEGER + 1)%N -> (plus_one n <= MAX_SAFE_INTEGER + 1)%N.
Proof.
  intros H. unfold plus_one. destruct (N.leb_spec n MAX_SAFE_INTEGER); lia.
Qed.

Lemma trailing_digits_length (s : string) :
  (String.length (trailing_digits s) <= String.length s)%nat.
Proof.
  induction s as [|c s IH]; simpl; [done|].
  destruct (is_digit c && _); simpl; lia.
Qed.

Lemma trailing_digits_after (p : string) (c : ascii) (d : string) :
  is_digit c = false -> all_digits d = true ->
  trailing_digits (p ++ String c d) = d.
Proof.
  intros Hc Hd.
  assert (Hall : forall s, all_digits s = true -> trailing_digits s = s).
  { induction s as [|a s IH]; simpl; [done|].
    intros [Ha Hs]%andb_true_iff. rewrite (IH Hs), Ha, Nat.eqb_refl. done. }
  induction p as [|a p IH].
  - rewrite append_empty. simpl. rewrite Hc. simpl. by apply Hall.
  - rewrite append_cons. simpl. rewrite IH.
    assert ((String.length d =? String.length (p ++ String c d))%nat = false) as ->.
    { apply Nat.eqb_neq. rewrite append_length. simpl. lia. }
    by rewrite andb_false_r.
Qed.

(** The digits that [/\d+$/] finds in a merchant_uid the service made. *)
Lemma match_digits_merchant_uid (business_id : string) (n : N) :
  match_digits_at_end (business_id ++ "_ch" ++ decimal n) = Some (decimal n).
Proof.
  unfold match_digits_at_end.
  assert (business_id ++ "_ch" ++ decimal n
          = (business_id ++ "_c") ++ String "h" (decimal n)) as ->.
  { by rewrite append_assoc. }
  rewrite trailing_digits_after; [|done|apply all_digits_decimal].
  pose proof (decimal_nonempty n). by destruct (decimal n).
Qed.
End DigitFacts.

(** ** The outcome reconciler: PAID *)

(** The start of the day in Seoul. *)
Lemma seoul_midnight_spec (t : Z) :
  (seoul_midnight t + seoul_offset) mod ms_per_day = 0
  /\ seoul_midnight t <= t < seoul_midnight t + ms_per_day.
Proof.
  unfold seoul_midnight, seoul_offset, ms_per_day, ms_per_hour.
  Z.div_mod_to_equations. lia.
Qed.

(** C1.  For a PAID confirmation whose metadata [cd] has intent type
    SCHEDULED, a plan of the catalogue (cadence [weeks]), a pay date that
    reads as the instant [intended], and the merchant_uid the service
    gives to charge number [n] of the business, a safe integer: the
    reconciler records the transaction, sets the status of the first
    document with that merchant_uid to PAID and changes nothing else in
    it, and appends exactly one document, with status PENDING and the
    merchant_uid of charge number [n + 1], whose schedule is the start of
    the Seoul day (UTC+9, so 32400000 ms ahead; a day is 86400000 ms) on
    which [intended] plus [weeks] weeks falls. *)
Theorem paid_scheduled_confirmation_schedules_next_cycle
    (r : Result.t) (cd : CustomData.t) (d : db) (weeks intended : Z) (n : N) :
  Result.status r = "paid" ->
  CustomData.of_value (JSON_parse (Result.custom_data r)) = Some cd ->
  CustomData.type cd = "SCHEDULED" ->
  In (CustomData.billing_plan cd, weeks) [("4_WEEK", 4); ("26_WEEK", 26); ("52_WEEK", 52)] ->
  moment (CustomData.pay_date cd) = Some intended ->
  CustomData.merchant_uid cd = CustomData.business_id cd ++ "_ch" ++ decimal n ->
  (n <= MAX_SAFE_INTEGER)%N ->
  exists (d' : db) (updated : list Schedule.t) (next : Schedule.t),
    paymentHook r d = Some d'
    /\ payment_schedule d' = (updated ++ [next])%list
    /\ ((exists (i : nat) (e paid : Schedule.t),
           payment_schedule d !! i = Some e
           /\ Schedule.merchant_uid e = CustomData.merchant_uid cd
           /\ (forall (j : nat) e', (j < i)%nat -> payment_schedule d !! j = Some e' ->
                                    Schedule.merchant_uid e' <> CustomData.merchant_uid cd)
           /\ updated = <[i := paid]> (payment_schedule d)
           /\ Schedule.status paid = "PAID"
           /\ Schedule.merchant_uid paid = Schedule.merchant_uid e
           /\ Schedule.business_id paid = Schedule.business_id e
           /\ Schedule.schedule paid = Schedule.schedule e
           /\ Schedule.amount paid = Schedule.amount e
           /\ Schedule.vat paid = Schedule.vat e
           /\ Schedule.billing_plan paid = Schedule.billing_plan e
           /\ Schedule.failures paid = Schedule.failures e)
        \/ ((forall e, In e (payment_schedule d) ->
                       Schedule.merchant_uid e <> CustomData.merchant_uid cd)
            /\ updated = payment_schedule d))
    /\ Schedule.status next = "PENDING"
    /\ (Schedule.schedule next + 32400000) mod 86400000 = 0
    /\ Schedule.schedule next <= intended + weeks * 7 * 86400000
       < Schedule.schedule next + 86400000
    /\ Schedule.merchant_uid next
       = CustomData.business_id cd ++ "_ch" ++ decimal (n + 1)
    /\ Schedule.business_id next = CustomData.business_id cd
    /\ Schedule.billing_plan next = CustomData.billing_plan cd
    /\ Schedule.amount next = CustomData.amount cd
    /\ Schedule.vat next = CustomData.vat cd
    /\ Schedule.failures next = None
    /\ payment_methods d' = payment_methods d
    /\ payment_transactions d'
       = (payment_transactions d ++ [transaction_of r cd status_type.paid])%list.
Proof.
  intros Hs Hcd Hty Hplan' Hdate Huid Hn.
  assert (Hplan : billing_plan_type (CustomData.billing_plan cd) = Some weeks).
  { destruct Hplan' as [[= <- <-]|[[= <- <-]|[[= <- <-]|[]]]]; reflexivity. }
  unfold paymentHook. rewrite Hs.
  change (status_type.at_key "paid") with (Some status_type.paid).
  change (String.eqb status_type.paid status_type.paid) with true.
  cbv iota. rewrite Hcd. simpl.
  rewrite Hty. change (String.eqb "SCHEDULED" payment_type.scheduled) with true.
  cbv iota. rewrite Hdate. simpl. rewrite Hplan. simpl.
  assert (Hm : match_digits_at_end (CustomData.merchant_uid cd) = Some (decimal n))
    by (rewrite Huid; apply match_digits_merchant_uid).
  rewrite Hm, (parseInt_decimal n) by lia. simpl. rewrite (plus_one_safe n Hn).
  eexists _, _, _. split; [reflexivity|]. simpl.
  split; [reflexivity|]. split.
  - destruct (findOne (has_merchant_uid (CustomData.merchant_uid cd))
                (payment_schedule d)) as [e|] eqn:Hfind.
    + destruct (updateOne_some _ (Schedule.set_status status_type.paid) _ _ Hfind)
        as (i & Hi & Hq & Hlt & Hu).
      left. exists i, e, (Schedule.set_status status_type.paid e).
      rewrite Hu. split; [exact Hi|].
      split; [by apply bool_decide_eq_true in Hq|]. split.
      * intros j e' Hj He'. specialize (Hlt j e' Hj He').
        by apply bool_decide_eq_false in Hlt.
      * repeat split.
    + right. rewrite (updateOne_none _ _ _ Hfind). split; [|done].
      intros e He. pose proof (findOne_none _ _ e Hfind He) as Hq.
      by apply bool_decide_eq_false in Hq.
  - pose proof (seoul_midnight_spec (add_weeks weeks intended)) as [Hmid Hday].
    unfold add_weeks in Hmid, Hday.
    change seoul_offset with 32400000 in Hmid.
    change ms_per_day with 86400000 in Hmid, Hday.
    cbn [Schedule.schedule Schedule.status]. unfold add_weeks.
    change ms_per_day with 86400000.
    repeat split; try done; lia.
Qed.

(** ** Dates in text *)

Section CalendarFacts.

Lemma all_from_spec n z f :
  all_from n z f = true -> forall x, z <= x < z + Z.of_nat n -> f x = true.
Proof.
  revert z. induction n as [|k IH]; simpl; intros z H x Hx; [lia|].
  apply andb_true_iff in H as [Hz Hr].
  destruct (Z.eq_dec x z) as [->|Hne]; [done|].
  apply (IH (z + 1)); [done|lia].
Qed.

Lemma era_days_ok : all_from (Z.to_nat 146097) 0 era_day_ok = true.
Proof. vm_compute. reflexivity. Qed.

Lemma era_day_ok_spec doe :
  0 <= doe < 146097 -> era_day_ok doe = true.
Proof.
  intros H. apply (all_from_spec _ _ _ era_days_ok). rewrite Z2Nat.id; lia.
Qed.

(** The day number of the date of a day number is that day number. *)
Lemma days_from_civil_from_days (z : Z) :
  let '(y, m, d) := civil_from_days z in
  days_from_civil y m d = z /\ 1 <= m <= 12 /\ 1 <= d <= 31.
Proof.
  unfold civil_from_days.
  set (z' := z + 719468). set (era := z' / 146097).
  set (doe := z' - era * 146097).
  assert (Hdoe : 0 <= doe < 146097).
  { subst doe era. pose proof (Z.mod_pos_bound z' 146097 ltac:(lia)).
    rewrite Z.mod_eq in H by lia. lia. }
  pose proof (era_day_ok_spec doe Hdoe) as Hok. unfold era_day_ok in Hok.
  set (yoe := (doe - doe / 1460 + doe / 36524 - doe / 146096) / 365) in *.
  set (doy := doe - (365 * yoe + yoe / 4 - yoe / 100)) in *.
  set (mp := (5 * doy + 2) / 153) in *.
  set (d := doy - (153 * mp + 2) / 5 + 1) in *.
  repeat (apply andb_true_iff in Hok as [Hok ?]).
  repeat match goal with
         | H : (_ <=? _) = true |- _ => apply Z.leb_le in H
         end.
  assert (Hd : d = doy - (153 * mp + 2) / 5 + 1) by reflexivity.
  assert (Hdoy : doy = doe - (365 * yoe + yoe / 4 - yoe / 100)) by reflexivity.
  assert (Hz : doe = z + 719468 - era * 146097) by reflexivity.
  clearbody d doy mp yoe doe era. clear z'.
  assert (Hera : (yoe + era * 400) / 400 = era).
  { symmetry. apply (Z.div_unique _ _ _ yoe); lia. }
  unfold days_from_civil.
  destruct (mp <? 10) eqn:Hmp;
    [apply Z.ltb_lt in Hmp | apply Z.ltb_ge in Hmp].
  - assert ((mp + 3 <=? 2) = false) as -> by (apply Z.leb_gt; lia).
    assert ((2 <? mp + 3) = true) as -> by (apply Z.ltb_lt; lia).
    rewrite Hera.
    replace (mp + 3 - 3) with mp by lia.
    replace (yoe + era * 400 - era * 400) with yoe by lia.
    split; [lia|lia].
  - assert ((mp - 9 <=? 2) = true) as -> by (apply Z.leb_le; lia).
    assert ((2 <? mp - 9) = false) as -> by (apply Z.ltb_ge; lia).
    replace (yoe + era * 400 + 1 - 1) with (yoe + era * 400) by lia.
    rewrite Hera.
    replace (mp - 9 + 9) with mp by lia.
    replace (yoe + era * 400 - era * 400) with yoe by lia.
    split; [lia|lia].
Qed.
End CalendarFacts.

Section IsoFacts.
Lemma digit_val_char (k : Z) : 0 <= k <= 9 -> digit_val (digit_char k) = Some k.
Proof.
  intros H.
  assert (k = 0 \/ k = 1 \/ k = 2 \/ k = 3 \/ k = 4 \/ k = 5 \/ k = 6
          \/ k = 7 \/ k = 8 \/ k = 9) as Hk by lia.
  repeat (destruct Hk as [->|Hk]; [reflexivity|]). by subst.
Qed.

Lemma num2_char (a b : Z) :
  0 <= a <= 9 -> 0 <= b <= 9 ->
  num2 (digit_char a) (digit_char b) = Some (10 * a + b).
Proof.
  intros Ha Hb. unfold num2. by rewrite !digit_val_char.
Qed.

Lemma num2_digits (n : Z) :
  0 <= n <= 99 ->
  num2 (digit_char (n / 10 mod 10)) (digit_char (n mod 10)) = Some n.
Proof.
  intros H. rewrite num2_char; [f_equal|..]; Z.div_mod_to_equations; lia.
Qed.

Lemma num3_digits (n : Z) :
  0 <= n <= 999 ->
  num3 (digit_char (n / 100 mod 10)) (digit_char (n / 10 mod 10))
    (digit_char (n mod 10)) = Some n.
Proof.
  intros H. unfold num3. rewrite digit_val_char, num2_char; simpl;
    [f_equal|..]; Z.div_mod_to_equations; lia.
Qed.

Lemma num4_digits (n : Z) :
  0 <= n <= 9999 ->
  num4 (digit_char (n / 1000 mod 10)) (digit_char (n / 100 mod 10))
    (digit_char (n / 10 mod 10)) (digit_char (n mod 10)) = Some n.
Proof.
  intros H. unfold num4. rewrite !num2_char; simpl;
    [f_equal|..]; Z.div_mod_to_equations; lia.
Qed.

(** Reading the text that [toISOString] writes gives the instant back,
    for the years that are written with four digits. *)
Lemma moment_toISOString (t : Z) :
  0 <= year_of t <= 9999 -> moment (toISOString t) = Some t.
Proof.
  unfold year_of, toISOString.
  pose proof (days_from_civil_from_days (t / ms_per_day)) as Hciv.
  destruct (civil_from_days (t / ms_per_day)) as [[y m] d] eqn:E.
  destruct Hciv as (Hdays & Hm & Hd). intros Hy.
  assert ((0 <=? y) && (y <=? 9999) = true) as ->.
  { apply andb_true_iff. split; apply Z.leb_le; lia. }
  set (tod := t mod ms_per_day).
  assert (Htod : 0 <= tod < 86400000).
  { subst tod. unfold ms_per_day. apply Z.mod_pos_bound. lia. }
  assert (Ht : t = t / ms_per_day * ms_per_day + tod).
  { subst tod. unfold ms_per_day. Z.div_mod_to_equations. lia. }
  clearbody tod.
  cbv [pad4 pad3 pad2 String.append].
  cbv beta iota delta [moment].
  rewrite (num4_digits y) by lia. cbv beta iota delta [mbind option_bind].
  rewrite (num2_digits m) by lia. cbv beta iota delta [mbind option_bind].
  rewrite (num2_digits d) by lia. cbv beta iota delta [mbind option_bind].
  unfold ms_per_hour, ms_per_minute, ms_per_second in *.
  rewrite (num2_digits (tod / 3600000))
    by (Z.div_mod_to_equations; lia).
  cbv beta iota delta [mbind option_bind].
  rewrite (num2_digits (tod / 60000 mod 60))
    by (Z.div_mod_to_equations; lia).
  cbv beta iota delta [mbind option_bind].
  rewrite (num2_digits (tod / 1000 mod 60))
    by (Z.div_mod_to_equations; lia).
  cbv beta iota delta [mbind option_bind].
  rewrite (num3_digits (tod mod 1000))
    by (Z.div_mod_to_equations; lia).
  cbv beta iota delta [mbind option_bind].
  assert (Hvalid : valid_date y m d = true).
  { unfold valid_date. rewrite Hdays, E. by rewrite !Z.eqb_refl. }
  rewrite Hvalid.
  assert ((tod / 3600000 <? 24) = true) as ->
    by (apply Z.ltb_lt; Z.div_mod_to_equations; lia).
  assert ((tod / 60000 mod 60 <? 60) = true) as ->
    by (apply Z.ltb_lt; Z.div_mod_to_equations; lia).
  assert ((tod / 1000 mod 60 <? 60) = true) as ->
    by (apply Z.ltb_lt; Z.div_mod_to_equations; lia).
  cbv beta iota delta [andb]. f_equal. rewrite Hdays. unfold ms_per_day in *.
  Z.div_mod_to_equations. lia.
Qed.
End IsoFacts.

(** ** The confirmation metadata *)

Lemma echoed_metadata_fields (p : Params.t) (m : Method.t) :
  echoed_metadata p m
  = VObj [("business_id", VStr (Params.business_id p));
          ("merchant_uid", VStr (Params.merchant_uid p));
          ("customer_uid", VStr (Method.customer_uid m));
          ("name", Name.to_value (_generateName p));
          ("type", VStr (Params.type p));
          ("billing_plan", VStr (Params.billing_plan p));
          ("pay_date", VStr (toISOString (Params.pay_date p)));
          ("amount", VNum (Params.amount p));
          ("cancel_amount", VNum (Params.amount p));
          ("vat", VNum (Params.vat p))].
Proof. reflexivity. Qed.

Lemma echoed_metadata_typed (p : Params.t) (m : Method.t) :
  CustomData.of_value (echoed_metadata p m) = Some (metadata_of p m).
Proof.
  rewrite echoed_metadata_fields. unfold metadata_of.
  destruct (_generateName p) as [s l k]. reflexivity.
Qed.

(** C6, as stated, fails: the pay date is submitted as a [Date] and comes
    back as a string. *)
Lemma custom_data_round_trip_changes_pay_date :
  let p := Sample.intent payment_type.scheduled in
  let m := Sample.method "B1" "B1_1234" true in
  get "pay_date" (submitted_metadata p m) = VDate 1704034800000
  /\ get "pay_date" (echoed_metadata p m) = VStr "2023-12-31T15:00:00.000Z"
  /\ echoed_metadata p m <> submitted_metadata p m.
Proof.
  intros p m. split; [reflexivity|]. split; [reflexivity|].
  intros H. apply (f_equal (get "pay_date")) in H. vm_compute in H. discriminate H.
Qed.

(** C6, amended.  Every field of the metadata other than [pay_date] comes
    back from the round trip as it was submitted; [pay_date] comes back as
    the ISO 8601 text of the submitted date, which for a date in the years
    0 to 9999 reads as the same instant; the typed view of the reconciler
    holds the fields of the intent. *)
Theorem custom_data_round_trip_up_to_date_text (p : Params.t) (m : Method.t) :
  0 <= year_of (Params.pay_date p) <= 9999 ->
  (forall k, k <> "pay_date" ->
             get k (echoed_metadata p m) = get k (submitted_metadata p m))
  /\ get "pay_date" (submitted_metadata p m) = VDate (Params.pay_date p)
  /\ get "pay_date" (echoed_metadata p m) = VStr (toISOString (Params.pay_date p))
  /\ moment (toISOString (Params.pay_date p)) = Some (Params.pay_date p)
  /\ CustomData.of_value (echoed_metadata p m) = Some (metadata_of p m).
Proof.
  intros Hy. split; [|split; [|split; [|split]]].
  - intros k Hk. rewrite echoed_metadata_fields.
    unfold submitted_metadata, custom_data_fields, get, assoc.
    repeat match goal with
           | |- context [String.eqb k ?s] =>
               destruct (String.eqb_spec k s) as [->|_]; [done|]
           end.
    reflexivity.
  - reflexivity.
  - rewrite echoed_metadata_fields. reflexivity.
  - by apply moment_toISOString.
  - apply echoed_metadata_typed.
Qed.

(** ** The properties on sample data *)

Lemma paid_scheduled_confirmation_schedules_next_cycle_witness :
  let p := {| Params.business_id := "B1"; Params.merchant_uid := "B1_ch3";
              Params.type := "SCHEDULED"; Params.billing_plan := "4_WEEK";
              Params.pay_date := 1704056400000 + 1234;
              Params.amount := 11000; Params.vat := 1000 |} in
  let r := Sample.answer "paid" (charge_request p SampleRuns.m1) in
  let cd := metadata_of p SampleRuns.m1 in
  let d := SampleRuns.d3 in
  toISOString (1704056400000 + 1234 + seoul_offset) = "2024-01-01T06:00:01.234Z"
  /\ Result.status r = "paid"
  /\ CustomData.of_value (JSON_parse (Result.custom_data r)) = Some cd
  /\ CustomData.type cd = "SCHEDULED"
  /\ In (CustomData.billing_plan cd, 4)
        [("4_WEEK", 4); ("26_WEEK", 26); ("52_WEEK", 52)]
  /\ moment (CustomData.pay_date cd) = Some (1704056400000 + 1234)
  /\ CustomData.merchant_uid cd = CustomData.business_id cd ++ "_ch" ++ decimal 3
  /\ (3 <= MAX_SAFE_INTEGER)%N
  /\ exists d' next,
       paymentHook r d = Some d'
       /\ payment_schedule d'
          = [SampleRuns.e2;
             Sample.entry "B1_ch3" "B1" Sample.jan1 "4_WEEK" "PAID" None;
             next]
       /\ next = Sample.entry "B1_ch4" "B1" 1706454000000 "4_WEEK" "PENDING" None
       /\ toISOString (Schedule.schedule next + seoul_offset)
          = "2024-01-29T00:00:00.000Z".
Proof.
  intros p r cd d.
  assert (H0 : toISOString (1704056400000 + 1234 + seoul_offset)
               = "2024-01-01T06:00:01.234Z") by (vm_compute; reflexivity).
  assert (H1 : Result.status r = "paid") by reflexivity.
  assert (H2 : CustomData.of_value (JSON_parse (Result.custom_data r)) = Some cd)
    by reflexivity.
  assert (H3 : CustomData.type cd = "SCHEDULED") by reflexivity.
  assert (H4 : In (CustomData.billing_plan cd, 4)
                 [("4_WEEK", 4); ("26_WEEK", 26); ("52_WEEK", 52)])
    by (left; reflexivity).
  assert (H5 : moment (CustomData.pay_date cd) = Some (1704056400000 + 1234))
    by (vm_compute; reflexivity).
  assert (H6 : CustomData.merchant_uid cd
               = CustomData.business_id cd ++ "_ch" ++ decimal 3)
    by reflexivity.
  assert (H7 : (3 <= MAX_SAFE_INTEGER)%N) by (vm_compute; discriminate).
  repeat (split; [assumption|]).
  destruct (paid_scheduled_confirmation_schedules_next_cycle
              r cd d 4 (1704056400000 + 1234) 3 H1 H2 H3 H4 H5 H6 H7)
    as (d' & updated & next & Hhook & _).
  exists d'. eexists. split; [exact Hhook|].
  assert (Hrun : paymentHook r d
                 = Some {| payment_methods := payment_methods d;
                           payment_schedule :=
                             [SampleRuns.e2;
                              Sample.entry "B1_ch3" "B1" Sample.jan1 "4_WEEK" "PAID" None;
                              Sample.entry "B1_ch4" "B1" 1706454000000 "4_WEEK"
                                "PENDING" None];
                           payment_transactions :=
                             [transaction_of r cd status_type.paid] |})
    by (vm_compute; reflexivity).
  rewrite Hhook in Hrun. injection Hrun as ->.
  split; [reflexivity|]. split; [reflexivity|]. vm_compute. reflexivity.
Defined.

(** C1, where the claim fails.  The charge number is a JavaScript number:
    for the scheduled charge number 2^53 the sum with 1 is rounded to
    2^53 again, and the document inserted for the next cycle has the
    merchant_uid of the cycle just paid instead of the next number.
    The store is the one a subscription with charge number 2^53 - 1
    leads to. *)
Lemma paid_scheduled_confirmation_repeats_charge_number :
  let p := {| Params.business_id := "B1";
              Params.merchant_uid := "B1_ch9007199254740992";
              Params.type := "SCHEDULED"; Params.billing_plan := "4_WEEK";
              Params.pay_date := 1706454000000;
              Params.amount := 11000; Params.vat := 1000 |} in
  let r := Sample.answer "paid" (charge_request p SampleRuns.m1) in
  let d := Sample.store_of [SampleRuns.m1]
             [Sample.entry "B1_ch9007199254740992" "B1" 1706454000000 "4_WEEK"
                "PENDING" None] in
  (map (fun e => (Schedule.merchant_uid e, Schedule.status e, Schedule.schedule e))
     <$> (payment_schedule <$> paymentHook r d))
  = Some [("B1_ch9007199254740992", "PAID", 1706454000000);
          ("B1_ch9007199254740992", "PENDING", 1708873200000)]
  /\ "B1_ch9007199254740992" <> "B1_ch" ++ decimal (9007199254740992 + 1)
  /\ (map (fun e => (Schedule.merchant_uid e, Schedule.status e, Schedule.schedule e))
        <$> (payment_schedule <$> subscribed_at_last_safe_number))
     = Some [("B1_ch9007199254740992", "PAID", 1706454000000);
             ("B1_ch9007199254740992", "PENDING", 1708873200000)].
Proof.
  split; [vm_compute; reflexivity|]. split; [|vm_compute; reflexivity].
  vm_compute. discriminate.
Qed.

Lemma failed_confirmation_updates_only_scheduled_witness :
  let r := SampleRuns.failed3 in
  let cd := metadata_of SampleRuns.p3 SampleRuns.m1 in
  let d := SampleRuns.d3 in
  status_type.at_key (Result.status r) = Some status_type.failed
  /\ CustomData.of_value (JSON_parse (Result.custom_data r)) = Some cd
  /\ exists d',
       paymentHook r d = Some d'
       /\ payment_methods d' = payment_methods d
       /\ payment_transactions d' = payment_transactions d.
Proof.
  intros r cd d.
  assert (H1 : status_type.at_key (Result.status r) = Some status_type.failed)
    by reflexivity.
  assert (H2 : CustomData.of_value (JSON_parse (Result.custom_data r)) = Some cd)
    by reflexivity.
  split; [exact H1|]. split; [exact H2|].
  destruct (proj2 (failed_confirmation_updates_only_scheduled r cd d H1 H2) eq_refl)
    as (d' & Hhook & Hm & Ht & _).
  exists d'. by repeat split.
Defined.

Lemma custom_data_round_trip_up_to_date_text_witness :
  let p := SampleRuns.p3 in
  let m := SampleRuns.m1 in
  0 <= year_of (Params.pay_date p) <= 9999
  /\ get "pay_date" (echoed_metadata p m) = VStr "2023-12-31T15:00:00.000Z"
  /\ moment "2023-12-31T15:00:00.000Z" = Some (Params.pay_date p).
Proof.
  intros p m.
  assert (H : 0 <= year_of (Params.pay_date p) <= 9999)
    by (vm_compute; split; discriminate).
  split; [exact H|].
  destruct (custom_data_round_trip_up_to_date_text p m H)
    as (_ & _ & Hecho & Hread & _).
  split; [exact Hecho | exact Hread].
Defined.

Lemma changeSubscription_touches_one_entry_witness :
  let d := SampleRuns.d3 in
  NoDup (map Schedule.merchant_uid (payment_schedule d))
  /\ exists e',
       payment_schedule (snd (changeSubscription "B1" "26_WEEK" 55000 d))
       = [SampleRuns.e2; e']
       /\ Schedule.billing_plan e' = "26_WEEK"
       /\ Schedule.amount e' = 55000
       /\ Schedule.schedule e' = Sample.jan1
       /\ Schedule.status e' = "PENDING".
Proof.
  intros d.
  assert (H : NoDup (map Schedule.merchant_uid (payment_schedule d))).
  { apply (bool_decide_unpack _). vm_compute. exact I. }
  split; [exact H|].
  pose proof (changeSubscription_touches_one_entry "B1" "26_WEEK" 55000 d H) as Hc.
  cbv zeta in Hc.
  change (findOne _ _) with (Some SampleRuns.e3) in Hc.
  destruct Hc as (i & e' & Hi & Hs & _ & _ & Hp & Ha & Hd & Hst & _).
  exists e'. rewrite Hs.
  destruct i as [|[|i]]; simpl in Hi; try discriminate Hi.
  repeat split; assumption.
Defined.

(** C7, where the claim fails.  Two subscriptions of B1 with the same charge
    number leave two documents with the merchant_uid B1_ch1; after the
    scan has charged them, the first is PAID and the second PENDING.
    [changeSubscription] finds the PENDING one and updates by its
    merchant_uid: the PAID document gets the new plan and amount, and
    the PENDING one stays as it was. *)
Lemma changeSubscription_rewrites_paid_entry :
  let summary :=
    map (fun e => (Schedule.merchant_uid e, Schedule.status e,
                   Schedule.billing_plan e, Schedule.amount e)) in
  (summary <$> (payment_schedule <$> twice_subscribed))
  = Some [("B1_ch1", "PAID", "4_WEEK", 11000);
          ("B1_ch1", "PENDING", "4_WEEK", 11000);
          ("B1_ch2", "PENDING", "4_WEEK", 11000);
          ("B1_ch2", "PENDING", "4_WEEK", 11000)]
  /\ (d ← twice_subscribed;
      e ← findOne (is_in_flight_of "B1") (payment_schedule d);
      Some (Schedule.merchant_uid e, Schedule.status e))
     = Some ("B1_ch1", "PENDING")
  /\ (d ← twice_subscribed;
      Some (fst (changeSubscription "B1" "26_WEEK" 55000 d)))
     = Some (Sent true "Business (B1): Subscription change 4_WEEK(11000) => 26_WEEK(55000)"
               {| cd_business_id := "B1"; cd_schedule := 1706454000000;
                  cd_old_billing_plan := "4_WEEK";
                  cd_new_billing_plan := "26_WEEK" |})
  /\ (d ← twice_subscribed;
      Some (summary (payment_schedule (snd (changeSubscription "B1" "26_WEEK" 55000 d)))))
     = Some [("B1_ch1", "PAID", "26_WEEK", 55000);
             ("B1_ch1", "PENDING", "4_WEEK", 11000);
             ("B1_ch2", "PENDING", "4_WEEK", 11000);
             ("B1_ch2", "PENDING", "4_WEEK", 11000)].
Proof. repeat split; vm_compute; reflexivity. Qed.

Lemma setAsDefault_resubmits_failed_payment_witness :
  let w := Sample.world_of SampleRuns.d3_failed in
  let now := 1704250000000 in
  let gw := Sample.gateway "paid" in
  (exists message data,
     fst (setAsDefault gw now "B1" "B1_5678" w) = Sent true message data)
  /\ findOne (is_failed_of "B1") (payment_schedule (store w)) = Some SampleRuns.f3
  /\ charges (snd (setAsDefault gw now "B1" "B1_5678" w))
     = [charge_request (schedule_params now SampleRuns.f3)
          (Sample.method "B1" "B1_5678" true)].
Proof.
  intros w now gw.
  assert (H1 : exists message data,
             fst (setAsDefault gw now "B1" "B1_5678" w) = Sent true message data)
    by (eexists _, _; reflexivity).
  assert (H2 : findOne (is_failed_of "B1") (payment_schedule (store w))
               = Some SampleRuns.f3) by reflexivity.
  split; [exact H1|]. split; [exact H2|].
  rewrite (proj1 (setAsDefault_resubmits_failed_payment
                    gw now "B1" "B1_5678" w SampleRuns.f3 _ H1 H2 eq_refl)).
  reflexivity.
Defined.

Lemma setAsDefault_unknown_method_unsets_default_witness :
  let w := Sample.world_of SampleRuns.d3 in
  let gw := Sample.gateway "paid" in
  (forall m, In m (payment_methods (store w)) -> Method.customer_uid m <> "B1_0000")
  /\ map (fun m => (Method.customer_uid m, Method.default_method m))
       (payment_methods (store w))
     = [("B1_1234", true); ("B1_5678", false)]
  /\ map (fun m => (Method.customer_uid m, Method.default_method m))
       (payment_methods (store (snd (setAsDefault gw 0 "B1" "B1_0000" w))))
     = [("B1_1234", false); ("B1_5678", false)]
  /\ count_default "B1"
       (payment_methods (store (snd (setAsDefault gw 0 "B1" "B1_0000" w)))) = 0%nat.
Proof.
  intros w gw.
  assert (H1 : forall m, In m (payment_methods (store w)) ->
                         Method.customer_uid m <> "B1_0000").
  { intros m [<-|[<-|[]]]; discriminate. }
  split; [exact H1|]. split; [reflexivity|]. split; [reflexivity|].
  destruct (setAsDefault_unknown_method_unsets_default gw 0 "B1" "B1_0000" w H1)
    as (_ & _ & _ & Hzero & _).
  apply Hzero. vm_compute. lia.
Defined.

(** C10, where the claim fails.  After the request of C5 has left business
    B2 with two default methods, a request for B2 with an unknown
    customer_uid is answered with the error and unsets only the first of
    them: B2 still has a default method. *)
Lemma setAsDefault_unknown_method_leaves_a_default :
  let gw := Sample.gateway "paid" in
  let c := [Sample.method "B2" "B2_1111" true;
            Sample.method "B2" "B2_2222" false] in
  let w0 := Sample.world_of (Sample.store_of c []) in
  let w1 := snd (setAsDefault gw Sample.jan1 "B1" "B2_2222" w0) in
  let r := setAsDefault gw Sample.jan1 "B2" "B2_9999" w1 in
  payment_methods (store w1)
  = [Sample.method "B2" "B2_1111" true; Sample.method "B2" "B2_2222" true]
  /\ fst r
     = SentError "No payment method was found for the given 'customer_uid' (B2_9999)."
         (Some "castr_payment_error")
  /\ payment_methods (store (snd r))
     = [Sample.method "B2" "B2_1111" false; Sample.method "B2" "B2_2222" true]
  /\ count_default "B2" (payment_methods (store (snd r))) = 1%nat
  /\ findOne (is_default_of "B2") (payment_methods (store (snd r)))
     = Some (Sample.method "B2" "B2_2222" true).
Proof. repeat split. Qed.

(** ** The single-default invariant where it does hold *)

(** X17.  [createPaymentMethod] stores its method with [default_method = false]
    and so keeps the invariant. *)
Lemma createPaymentMethod_single_default
    (iamport : Gateway.t) (now : Z) (business_id : string) (body : Card.t)
    (d d' : db) (answer : response string) :
  single_default (payment_methods d) ->
  createPaymentMethod iamport now business_id body d = Some (answer, d') ->
  single_default (payment_methods d').
Proof.
  intros Hinv. unfold createPaymentMethod.
  destruct (nth_error _ 3) as [last4|]; simpl; [|done].
  destruct (negb _); [by intros [= _ <-]|].
  destruct (Gateway.create _ _ _) as [e|uid]; [by intros [= _ <-]|].
  intros [= _ <-]. simpl. intros b. specialize (Hinv b).
  unfold upsertOne.
  match goal with
  | |- context [updateOne ?q ?u ?c] =>
      pose proof (count_updateOne (is_default_of b) q u c) as Hc;
      pose proof (updateOne_matched q u c) as Hn;
      destruct (updateOne q u c) as [c' n] eqn:Hu;
      destruct (findOne q c) as [x|] eqn:Hfind
  end; simpl in *; subst n; simpl.
  - assert (is_default_of b
              {| Method.business_id := Method.business_id x;
                 Method.customer_uid := uid;
                 Method.default_method := false;
                 Method.created_time := Method.created_time x;
                 Method.updated_time := now |} = false) as Hf.
    { apply bool_decide_eq_false. simpl. by intros [_ ?]. }
    rewrite Hf in Hc. unfold count_default, count in *.
    destruct (is_default_of b x); lia.
  - unfold count_default, insertOne in *.
    rewrite List.filter_app, List.length_app. simpl.
    assert (is_default_of b
              {| Method.business_id := business_id;
                 Method.customer_uid := uid;
                 Method.default_method := false;
                 Method.created_time := now;
                 Method.updated_time := now |} = false) as ->.
    { apply bool_decide_eq_false. simpl. by intros [_ ?]. }
    simpl. lia.
Qed.

(** X18.  [setAsDefault] keeps the invariant when every stored method with the
    given [customer_uid] belongs to the business of the request. *)
Lemma setAsDefault_single_default_own_method
    (iamport : Gateway.t) (now : Z) (business_id customer_uid : string) (w : world) :
  single_default (payment_methods (store w)) ->
  (forall m, In m (payment_methods (store w)) ->
             Method.customer_uid m = customer_uid ->
             Method.business_id m = business_id) ->
  single_default
    (payment_methods (store (snd (setAsDefault iamport now business_id customer_uid w)))).
Proof.
  intros Hinv Hown.
  assert (Hm : payment_methods
                 (store (snd (setAsDefault iamport now business_id customer_uid w)))
               = fst (unset_then_set business_id customer_uid
                        (payment_methods (store w)))).
  { unfold setAsDefault.
    destruct (unset_then_set _ _ _) as [set n]. simpl.
    destruct (n =? 0)%nat; simpl; [done|].
    destruct (findOne _ _) as [e|]; [|done].
    destruct (Schedule.failures e); [|done].
    unfold pay. simpl. destruct (findOne _ _); [|done].
    destruct (Gateway.again _ _); simpl; [done|].
    by destruct (bool_decide _). }
  rewrite Hm. clear Hm. unfold unset_then_set.
  intros b.
  pose proof (count_default_unset business_id b (payment_methods (store w))) as Hun.
  pose proof (fun m => updateOne_set_default_In
                         (is_default_of business_id) false
                         (payment_methods (store w)) m) as Hin.
  destruct (updateOne (is_default_of business_id) _ (payment_methods (store w)))
    as [unset n0]. simpl in *.
  pose proof (count_updateOne (is_default_of b) (has_customer_uid customer_uid)
                (Method.set_default_method true) unset) as Hc.
  destruct (findOne (has_customer_uid customer_uid) unset) as [x|] eqn:Hfind.
  - cbv beta iota in Hc. apply findOne_In in Hfind as [Hx Hq].
    unfold has_customer_uid in Hq. apply bool_decide_eq_true in Hq.
    destruct (Hin x Hx) as (m0 & Hm0 & Hb & Hcu).
    assert (Hbx : Method.business_id x = business_id).
    { rewrite Hb. apply Hown; [done|congruence]. }
    unfold count_default, count in *.
    pose proof (Hinv b) as Hb1. pose proof (Hinv business_id) as Hb2.
    unfold count_default in Hb1, Hb2.
    case_bool_decide as Hbb.
    + subst b. destruct (is_default_of business_id x),
        (is_default_of business_id (Method.set_default_method true x));
        simpl in Hc; lia.
    + assert (is_default_of b (Method.set_default_method true x) = false) as Hf.
      { apply bool_decide_eq_false. simpl. intros [? _]. congruence. }
      rewrite Hf in Hc. destruct (is_default_of b x); simpl in Hc; lia.
  - cbv beta iota in Hc. unfold count_default, count in *.
    pose proof (Hinv b) as Hb1. pose proof (Hinv business_id) as Hb2.
    unfold count_default in Hb1, Hb2. case_bool_decide; [subst b|]; lia.
Qed.

(** ** Failed payments carry their failures *)

Lemma updateOne_In {A : Type} (q : A -> bool) (u : A -> A) (c : list A) (y : A) :
  In y (fst (updateOne q u c)) -> In y c \/ exists x, In x c /\ y = u x.
Proof.
  induction c as [|x c IH]; simpl; [done|].
  destruct (q x); simpl.
  - intros [<-|Hin]; [right; exists x; split; [by left|done]|]. left. by right.
  - destruct (updateOne q u c) as [c' n]. simpl in *.
    intros [<-|Hin]; [left; by left|].
    destruct (IH Hin) as [?|(x0 & ? & ?)]; [left; by right|].
    right. exists x0. split; [by right|done].
Qed.

(** What holds of every document of 'payment-schedule' still holds after
    a reconciler call, when the two updates keep it and the inserted
    document has it. *)
Lemma paymentHook_schedule_invariant
    (P : Schedule.t -> Prop) (r : Result.t) (d d' : db) :
  (forall e, P e -> P (Schedule.set_status status_type.paid e)) ->
  (forall e f, P e ->
               P (push_failure f (Schedule.set_status status_type.failed e))) ->
  (forall cd n t, (n <= MAX_SAFE_INTEGER + 1)%N -> P (next_entry cd (plus_one n) t)) ->
  (forall e, In e (payment_schedule d) -> P e) ->
  paymentHook r d = Some d' ->
  forall e, In e (payment_schedule d') -> P e.
Proof.
  intros Hpaid Hfailed Hnext Hinv. unfold paymentHook.
  destruct (status_type.at_key (Result.status r)) as [status|]; [|by intros [= <-]].
  destruct (String.eqb_spec status status_type.paid) as [->|_].
  - destruct (CustomData.of_value _) as [cd|]; simpl; [|done].
    destruct (moment _) as [t|]; simpl; [|done].
    assert (Hd2 : forall e,
              In e (payment_schedule
                      (if String.eqb (CustomData.type cd) payment_type.scheduled
                       then set_schedule
                              (fst (updateOne
                                      (has_merchant_uid (CustomData.merchant_uid cd))
                                      (Schedule.set_status status_type.paid)
                                      (payment_schedule d)))
                              (set_transactions
                                 (insertOne (transaction_of r cd status_type.paid)
                                    (payment_transactions d)) d)
                       else set_transactions
                              (insertOne (transaction_of r cd status_type.paid)
                                 (payment_transactions d)) d)) ->
              P e).
    { destruct (String.eqb _ _); simpl; [|exact Hinv].
      intros e [Hin|(x & Hx & ->)]%updateOne_In; [by apply Hinv|].
      by apply Hpaid, Hinv. }
    destruct (match_digits_at_end _) as [ds|]; [|by intros [= <-]].
    destruct (parseInt ds) as [n|] eqn:Hn; simpl; [|done].
    apply parseInt_safe in Hn as [_ Hn].
    intros [= <-]. intros e. simpl. unfold insertOne. rewrite in_app_iff.
    intros [Hin|[<-|[]]]; [by apply Hd2|]. by apply (Hnext cd n).
  - destruct (String.eqb status status_type.cancelled); [by intros [= <-]|].
    destruct (String.eqb_spec status status_type.failed) as [->|_];
      [|by intros [= <-]].
    destruct (CustomData.of_value _) as [cd|]; simpl; [|done].
    destruct (String.eqb _ _); [|by intros [= <-]].
    intros [= <-]. intros e. simpl.
    intros [Hin|(x & Hx & ->)]%updateOne_In; [by apply Hinv|].
    by apply Hfailed, Hinv.
Qed.

(** X12.  The reconciler writes FAILED only together with a failure record. *)
Lemma paymentHook_failed_have_failures (r : Result.t) (d d' : db) :
  failed_have_failures d -> paymentHook r d = Some d' -> failed_have_failures d'.
Proof.
  intros Hinv Hhook e He.
  apply (paymentHook_schedule_invariant
           (fun e => Schedule.status e = status_type.failed ->
                     Schedule.failures e <> None) r d d'); try done.
Qed.

(** X13.  Every document the reconciler leaves in 'payment-schedule' has the
    merchant_uid of a numbered charge of its business, with a number of
    at most 2^53: the sum with 1 never leaves these numbers.  (A call
    returns [Some] only when the number at the end of the confirmed
    merchant_uid is at most 2^53; above it [parseInt] rounds, the
    template prints the exponent form from 1e21 on, and the invariant is
    not claimed.) *)
Lemma paymentHook_numbered_merchant_uid (r : Result.t) (d d' : db) :
  (forall e, In e (payment_schedule d) -> numbered_merchant_uid e) ->
  paymentHook r d = Some d' ->
  forall e, In e (payment_schedule d') -> numbered_merchant_uid e.
Proof.
  apply paymentHook_schedule_invariant.
  - intros e [n Hn]. by exists n.
  - intros e f [n Hn]. by exists n.
  - intros cd n t Hn. exists (plus_one n). split; [by apply plus_one_bound|done].
Qed.

(** ** The start of the day in Seoul *)

(** A whole number of weeks after a Seoul midnight is a Seoul midnight. *)
Lemma seoul_midnight_add_weeks (n t : Z) :
  seoul_midnight (add_weeks n (seoul_midnight t)) = add_weeks n (seoul_midnight t).
Proof.
  unfold add_weeks, seoul_midnight, seoul_offset, ms_per_day, ms_per_hour.
  Z.div_mod_to_equations. lia.
Qed.

(** ** Runs of the model *)

(** The scan on 2024-01-01 06:00 (Seoul) charges B1_ch3; once the armed
    reconciler call has run, B1_ch3 is PAID and B1_ch4 is PENDING for
    2024-01-29 (Seoul). *)
Example scan_then_reconcile :
  let now := Sample.jan1 + 6 * ms_per_hour in
  let w := Sample.world_of SampleRuns.d3 in
  let w1 := snd (_checkScheduledPayments (Sample.gateway "paid") now w) in
  (map (fun c => Charge.merchant_uid c) (charges w1) = ["B1_ch3"])
  /\ option_map
       (fun w2 => map (fun e => (Schedule.merchant_uid e, Schedule.status e,
                                 Schedule.schedule e))
                    (payment_schedule (store w2)))
       (run_timers w1)
     = Some [("B1_ch2", "PAID", 1701615600000);
             ("B1_ch3", "PAID", Sample.jan1);
             ("B1_ch4", "PENDING", 1706454000000)].
Proof. vm_compute. split; reflexivity. Qed.

(** A declined charge leaves B1_ch3 FAILED with one failure record; the
    next scan does not pick it up; setting another card as default
    submits it again. *)
Example decline_then_retry :
  let now := Sample.jan1 + 6 * ms_per_hour in
  let w := Sample.world_of SampleRuns.d3 in
  let w1 := snd (_checkScheduledPayments (Sample.gateway "failed") now w) in
  match run_timers w1 with
  | Some w2 =>
      map (fun e => (Schedule.merchant_uid e, Schedule.status e,
                     option_map (@length Failure.t) (Schedule.failures e)))
        (payment_schedule (store w2))
      = [("B1_ch2", "PAID", None); ("B1_ch3", "FAILED", Some 1%nat)]
      /\ fst (_checkScheduledPayments (Sample.gateway "paid")
                (now + ms_per_day) w2) = []
      /\ map (fun c => (Charge.merchant_uid c, Charge.customer_uid c))
           (charges (snd (setAsDefault (Sample.gateway "paid")
                            (now + ms_per_day) "B1" "B1_5678" w2)))
         = [("B1_ch3", "B1_1234"); ("B1_ch3", "B1_5678")]
  | None => False
  end.
Proof. vm_compute. repeat split; reflexivity. Qed.

(** The names [_generateName] gives the third charge of B1. *)
Example generateName_sample :
  _generateName SampleRuns.p3
  = {| Name.short := "CAS#B1=1/1-1/28(4WK)";
       Name.long := "Castr subscription #B1 1/1-1/28 (4_WEEK)";
       Name.long_kr := "캐스터 정기구독 #B1 1/1-1/28 (4주)" |}.
Proof. reflexivity. Qed.

(** A plan that is not in the catalogue has no cadence: the next cycle is
    scheduled for the day of the payment itself. *)
Example unknown_plan_adds_no_weeks :
  let p := {| Params.business_id := "B1"; Params.merchant_uid := "B1_ch3";
              Params.type := payment_type.scheduled;
              Params.billing_plan := "8_WEEK";
              Params.pay_date := Sample.jan1;
              Params.amount := 11000; Params.vat := 1000 |} in
  let r := Sample.answer "paid" (charge_request p SampleRuns.m1) in
  option_map (fun d => map (fun e => (Schedule.merchant_uid e, Schedule.schedule e))
                         (payment_schedule d))
    (paymentHook r (Sample.store_of [SampleRuns.m1] []))
  = Some [("B1_ch4", Sample.jan1)].
Proof. vm_compute. reflexivity. Qed.

(** A subscription on 2024-01-01 (Seoul): the initial charge is B1_ch0;
    once reconciled there is one transaction and one PENDING document,
    B1_ch1, for four weeks later. *)
Example subscribe_then_reconcile :
  let w := Sample.world_of (Sample.store_of [SampleRuns.m1] []) in
  (r ← subscribe (Sample.gateway "paid") Sample.jan1 "B1" "4_WEEK"
         1000 100 None w;
   w2 ← run_timers (snd r);
   Some
     (map (fun t => (Tx.merchant_uid t, Tx.type t, Tx.status t, Tx.pay_date t))
        (payment_transactions (store w2)),
      map (fun e => (Schedule.merchant_uid e, Schedule.status e,
                     Schedule.schedule e, Schedule.amount e))
        (payment_schedule (store w2))))
  = Some ([("B1_ch0", "INITIAL", "PAID", "2023-12-31T15:00:00.000Z")],
          [("B1_ch1", "PENDING", 1706454000000, 1000)]).
Proof. vm_compute. reflexivity. Qed.

(** * Further properties of the service *)

(** ** The timer of the daily scan *)

(** X1.  The timer that [checkScheduleAt6AM] arms fires within the next 24
    hours, at 06:00 in Seoul; the delay is 0 exactly when the call is made
    at 06:00:00.000. *)
Theorem checkScheduleAt6AM_fires_at_six (utc_now : Z) :
  let delay := checkScheduleAt6AM utc_now in
  0 <= delay < 24 * ms_per_hour
  /\ (utc_now + delay + seoul_offset) mod ms_per_day = 6 * ms_per_hour
  /\ (delay = 0 <-> (utc_now + seoul_offset) mod ms_per_day = 6 * ms_per_hour).
Proof.
  unfold checkScheduleAt6AM, seoul_midnight, seoul_offset, ms_per_day, ms_per_hour.
  cbv zeta.
  rewrite Z.rem_mod_nonneg by (Z.div_mod_to_equations; lia).
  Z.div_mod_to_equations. lia.
Qed.

(** ** What [pay] and the scan leave alone *)

Lemma pay_store (iamport : Gateway.t) (p : Params.t) (w : world) :
  store (snd (pay iamport p w)) = store w.
Proof.
  unfold pay. destruct (findOne _ _); [|done].
  destruct (Gateway.again _ _); simpl; [done|]. by destruct (bool_decide _).
Qed.

(** X2.  [pay] never writes the store: whatever the gateway answers, it only
    adds at most one request to the gateway log and arms at most one
    reconciler call, and none without a request. *)
Theorem pay_writes_no_document (iamport : Gateway.t) (p : Params.t) (w : world) :
  let w' := snd (pay iamport p w) in
  store w' = store w
  /\ exists sent armed,
       charges w' = (charges w ++ sent)%list
       /\ timers w' = (timers w ++ armed)%list
       /\ (length armed <= length sent <= 1)%nat.
Proof.
  cbv zeta. split; [apply pay_store|]. unfold pay.
  destruct (findOne _ _) as [m|].
  - destruct (Gateway.again _ _) as [e|r]; simpl.
    + eexists [_], []. rewrite app_nil_r. simpl. repeat split; lia.
    + destruct (bool_decide _); simpl; eexists [_], [_]; simpl;
        repeat split; lia.
  - exists [], []. rewrite !app_nil_r. simpl. repeat split; lia.
Qed.

(** X3.  [pay] resolves exactly when the business has a default method, the
    transport succeeds and the status of the result is not 'failed'; a
    result with any other status, known or not, resolves the promise. *)
Theorem pay_resolves_iff
    (iamport : Gateway.t) (p : Params.t) (w : world) (data : Result.t) :
  fst (pay iamport p w) = Resolve data
  <-> exists m,
        findOne (is_default_of (Params.business_id p)) (payment_methods (store w))
        = Some m
        /\ Gateway.again iamport (charge_request p m) = inr data
        /\ Result.status data <> "failed".
Proof.
  assert (Hkey : forall s, status_type.at_key s = Some status_type.failed
                           <-> s = "failed").
  { intros s. unfold status_type.at_key. split.
    - repeat match goal with
             | |- context [String.eqb s ?k] =>
                 destruct (String.eqb_spec s k) as [->|?];
                 [intros H; vm_compute in H; try discriminate H; reflexivity|]
             end.
      done.
    - by intros ->. }
  unfold pay. destruct (findOne _ _) as [m|].
  - fold (charge_request p m).
    destruct (Gateway.again iamport (charge_request p m)) as [e|r] eqn:Hg;
      cbv zeta.
    + unfold fst. split; [intros [=]|].
      intros (m' & [= <-] & Hg' & _). rewrite Hg in Hg'. discriminate Hg'.
    + case_bool_decide as Hs; unfold fst.
      * split; [intros [=]|]. intros (m' & [= <-] & Hg' & Hne).
        rewrite Hg in Hg'. injection Hg' as <-. exfalso. by apply Hne, Hkey.
      * split.
        -- intros [= ->]. exists m. split; [done|]. split; [done|].
           intros Hf. by apply Hs, Hkey.
        -- intros (m' & [= <-] & Hg' & _). rewrite Hg in Hg'. by injection Hg' as <-.
  - unfold fst. split; [intros [=]|]. by intros (m' & [=] & _).
Qed.

Lemma submit_all_store iamport l w :
  store (snd (submit_all iamport l w)) = store w.
Proof.
  revert w. induction l as [|p l IH]; intros w; simpl; [done|].
  pose proof (pay_store iamport p w) as Hp.
  destruct (pay iamport p w) as [r w1]. simpl in Hp.
  specialize (IH w1). destruct (submit_all iamport l w1) as [rs w2].
  simpl in *. congruence.
Qed.

Lemma submit_all_length iamport l w :
  length (fst (submit_all iamport l w)) = length l.
Proof.
  rewrite <- (submit_all_intents iamport l w) at 2. by rewrite length_map.
Qed.

(** X4.  The scan itself writes no document, and it collects one promise for
    each due document whatever the outcome of the others: a rejected or
    failed charge does not stop the iteration. *)
Theorem daily_scan_isolates_charges (iamport : Gateway.t) (now : Z) (w : world) :
  store (snd (_checkScheduledPayments iamport now w)) = store w
  /\ length (fst (_checkScheduledPayments iamport now w))
     = count (due now) (payment_schedule (store w)).
Proof.
  unfold _checkScheduledPayments. split; [apply submit_all_store|].
  rewrite submit_all_length, length_map. reflexivity.
Qed.

(** ** The reconciler beyond the scheduled cases *)

Lemma paymentHook_paid (r : Result.t) (cd : CustomData.t) (d : db) (t : Z) :
  status_type.at_key (Result.status r) = Some status_type.paid ->
  CustomData.of_value (JSON_parse (Result.custom_data r)) = Some cd ->
  moment (CustomData.pay_date cd) = Some t ->
  paymentHook r d
  = match match_digits_at_end (CustomData.merchant_uid cd) with
    | None => Some (paid_store r cd d)
    | Some digits =>
        charge_num ← parseInt digits;
        Some (set_schedule
                (insertOne
                   (next_entry cd (plus_one charge_num)
                      (next_pay_date (CustomData.billing_plan cd) t))
                   (payment_schedule (paid_store r cd d)))
                (paid_store r cd d))
    end.
Proof.
  intros Hs Hcd Hdate. unfold paymentHook. rewrite Hs.
  change (String.eqb status_type.paid status_type.paid) with true.
  cbv iota. rewrite Hcd. cbn [mbind option_bind]. rewrite Hdate.
  reflexivity.
Qed.

Lemma updateOne_map_key {A B : Type} (f : A -> B) (q : A -> bool) (u : A -> A)
    (c : list A) :
  (forall x, f (u x) = f x) -> map f (fst (updateOne q u c)) = map f c.
Proof.
  intros Hf. induction c as [|x c IH]; simpl; [done|].
  destruct (q x); simpl; [by rewrite Hf|].
  destruct (updateOne q u c) as [c' n]. simpl in *. by rewrite IH.
Qed.

Lemma paid_store_facts (r : Result.t) (cd : CustomData.t) (d : db) :
  payment_methods (paid_store r cd d) = payment_methods d
  /\ payment_transactions (paid_store r cd d)
     = (payment_transactions d ++ [transaction_of r cd status_type.paid])%list
  /\ payment_schedule (paid_store r cd d)
     = if String.eqb (CustomData.type cd) payment_type.scheduled
       then fst (updateOne (has_merchant_uid (CustomData.merchant_uid cd))
                   (Schedule.set_status status_type.paid) (payment_schedule d))
       else payment_schedule d.
Proof. unfold paid_store. by destruct (String.eqb _ _). Qed.

(** X5.  A confirmation whose status is neither 'paid' nor 'failed' (cancelled,
    pending, ready, or a status the service does not know) changes
    nothing in the store. *)
Theorem paymentHook_ignores_other_statuses (r : Result.t) (d : db) :
  Result.status r <> "paid" -> Result.status r <> "failed" ->
  paymentHook r d = Some d.
Proof.
  intros Hp Hf. unfold paymentHook, status_type.at_key.
  destruct (String.eqb_spec (Result.status r) "paid"); [done|].
  destruct (String.eqb_spec (Result.status r) "cancelled"); [done|].
  destruct (String.eqb_spec (Result.status r) "failed"); [done|].
  destruct (String.eqb_spec (Result.status r) "pending"); done.
Qed.

Lemma paymentHook_ignores_other_statuses_witness :
  let r := Sample.answer "cancelled" (charge_request SampleRuns.p3 SampleRuns.m1) in
  Result.status r <> "paid" /\ Result.status r <> "failed"
  /\ paymentHook r SampleRuns.d3 = Some SampleRuns.d3.
Proof.
  intros r.
  assert (H1 : Result.status r <> "paid") by discriminate.
  assert (H2 : Result.status r <> "failed") by discriminate.
  split; [exact H1|]. split; [exact H2|].
  exact (paymentHook_ignores_other_statuses r SampleRuns.d3 H1 H2).
Defined.

(** X6.  A PAID confirmation of an intent that is not SCHEDULED (the initial
    charge of a subscription), whose merchant_uid ends in the digits of a
    safe integer [n]: the reconciler records the transaction, leaves
    every document of 'payment-schedule' as it is, and appends the first
    cycle: PENDING, with charge number [n + 1], dated at the start of the
    Seoul day (UTC+9) on which the pay date plus the cadence of the plan
    falls. *)
Theorem paid_unscheduled_confirmation_appends_cycle
    (r : Result.t) (cd : CustomData.t) (d : db) (t : Z) (digits : string) (n : N) :
  Result.status r = "paid" ->
  CustomData.of_value (JSON_parse (Result.custom_data r)) = Some cd ->
  CustomData.type cd <> "SCHEDULED" ->
  moment (CustomData.pay_date cd) = Some t ->
  match_digits_at_end (CustomData.merchant_uid cd) = Some digits ->
  parseInt digits = Some n ->
  (n <= MAX_SAFE_INTEGER)%N ->
  exists schedule : Z,
    paymentHook r d
    = Some {| payment_methods := payment_methods d;
              payment_schedule :=
                payment_schedule d
                ++ [{| Schedule.merchant_uid :=
                         CustomData.business_id cd ++ "_ch" ++ decimal (n + 1);
                       Schedule.business_id := CustomData.business_id cd;
                       Schedule.schedule := schedule;
                       Schedule.amount := CustomData.amount cd;
                       Schedule.vat := CustomData.vat cd;
                       Schedule.billing_plan := CustomData.billing_plan cd;
                       Schedule.status := "PENDING";
                       Schedule.failures := None |}];
              payment_transactions :=
                payment_transactions d
                ++ [transaction_of r cd status_type.paid] |}
    /\ (schedule + 32400000) mod 86400000 = 0
    /\ schedule
       <= t + default 0 (billing_plan_type (CustomData.billing_plan cd)) * 7 * 86400000
       < schedule + 86400000.
Proof.
  intros Hs Hcd Hty Hdate Hm Hn Hsafe.
  assert (Hs' : status_type.at_key (Result.status r) = Some status_type.paid)
    by (by rewrite Hs).
  exists (next_pay_date (CustomData.billing_plan cd) t). split.
  - rewrite (paymentHook_paid r cd d t Hs' Hcd Hdate), Hm, Hn.
    cbn [mbind option_bind]. rewrite (plus_one_safe n Hsafe).
    unfold paid_store. apply String.eqb_neq in Hty.
    change payment_type.scheduled with "SCHEDULED". rewrite Hty. reflexivity.
  - unfold next_pay_date.
    pose proof (seoul_midnight_spec
                  (add_weeks (default 0 (billing_plan_type (CustomData.billing_plan cd)))
                     t)) as [Hmid Hday].
    unfold add_weeks in *. change seoul_offset with 32400000 in Hmid.
    change ms_per_day with 86400000 in *. split; [exact Hmid|exact Hday].
Qed.

Lemma paid_unscheduled_confirmation_appends_cycle_witness :
  let p := initial_intent (1704056400000 + 1234) "B1" "4_WEEK" 1000 100 0 in
  let r := Sample.answer "paid" (charge_request p SampleRuns.m1) in
  let cd := metadata_of p SampleRuns.m1 in
  Result.status r = "paid"
  /\ CustomData.of_value (JSON_parse (Result.custom_data r)) = Some cd
  /\ CustomData.type cd <> "SCHEDULED"
  /\ moment (CustomData.pay_date cd) = Some (1704056400000 + 1234)
  /\ match_digits_at_end (CustomData.merchant_uid cd) = Some "0"
  /\ parseInt "0" = Some 0%N
  /\ (0 <= MAX_SAFE_INTEGER)%N
  /\ (map (fun e => (Schedule.merchant_uid e, Schedule.status e, Schedule.schedule e))
        <$> (payment_schedule <$> paymentHook r SampleRuns.d3))
     = Some [("B1_ch2", "PAID", 1701615600000); ("B1_ch3", "PENDING", Sample.jan1);
             ("B1_ch1", "PENDING", 1706454000000)]
  /\ exists d',
       paymentHook r SampleRuns.d3 = Some d'
       /\ map (fun e => (Schedule.merchant_uid e, Schedule.status e,
                         Schedule.schedule e))
            (payment_schedule d')
          = [("B1_ch2", "PAID", 1701615600000); ("B1_ch3", "PENDING", Sample.jan1);
             ("B1_ch1", "PENDING", 1706454000000)].
Proof.
  intros p r cd.
  assert (H1 : Result.status r = "paid") by reflexivity.
  assert (H2 : CustomData.of_value (JSON_parse (Result.custom_data r)) = Some cd)
    by reflexivity.
  assert (H3 : CustomData.type cd <> "SCHEDULED") by discriminate.
  assert (H4 : moment (CustomData.pay_date cd) = Some (1704056400000 + 1234))
    by (vm_compute; reflexivity).
  assert (H5 : match_digits_at_end (CustomData.merchant_uid cd) = Some "0")
    by reflexivity.
  assert (H6 : parseInt "0" = Some 0%N) by reflexivity.
  assert (H7 : (0 <= MAX_SAFE_INTEGER)%N) by (vm_compute; discriminate).
  repeat (split; [assumption|]). split; [vm_compute; reflexivity|].
  destruct (paid_unscheduled_confirmation_appends_cycle
              r cd SampleRuns.d3 (1704056400000 + 1234) "0" 0 H1 H2 H3 H4 H5 H6 H7)
    as (schedule & Hhook & Hmid & Hday).
  change (default 0 (billing_plan_type (CustomData.billing_plan cd))) with 4 in Hday.
  assert (schedule = 1706454000000) as -> by (Z.div_mod_to_equations; lia).
  eexists. split; [exact Hhook|]. vm_compute. reflexivity.
Defined.

(** X7.  A PAID confirmation whose merchant_uid does not end in digits is
    recorded as a transaction (and sets its scheduled document to PAID),
    but no next cycle is inserted: no document is added to
    'payment-schedule' and none becomes PENDING. *)
Theorem paid_confirmation_without_charge_number_ends_cycles
    (r : Result.t) (cd : CustomData.t) (d : db) (t : Z) :
  status_type.at_key (Result.status r) = Some status_type.paid ->
  CustomData.of_value (JSON_parse (Result.custom_data r)) = Some cd ->
  moment (CustomData.pay_date cd) = Some t ->
  match_digits_at_end (CustomData.merchant_uid cd) = None ->
  exists d',
    paymentHook r d = Some d'
    /\ payment_transactions d'
       = (payment_transactions d ++ [transaction_of r cd status_type.paid])%list
    /\ length (payment_schedule d') = length (payment_schedule d)
    /\ (forall e, In e (payment_schedule d') ->
                  Schedule.status e = status_type.pending ->
                  In e (payment_schedule d))
    /\ payment_methods d' = payment_methods d.
Proof.
  intros Hs Hcd Hdate Hm.
  rewrite (paymentHook_paid r cd d t Hs Hcd Hdate), Hm.
  exists (paid_store r cd d). split; [done|].
  destruct (paid_store_facts r cd d) as (Hmeth & Htx & Hsched).
  split; [done|]. rewrite Hsched.
  destruct (String.eqb _ _); [|done].
  split; [apply updateOne_length|]. split; [|done].
  intros e [Hin|(x & Hx & ->)]%updateOne_In Hst; [done|].
  simpl in Hst. discriminate Hst.
Qed.

Lemma paid_confirmation_without_charge_number_ends_cycles_witness :
  let p := {| Params.business_id := "B1"; Params.merchant_uid := "B1_first";
              Params.type := payment_type.scheduled;
              Params.billing_plan := "4_WEEK"; Params.pay_date := Sample.jan1;
              Params.amount := 1000; Params.vat := 100 |} in
  let r := Sample.answer "paid" (charge_request p SampleRuns.m1) in
  let cd := metadata_of p SampleRuns.m1 in
  status_type.at_key (Result.status r) = Some status_type.paid
  /\ CustomData.of_value (JSON_parse (Result.custom_data r)) = Some cd
  /\ moment (CustomData.pay_date cd) = Some Sample.jan1
  /\ match_digits_at_end (CustomData.merchant_uid cd) = None
  /\ exists d', paymentHook r SampleRuns.d3 = Some d'
                /\ length (payment_schedule d') = 2%nat.
Proof.
  intros p r cd.
  assert (H1 : status_type.at_key (Result.status r) = Some status_type.paid)
    by reflexivity.
  assert (H2 : CustomData.of_value (JSON_parse (Result.custom_data r)) = Some cd)
    by reflexivity.
  assert (H3 : moment (CustomData.pay_date cd) = Some Sample.jan1)
    by (vm_compute; reflexivity).
  assert (H4 : match_digits_at_end (CustomData.merchant_uid cd) = None)
    by reflexivity.
  repeat (split; [assumption|]).
  destruct (paid_confirmation_without_charge_number_ends_cycles
              r cd SampleRuns.d3 Sample.jan1 H1 H2 H3 H4)
    as (d' & Hh & _ & Hl & _).
  exists d'. split; [exact Hh | exact Hl].
Defined.

Lemma db_ext (d1 d2 : db) :
  payment_methods d1 = payment_methods d2 ->
  payment_schedule d1 = payment_schedule d2 ->
  payment_transactions d1 = payment_transactions d2 ->
  d1 = d2.
Proof. destruct d1, d2. simpl. by intros -> -> ->. Qed.

Lemma updateOne_app_no_match {A : Type} (q : A -> bool) (u : A -> A)
    (c : list A) (x : A) :
  q x = false ->
  fst (updateOne q u (c ++ [x])) = (fst (updateOne q u c) ++ [x])%list.
Proof.
  intros Hq. induction c as [|y c IH]; simpl.
  - by rewrite Hq.
  - destruct (q y); simpl; [done|].
    destruct (updateOne q u (c ++ [x])) as [c1 n1].
    destruct (updateOne q u c) as [c2 n2]. simpl in *. by rewrite IH.
Qed.

Lemma updateOne_again {A : Type} (q : A -> bool) (u : A -> A) (c : list A) :
  (forall x, q (u x) = q x) -> (forall x, u (u x) = u x) ->
  fst (updateOne q u (fst (updateOne q u c))) = fst (updateOne q u c).
Proof.
  intros Hq Hu. induction c as [|y c IH]; simpl; [done|].
  destruct (q y) eqn:Hy; simpl.
  - by rewrite Hq, Hy, Hu.
  - destruct (updateOne q u c) as [c2 n2]. simpl in *. rewrite Hy.
    destruct (updateOne q u c2) as [c3 n3]. simpl in *. by rewrite IH.
Qed.

Lemma next_entry_other_merchant_uid (cd : CustomData.t) (digits : string)
    (n : N) (t : Z) :
  match_digits_at_end (CustomData.merchant_uid cd) = Some digits ->
  parseInt digits = Some n ->
  has_merchant_uid (CustomData.merchant_uid cd) (next_entry cd (n + 1) t) = false.
Proof.
  intros Hm Hn. unfold has_merchant_uid. apply bool_decide_eq_false.
  simpl. intros Heq. rewrite <- Heq, match_digits_merchant_uid in Hm.
  injection Hm as <-. apply parseInt_safe in Hn as [Hn _].
  rewrite digits_value_decimal in Hn. injection Hn as Hn. lia.
Qed.

(** X8.  The reconciler is not idempotent: when the same PAID confirmation
    (its merchant_uid ending in the digits of a safe integer) is
    delivered a second time, a second copy of the transaction and a second
    copy of the next cycle (same merchant_uid, same date) are appended. *)
Theorem paid_confirmation_delivered_twice_duplicates
    (r : Result.t) (cd : CustomData.t) (d d1 : db) (t : Z) (digits : string) (n : N) :
  status_type.at_key (Result.status r) = Some status_type.paid ->
  CustomData.of_value (JSON_parse (Result.custom_data r)) = Some cd ->
  moment (CustomData.pay_date cd) = Some t ->
  match_digits_at_end (CustomData.merchant_uid cd) = Some digits ->
  parseInt digits = Some n ->
  (n <= MAX_SAFE_INTEGER)%N ->
  paymentHook r d = Some d1 ->
  let next := next_entry cd (n + 1) (next_pay_date (CustomData.billing_plan cd) t) in
  let tx := transaction_of r cd status_type.paid in
  exists updated,
    payment_schedule d1 = (updated ++ [next])%list
    /\ payment_transactions d1 = (payment_transactions d ++ [tx])%list
    /\ paymentHook r d1
       = Some {| payment_methods := payment_methods d;
                 payment_schedule := updated ++ [next; next];
                 payment_transactions := payment_transactions d ++ [tx; tx] |}.
Proof.
  intros Hs Hcd Hdate Hm Hn Hsafe Hh next tx.
  rewrite (paymentHook_paid r cd d t Hs Hcd Hdate), Hm, Hn in Hh.
  cbn [mbind option_bind] in Hh. rewrite (plus_one_safe n Hsafe) in Hh.
  injection Hh as <-.
  rewrite (paymentHook_paid r cd _ t Hs Hcd Hdate), Hm, Hn.
  cbn [mbind option_bind]. rewrite (plus_one_safe n Hsafe).
  destruct (paid_store_facts r cd d) as (Hmeth & Htx & Hsched).
  exists (payment_schedule (paid_store r cd d)).
  split; [reflexivity|]. split; [exact Htx|].
  f_equal. fold next.
  set (d1 := set_schedule (insertOne next (payment_schedule (paid_store r cd d)))
               (paid_store r cd d)).
  destruct (paid_store_facts r cd d1) as (Hmeth1 & Htx1 & Hsched1).
  pose proof (next_entry_other_merchant_uid cd digits n
                (next_pay_date (CustomData.billing_plan cd) t) Hm Hn) as Hq.
  fold next in Hq.
  assert (Hd1 : payment_methods d1 = payment_methods d
                /\ payment_schedule d1
                   = (payment_schedule (paid_store r cd d) ++ [next])%list
                /\ payment_transactions d1
                   = (payment_transactions d ++ [tx])%list).
  { subst d1. unfold set_schedule, insertOne.
    cbn [payment_methods payment_schedule payment_transactions]. by rewrite Hmeth, Htx. }
  destruct Hd1 as (Hm1 & Hs1 & Ht1).
  apply db_ext; unfold set_schedule;
    cbn [payment_methods payment_schedule payment_transactions].
  - by rewrite Hmeth1, Hm1.
  - rewrite Hsched1, Hs1. unfold insertOne.
    destruct (String.eqb (CustomData.type cd) payment_type.scheduled) eqn:Hty.
    + rewrite (updateOne_app_no_match _ _ _ _ Hq), Hsched.
      rewrite updateOne_again by done. by rewrite <- !app_assoc.
    + rewrite Hsched. by rewrite <- !app_assoc.
  - rewrite Htx1, Ht1. by rewrite <- !app_assoc.
Qed.

Lemma paid_confirmation_delivered_twice_duplicates_witness :
  let r := SampleRuns.paid3 in
  let cd := metadata_of SampleRuns.p3 SampleRuns.m1 in
  status_type.at_key (Result.status r) = Some status_type.paid
  /\ CustomData.of_value (JSON_parse (Result.custom_data r)) = Some cd
  /\ moment (CustomData.pay_date cd) = Some Sample.jan1
  /\ match_digits_at_end (CustomData.merchant_uid cd) = Some "3"
  /\ parseInt "3" = Some 3%N
  /\ (3 <= MAX_SAFE_INTEGER)%N
  /\ exists d1 d2,
       paymentHook r SampleRuns.d3 = Some d1
       /\ paymentHook r d1 = Some d2
       /\ map Schedule.merchant_uid (payment_schedule d2)
          = ["B1_ch2"; "B1_ch3"; "B1_ch4"; "B1_ch4"]
       /\ length (payment_schedule d2) = S (length (payment_schedule d1))
       /\ length (payment_transactions d2) = 2%nat.
Proof.
  intros r cd.
  assert (H1 : status_type.at_key (Result.status r) = Some status_type.paid)
    by reflexivity.
  assert (H2 : CustomData.of_value (JSON_parse (Result.custom_data r)) = Some cd)
    by reflexivity.
  assert (H3 : moment (CustomData.pay_date cd) = Some Sample.jan1)
    by (vm_compute; reflexivity).
  assert (H4 : match_digits_at_end (CustomData.merchant_uid cd) = Some "3")
    by reflexivity.
  assert (H5 : parseInt "3" = Some 3%N) by reflexivity.
  assert (H6 : (3 <= MAX_SAFE_INTEGER)%N) by (vm_compute; discriminate).
  repeat (split; [assumption|]).
  destruct (paymentHook r SampleRuns.d3) as [d1|] eqn:Hh;
    [|vm_compute in Hh; discriminate Hh].
  destruct (paid_confirmation_delivered_twice_duplicates
              r cd SampleRuns.d3 d1 Sample.jan1 "3" 3 H1 H2 H3 H4 H5 H6 Hh)
    as (updated & Hs1 & Ht1 & Hh2).
  eexists d1, _. split; [reflexivity|]. split; [exact Hh2|].
  cbn [payment_schedule payment_transactions]. split.
  - assert (Hu : map Schedule.merchant_uid (payment_schedule d1)
                 = ["B1_ch2"; "B1_ch3"; "B1_ch4"]).
    { vm_compute in Hh. injection Hh as <-. reflexivity. }
    rewrite Hs1, map_app in Hu. rewrite map_app.
    change (map Schedule.merchant_uid [?a; ?b]) with ["B1_ch4"; "B1_ch4"].
    apply (app_inj_tail (map Schedule.merchant_uid updated) ["B1_ch2"; "B1_ch3"]
             _ "B1_ch4") in Hu as [-> _]. reflexivity.
  - rewrite Hs1, !length_app. split; [simpl; lia | reflexivity].
Defined.

Lemma seoul_midnight_le (a now : Z) :
  seoul_midnight a <= seoul_midnight now <-> seoul_midnight a <= now.
Proof.
  unfold seoul_midnight, seoul_offset, ms_per_day, ms_per_hour.
  Z.div_mod_to_equations. lia.
Qed.

(** X9.  The cycle that a PAID confirmation appends is picked up by the daily
    scan exactly from its own day on: it is due at [now] if and only if
    the start of the Seoul day that lies the cadence of the plan after the
    pay date is not later than [now]. *)
Theorem next_cycle_due_from_its_day
    (r : Result.t) (cd : CustomData.t) (d : db) (t : Z) (digits : string)
    (n : N) (now : Z) :
  status_type.at_key (Result.status r) = Some status_type.paid ->
  CustomData.of_value (JSON_parse (Result.custom_data r)) = Some cd ->
  moment (CustomData.pay_date cd) = Some t ->
  match_digits_at_end (CustomData.merchant_uid cd) = Some digits ->
  parseInt digits = Some n ->
  exists d' next,
    paymentHook r d = Some d'
    /\ last (payment_schedule d') = Some next
    /\ Schedule.schedule next
       = seoul_midnight
           (t + default 0 (billing_plan_type (CustomData.billing_plan cd))
                * 7 * ms_per_day)
    /\ (due now next = true <-> Schedule.schedule next <= now).
Proof.
  intros Hs Hcd Hdate Hm Hn.
  rewrite (paymentHook_paid r cd d t Hs Hcd Hdate), Hm, Hn.
  eexists _, _. split; [reflexivity|].
  cbn [mbind option_bind payment_schedule set_schedule]. unfold insertOne.
  split; [apply last_snoc|]. split; [reflexivity|].
  unfold due. cbn [Schedule.status Schedule.schedule next_entry].
  rewrite andb_true_iff, bool_decide_eq_true, Z.leb_le.
  unfold next_pay_date. rewrite seoul_midnight_le. tauto.
Qed.

Lemma next_cycle_due_from_its_day_witness :
  let r := SampleRuns.paid3 in
  let cd := metadata_of SampleRuns.p3 SampleRuns.m1 in
  status_type.at_key (Result.status r) = Some status_type.paid
  /\ CustomData.of_value (JSON_parse (Result.custom_data r)) = Some cd
  /\ moment (CustomData.pay_date cd) = Some Sample.jan1
  /\ match_digits_at_end (CustomData.merchant_uid cd) = Some "3"
  /\ parseInt "3" = Some 3%N
  /\ exists d' next,
       paymentHook r SampleRuns.d3 = Some d'
       /\ last (payment_schedule d') = Some next
       /\ Schedule.schedule next = 1706454000000
       /\ (due 1706453999999 next = true <-> Schedule.schedule next <= 1706453999999).
Proof.
  intros r cd.
  assert (H1 : status_type.at_key (Result.status r) = Some status_type.paid)
    by reflexivity.
  assert (H2 : CustomData.of_value (JSON_parse (Result.custom_data r)) = Some cd)
    by reflexivity.
  assert (H3 : moment (CustomData.pay_date cd) = Some Sample.jan1)
    by (vm_compute; reflexivity).
  assert (H4 : match_digits_at_end (CustomData.merchant_uid cd) = Some "3")
    by reflexivity.
  assert (H5 : parseInt "3" = Some 3%N) by reflexivity.
  repeat (split; [assumption|]).
  destruct (next_cycle_due_from_its_day r cd SampleRuns.d3 Sample.jan1 "3" 3
              1706453999999 H1 H2 H3 H4 H5)
    as (d' & next & Hh & Hl & Hd & Hdue).
  exists d', next. split; [exact Hh|]. split; [exact Hl|].
  split; [rewrite Hd; reflexivity | exact Hdue].
Defined.

(** X10.  A plan that is not in the catalogue has no cadence: the cycle that a
    PAID confirmation appends is dated at the start of the day of the pay
    date itself, so every scan from the pay date on finds it due. *)
Theorem paid_unknown_plan_next_cycle_due_at_once
    (r : Result.t) (cd : CustomData.t) (d : db) (t : Z) (digits : string) (n : N) :
  status_type.at_key (Result.status r) = Some status_type.paid ->
  CustomData.of_value (JSON_parse (Result.custom_data r)) = Some cd ->
  moment (CustomData.pay_date cd) = Some t ->
  match_digits_at_end (CustomData.merchant_uid cd) = Some digits ->
  parseInt digits = Some n ->
  billing_plan_type (CustomData.billing_plan cd) = None ->
  exists d' next,
    paymentHook r d = Some d'
    /\ last (payment_schedule d') = Some next
    /\ Schedule.schedule next = seoul_midnight t
    /\ Schedule.billing_plan next = CustomData.billing_plan cd
    /\ forall now, t <= now -> due now next = true.
Proof.
  intros Hs Hcd Hdate Hm Hn Hplan.
  rewrite (paymentHook_paid r cd d t Hs Hcd Hdate), Hm, Hn.
  eexists _, _. split; [reflexivity|].
  cbn [mbind option_bind payment_schedule set_schedule]. unfold insertOne.
  split; [apply last_snoc|].
  assert (Hnext : next_pay_date (CustomData.billing_plan cd) t = seoul_midnight t).
  { unfold next_pay_date, add_weeks. rewrite Hplan. simpl. f_equal. lia. }
  cbn [Schedule.status Schedule.schedule Schedule.billing_plan next_entry].
  split; [exact Hnext|]. split; [reflexivity|].
  intros now Hnow. unfold due.
  cbn [Schedule.status Schedule.schedule next_entry].
  rewrite andb_true_iff, bool_decide_eq_true, Z.leb_le, Hnext, seoul_midnight_le.
  split; [reflexivity|]. pose proof (seoul_midnight_spec t). lia.
Qed.

Lemma paid_unknown_plan_next_cycle_due_at_once_witness :
  let p := {| Params.business_id := "B1"; Params.merchant_uid := "B1_ch3";
              Params.type := payment_type.scheduled;
              Params.billing_plan := "8_WEEK"; Params.pay_date := Sample.jan1;
              Params.amount := 11000; Params.vat := 1000 |} in
  let r := Sample.answer "paid" (charge_request p SampleRuns.m1) in
  let cd := metadata_of p SampleRuns.m1 in
  status_type.at_key (Result.status r) = Some status_type.paid
  /\ CustomData.of_value (JSON_parse (Result.custom_data r)) = Some cd
  /\ moment (CustomData.pay_date cd) = Some Sample.jan1
  /\ match_digits_at_end (CustomData.merchant_uid cd) = Some "3"
  /\ parseInt "3" = Some 3%N
  /\ billing_plan_type (CustomData.billing_plan cd) = None
  /\ exists d' next,
       paymentHook r SampleRuns.d3 = Some d'
       /\ last (payment_schedule d') = Some next
       /\ Schedule.schedule next = Sample.jan1
       /\ due (Sample.jan1 + ms_per_day) next = true.
Proof.
  intros p r cd.
  assert (H1 : status_type.at_key (Result.status r) = Some status_type.paid)
    by reflexivity.
  assert (H2 : CustomData.of_value (JSON_parse (Result.custom_data r)) = Some cd)
    by reflexivity.
  assert (H3 : moment (CustomData.pay_date cd) = Some Sample.jan1)
    by (vm_compute; reflexivity).
  assert (H4 : match_digits_at_end (CustomData.merchant_uid cd) = Some "3")
    by reflexivity.
  assert (H5 : parseInt "3" = Some 3%N) by reflexivity.
  assert (H6 : billing_plan_type (CustomData.billing_plan cd) = None)
    by reflexivity.
  repeat (split; [assumption|]).
  destruct (paid_unknown_plan_next_cycle_due_at_once
              r cd SampleRuns.d3 Sample.jan1 "3" 3 H1 H2 H3 H4 H5 H6)
    as (d' & next & Hh & Hl & Hd & _ & Hdue).
  exists d', next. split; [exact Hh|]. split; [exact Hl|].
  split; [rewrite Hd; reflexivity|]. apply Hdue. unfold ms_per_day. lia.
Defined.

(** ** What the reconciler keeps *)

Lemma uint_of_string_digits (s : string) :
  all_digits s = true -> exists u, NilEmpty.uint_of_string s = Some u.
Proof.
  induction s as [|c s IH]; simpl; [by eexists|].
  intros [Hc Hs]%andb_true_iff. destruct (IH Hs) as [u ->].
  destruct c as [[] [] [] [] [] [] [] []]; try discriminate Hc;
    simpl; by eexists.
Qed.

Lemma all_digits_trailing (s : string) : all_digits (trailing_digits s) = true.
Proof.
  induction s as [|c s IH]; simpl; [done|].
  destruct (is_digit c) eqn:Hc; simpl; [|done].
  destruct (_ =? _)%nat; simpl; [|done]. by rewrite Hc, IH.
Qed.

(** Whatever [/\d+$/] matched has a value: [parseInt] never gives NaN
    there. *)
Lemma digits_value_match_digits (s digits : string) :
  match_digits_at_end s = Some digits -> exists n, digits_value digits = Some n.
Proof.
  unfold match_digits_at_end. pose proof (all_digits_trailing s) as Hall.
  destruct (trailing_digits s) as [|c ds] eqn:E; [done|]. intros [= <-].
  destruct (uint_of_string_digits _ Hall) as [u Hu].
  unfold digits_value. rewrite Hu. by eexists.
Qed.

(** X11.  The reconciler only adds: it never touches 'payment-methods', appends
    at most one transaction and leaves the earlier ones, appends at most
    one document to 'payment-schedule', and changes nothing but status
    and failures in the documents that were there. *)
Theorem paymentHook_only_adds (r : Result.t) (d d' : db) :
  paymentHook r d = Some d' ->
  payment_methods d' = payment_methods d
  /\ (exists added,
        payment_transactions d' = (payment_transactions d ++ added)%list
        /\ (length added <= 1)%nat)
  /\ (exists kept added,
        payment_schedule d' = (kept ++ added)%list
        /\ (length added <= 1)%nat
        /\ map terms_of kept = map terms_of (payment_schedule d)).
Proof.
  assert (Hid : payment_methods d = payment_methods d
                /\ (exists added,
                      payment_transactions d = (payment_transactions d ++ added)%list
                      /\ (length added <= 1)%nat)
                /\ (exists kept added,
                      payment_schedule d = (kept ++ added)%list
                      /\ (length added <= 1)%nat
                      /\ map terms_of kept = map terms_of (payment_schedule d))).
  { split; [done|]. split.
    - exists []. rewrite app_nil_r. split; [done|simpl; lia].
    - exists (payment_schedule d), []. rewrite app_nil_r.
      split; [done|]. split; [simpl; lia|done]. }
  unfold paymentHook.
  destruct (status_type.at_key (Result.status r)) as [status|]; [|by intros [= <-]].
  destruct (String.eqb_spec status status_type.paid) as [->|_].
  - destruct (CustomData.of_value _) as [cd|]; cbn [mbind option_bind]; [|done].
    fold (paid_store r cd d).
    destruct (moment _) as [t|]; cbn [mbind option_bind]; [|done].
    destruct (paid_store_facts r cd d) as (Hmeth & Htx & Hsched).
    assert (Hkept : map terms_of (payment_schedule (paid_store r cd d))
                    = map terms_of (payment_schedule d)).
    { rewrite Hsched. destruct (String.eqb _ _); [|done].
      by apply updateOne_map_key. }
    destruct (match_digits_at_end _) as [ds|].
    + destruct (parseInt ds) as [n|]; cbn [mbind option_bind]; [|done].
      intros [= <-]. cbn [payment_methods payment_transactions payment_schedule set_schedule].
      split; [done|]. split.
      * eexists [_]. split; [exact Htx|simpl; lia].
      * eexists _, [_]. split; [reflexivity|]. split; [simpl; lia|done].
    + intros [= <-]. split; [done|]. split.
      * eexists [_]. split; [exact Htx|simpl; lia].
      * eexists _, []. rewrite app_nil_r. split; [reflexivity|].
        split; [simpl; lia|done].
  - destruct (String.eqb status status_type.cancelled); [by intros [= <-]|].
    destruct (String.eqb status status_type.failed); [|by intros [= <-]].
    destruct (CustomData.of_value _) as [cd|]; cbn [mbind option_bind]; [|done].
    destruct (String.eqb _ _); [|by intros [= <-]].
    intros [= <-]. cbn [payment_methods payment_transactions payment_schedule set_schedule].
    split; [done|]. split.
    + exists []. rewrite app_nil_r. split; [done|simpl; lia].
    + eexists _, []. rewrite app_nil_r. split; [reflexivity|].
      split; [simpl; lia|]. by apply updateOne_map_key.
Qed.

Lemma paymentHook_only_adds_witness :
  exists d',
    paymentHook SampleRuns.failed3 SampleRuns.d3 = Some d'
    /\ payment_methods d' = payment_methods SampleRuns.d3
    /\ map terms_of (payment_schedule d') = map terms_of (payment_schedule SampleRuns.d3).
Proof.
  eexists. split; [vm_compute; reflexivity|].
  match goal with
  | |- payment_methods ?d' = _ /\ _ =>
      assert (Hh : paymentHook SampleRuns.failed3 SampleRuns.d3 = Some d')
        by (vm_compute; reflexivity);
      destruct (paymentHook_only_adds _ _ _ Hh) as (Hm & _ & _)
  end.
  split; [exact Hm | vm_compute; reflexivity].
Defined.

Lemma paymentHook_failed_have_failures_witness :
  failed_have_failures SampleRuns.d3
  /\ exists d',
       paymentHook SampleRuns.failed3 SampleRuns.d3 = Some d'
       /\ failed_have_failures d'.
Proof.
  assert (H : failed_have_failures SampleRuns.d3).
  { intros e [<-|[<-|[]]]; discriminate. }
  split; [exact H|].
  eexists. split; [vm_compute; reflexivity|].
  apply (paymentHook_failed_have_failures SampleRuns.failed3 SampleRuns.d3 _ H).
  vm_compute. reflexivity.
Defined.

Lemma paymentHook_numbered_merchant_uid_witness :
  (forall e, In e (payment_schedule SampleRuns.d3) -> numbered_merchant_uid e)
  /\ exists d',
       paymentHook SampleRuns.paid3 SampleRuns.d3 = Some d'
       /\ forall e, In e (payment_schedule d') -> numbered_merchant_uid e.
Proof.
  assert (H : forall e, In e (payment_schedule SampleRuns.d3) ->
                        numbered_merchant_uid e).
  { intros e [<-|[<-|[]]]; [exists 2%N | exists 3%N];
      (split; [vm_compute; discriminate|reflexivity]). }
  split; [exact H|].
  eexists. split; [vm_compute; reflexivity|].
  apply (paymentHook_numbered_merchant_uid SampleRuns.paid3 SampleRuns.d3 _ H).
  vm_compute. reflexivity.
Defined.

(** ** A confirmed payment and the next scans *)

Lemma updateOne_unique_key (u : Schedule.t -> Schedule.t) (uid : string)
    (c : list Schedule.t) (y : Schedule.t) :
  NoDup (map Schedule.merchant_uid c) ->
  (forall x, Schedule.merchant_uid (u x) = Schedule.merchant_uid x) ->
  In y (fst (updateOne (has_merchant_uid uid) u c)) ->
  Schedule.merchant_uid y = uid ->
  exists x, In x c /\ y = u x.
Proof.
  intros Hnd Hu. induction c as [|x c IH]; simpl; [done|].
  simpl in Hnd. apply NoDup_cons in Hnd as [Hnotin Hnd].
  unfold has_merchant_uid at 1. case_bool_decide as Hx; simpl.
  - intros [<-|Hin] Hy; [exists x; split; [by left|done]|].
    exfalso. apply Hnotin. rewrite Hx, <- Hy.
    by apply list_elem_of_In, in_map.
  - destruct (updateOne _ u c) as [c' n]. simpl in *.
    intros [<-|Hin] Hy; [done|].
    destruct (IH Hnd Hin Hy) as (x0 & ? & ?). exists x0. split; [by right|done].
Qed.

Lemma updateOne_first_match_In {A : Type} (q : A -> bool) (u : A -> A)
    (c : list A) (x : A) :
  findOne q c = Some x -> In (u x) (fst (updateOne q u c)).
Proof.
  unfold findOne. induction c as [|y c IH]; simpl; [done|].
  destruct (q y); simpl; [intros [= ->]; by left|].
  intros H. specialize (IH H). destruct (updateOne q u c). simpl in *. by right.
Qed.

Lemma findOne_is_Some {A : Type} (q : A -> bool) (c : list A) (x : A) :
  In x c -> q x = true -> exists y, findOne q c = Some y.
Proof.
  intros Hin Hq. unfold findOne. destruct (List.find q c) as [y|] eqn:E.
  - by exists y.
  - by rewrite (find_none _ _ E x Hin) in Hq.
Qed.

(** X14.  Once a scheduled payment is confirmed PAID, no scan charges it again:
    with merchant_uids that identify the documents and a confirmed
    merchant_uid whose number, if it ends in one, is a safe integer (so
    that the next charge number is another one), every document that
    carries the merchant_uid of the confirmation is PAID and not due, at
    whatever time the scan runs. *)
Theorem paid_entry_is_never_due_again
    (r : Result.t) (cd : CustomData.t) (d : db) (t : Z) :
  status_type.at_key (Result.status r) = Some status_type.paid ->
  CustomData.of_value (JSON_parse (Result.custom_data r)) = Some cd ->
  CustomData.type cd = payment_type.scheduled ->
  moment (CustomData.pay_date cd) = Some t ->
  (forall digits, match_digits_at_end (CustomData.merchant_uid cd) = Some digits ->
                  exists n, parseInt digits = Some n /\ (n <= MAX_SAFE_INTEGER)%N) ->
  NoDup (map Schedule.merchant_uid (payment_schedule d)) ->
  exists d',
    paymentHook r d = Some d'
    /\ forall e now,
         In e (payment_schedule d') ->
         Schedule.merchant_uid e = CustomData.merchant_uid cd ->
         Schedule.status e = "PAID" /\ due now e = false.
Proof.
  intros Hs Hcd Hty Hdate Hsafe Hnd.
  rewrite (paymentHook_paid r cd d t Hs Hcd Hdate).
  destruct (paid_store_facts r cd d) as (_ & _ & Hsched).
  rewrite Hty, String.eqb_refl in Hsched.
  assert (Hold : forall e now,
            In e (payment_schedule (paid_store r cd d)) ->
            Schedule.merchant_uid e = CustomData.merchant_uid cd ->
            Schedule.status e = "PAID" /\ due now e = false).
  { intros e now Hin Huid. rewrite Hsched in Hin.
    destruct (updateOne_unique_key (Schedule.set_status status_type.paid)
                _ _ _ Hnd (fun _ => eq_refl) Hin Huid)
      as (x & _ & ->).
    split; [reflexivity|]. unfold due. simpl. done. }
  destruct (match_digits_at_end _) as [ds|] eqn:Hm.
  - destruct (Hsafe ds eq_refl) as (n & Hn & Hle). rewrite Hn.
    cbn [mbind option_bind]. rewrite (plus_one_safe n Hle).
    eexists. split; [reflexivity|].
    intros e now. cbn [payment_schedule set_schedule]. unfold insertOne.
    rewrite in_app_iff. intros [Hin|[<-|[]]] Huid; [by apply Hold|].
    exfalso.
    pose proof (next_entry_other_merchant_uid cd ds n
                  (next_pay_date (CustomData.billing_plan cd) t) Hm Hn) as Hq.
    unfold has_merchant_uid in Hq. by apply bool_decide_eq_false in Hq.
  - eexists. split; [reflexivity|]. exact Hold.
Qed.

Lemma paid_entry_is_never_due_again_witness :
  let r := SampleRuns.paid3 in
  let cd := metadata_of SampleRuns.p3 SampleRuns.m1 in
  status_type.at_key (Result.status r) = Some status_type.paid
  /\ CustomData.of_value (JSON_parse (Result.custom_data r)) = Some cd
  /\ CustomData.type cd = payment_type.scheduled
  /\ moment (CustomData.pay_date cd) = Some Sample.jan1
  /\ match_digits_at_end (CustomData.merchant_uid cd) = Some "3"
  /\ parseInt "3" = Some 3%N
  /\ NoDup (map Schedule.merchant_uid (payment_schedule SampleRuns.d3))
  /\ due Sample.jan1 SampleRuns.e3 = true
  /\ exists d',
       paymentHook r SampleRuns.d3 = Some d'
       /\ forall e, In e (payment_schedule d') ->
                    Schedule.merchant_uid e = "B1_ch3" ->
                    Schedule.status e = "PAID"
                    /\ due (Sample.jan1 + ms_per_day) e = false.
Proof.
  intros r cd.
  assert (H1 : status_type.at_key (Result.status r) = Some status_type.paid)
    by reflexivity.
  assert (H2 : CustomData.of_value (JSON_parse (Result.custom_data r)) = Some cd)
    by reflexivity.
  assert (H3 : CustomData.type cd = payment_type.scheduled) by reflexivity.
  assert (H4 : moment (CustomData.pay_date cd) = Some Sample.jan1)
    by (vm_compute; reflexivity).
  assert (H5 : NoDup (map Schedule.merchant_uid (payment_schedule SampleRuns.d3))).
  { apply (bool_decide_unpack _). vm_compute. exact I. }
  assert (H6 : match_digits_at_end (CustomData.merchant_uid cd) = Some "3")
    by reflexivity.
  assert (H7 : parseInt "3" = Some 3%N) by reflexivity.
  assert (H8 : forall digits,
             match_digits_at_end (CustomData.merchant_uid cd) = Some digits ->
             exists n, parseInt digits = Some n /\ (n <= MAX_SAFE_INTEGER)%N).
  { intros digits Hd. rewrite H6 in Hd. injection Hd as <-. exists 3%N.
    split; [exact H7|]. vm_compute. discriminate. }
  repeat (split; [assumption|]). split; [reflexivity|].
  destruct (paid_entry_is_never_due_again r cd SampleRuns.d3 Sample.jan1
              H1 H2 H3 H4 H8 H5) as (d' & Hh & Hall).
  exists d'. split; [exact Hh|]. intros e Hin Huid.
  exact (Hall e _ Hin Huid).
Defined.

(** X15.  After a FAILED confirmation of a scheduled payment, the daily scan
    never picks the payment up again (its status is FAILED, not PENDING),
    while the lookup that [setAsDefault] makes for a failed payment of the
    business finds one: the retry is left to a change of the default
    method. *)
Theorem failed_entry_waits_for_new_default
    (r : Result.t) (cd : CustomData.t) (d : db) (e : Schedule.t) :
  status_type.at_key (Result.status r) = Some status_type.failed ->
  CustomData.of_value (JSON_parse (Result.custom_data r)) = Some cd ->
  CustomData.type cd = payment_type.scheduled ->
  NoDup (map Schedule.merchant_uid (payment_schedule d)) ->
  In e (payment_schedule d) ->
  Schedule.merchant_uid e = CustomData.merchant_uid cd ->
  exists d',
    paymentHook r d = Some d'
    /\ (forall e' now,
          In e' (payment_schedule d') ->
          Schedule.merchant_uid e' = CustomData.merchant_uid cd ->
          due now e' = false)
    /\ exists failed_payment,
         findOne (is_failed_of (Schedule.business_id e)) (payment_schedule d')
         = Some failed_payment.
Proof.
  intros Hs Hcd Hty Hnd Hin Huid.
  rewrite (paymentHook_failed r cd d Hs Hcd), Hty, String.eqb_refl.
  eexists. split; [reflexivity|]. cbn [payment_schedule set_schedule].
  set (u := fun e0 => push_failure (failure_of r cd)
                        (Schedule.set_status status_type.failed e0)).
  split.
  - intros e' now Hin' Huid'.
    destruct (updateOne_unique_key u _ _ _ Hnd (fun _ => eq_refl) Hin' Huid')
      as (x & _ & ->).
    unfold due. simpl. done.
  - assert (Hq : has_merchant_uid (CustomData.merchant_uid cd) e = true)
      by (by apply bool_decide_eq_true).
    destruct (findOne_is_Some _ _ _ Hin Hq) as [x Hx].
    pose proof (updateOne_first_match_In _ u _ _ Hx) as Hux.
    apply findOne_In in Hx as [Hxin Hxq].
    apply bool_decide_eq_true in Hxq.
    assert (x = e) as ->.
    { apply list_elem_of_In, list_elem_of_lookup in Hxin as [i Hi].
      apply list_elem_of_In, list_elem_of_lookup in Hin as [j Hj].
      assert (i = j) as ->
        by (eapply (lookup_same_key Schedule.merchant_uid); eauto; congruence).
      congruence. }
    apply (findOne_is_Some _ _ (u e)); [exact Hux|].
    by apply bool_decide_eq_true.
Qed.

Lemma failed_entry_waits_for_new_default_witness :
  let r := SampleRuns.failed3 in
  let cd := metadata_of SampleRuns.p3 SampleRuns.m1 in
  status_type.at_key (Result.status r) = Some status_type.failed
  /\ CustomData.of_value (JSON_parse (Result.custom_data r)) = Some cd
  /\ CustomData.type cd = payment_type.scheduled
  /\ NoDup (map Schedule.merchant_uid (payment_schedule SampleRuns.d3))
  /\ In SampleRuns.e3 (payment_schedule SampleRuns.d3)
  /\ Schedule.merchant_uid SampleRuns.e3 = CustomData.merchant_uid cd
  /\ exists d' failed_payment,
       paymentHook r SampleRuns.d3 = Some d'
       /\ findOne (is_failed_of "B1") (payment_schedule d') = Some failed_payment.
Proof.
  intros r cd.
  assert (H1 : status_type.at_key (Result.status r) = Some status_type.failed)
    by reflexivity.
  assert (H2 : CustomData.of_value (JSON_parse (Result.custom_data r)) = Some cd)
    by reflexivity.
  assert (H3 : CustomData.type cd = payment_type.scheduled) by reflexivity.
  assert (H4 : NoDup (map Schedule.merchant_uid (payment_schedule SampleRuns.d3))).
  { apply (bool_decide_unpack _). vm_compute. exact I. }
  assert (H5 : In SampleRuns.e3 (payment_schedule SampleRuns.d3))
    by (right; left; reflexivity).
  assert (H6 : Schedule.merchant_uid SampleRuns.e3 = CustomData.merchant_uid cd)
    by reflexivity.
  repeat (split; [assumption|]).
  destruct (failed_entry_waits_for_new_default r cd SampleRuns.d3 SampleRuns.e3
              H1 H2 H3 H4 H5 H6) as (d' & Hh & _ & fp & Hfp).
  exists d', fp. split; [exact Hh | exact Hfp].
Defined.

(** ** Subscribing *)

Lemma pay_resolved (iamport : Gateway.t) (p : Params.t) (w : world)
    (m : Method.t) (r : Result.t) :
  findOne (is_default_of (Params.business_id p)) (payment_methods (store w))
  = Some m ->
  Gateway.again iamport (charge_request p m) = inr r ->
  Result.status r = "paid" ->
  pay iamport p w
  = (Resolve r,
     {| store := store w;
        timers := timers w ++ [r];
        charges := charges w ++ [charge_request p m] |}).
Proof.
  intros Hfind Hgw Hst. unfold pay. rewrite Hfind. fold (charge_request p m).
  rewrite Hgw. cbv zeta. rewrite Hst. reflexivity.
Qed.

(** [subscribe] validates the plan before anything else: for a plan that
    is not in the catalogue it answers with the error, whatever the
    gateway would do, and leaves the process as it was: no request is
    sent and no reconciler call is armed. *)
Theorem subscribe_rejects_unknown_plan
    (iamport : Gateway.t) (now : Z) (business_id billing_plan : string)
    (amount vat : Z) (charge_num : option N) (w : world) :
  billing_plan_type billing_plan = None ->
  subscribe iamport now business_id billing_plan amount vat charge_num w
  = Some
      (SentError "'billing_plan' not supported, must provide either: 4_WEEK,26_WEEK,52_WEEK."
         (Some "castr_payment_error"),
       w).
Proof. intros H. unfold subscribe. by rewrite H. Qed.

Lemma subscribe_rejects_unknown_plan_witness :
  let w := Sample.world_of SampleRuns.d3 in
  billing_plan_type "8_WEEK" = None
  /\ snd <$> subscribe (Sample.gateway "paid") Sample.jan1 "B1" "8_WEEK" 1000 100 None w
     = Some w.
Proof.
  intros w.
  assert (H : billing_plan_type "8_WEEK" = None) by reflexivity.
  split; [exact H|].
  by rewrite (subscribe_rejects_unknown_plan
                (Sample.gateway "paid") Sample.jan1 "B1" "8_WEEK" 1000 100 None w H).
Defined.

(** X16.  A subscription whose initial charge the gateway reports as paid,
    echoing the metadata, for a plan of the catalogue and a charge number
    that is a safe integer: [subscribe] answers with the result, and once
    the armed reconciler call has run, the store holds one more
    transaction (the initial charge) and one more document in
    'payment-schedule': PENDING, for the next charge number of the
    business, dated at the start of the Seoul day (UTC+9) on which the
    subscription time plus the cadence of the plan falls, with the
    amount, vat and plan of the subscription. *)
Theorem subscribe_paid_starts_first_cycle
    (iamport : Gateway.t) (now : Z) (business_id billing_plan : string)
    (amount vat : Z) (charge_num : option N) (w : world)
    (m : Method.t) (weeks : Z) (r : Result.t) :
  In (billing_plan, weeks) [("4_WEEK", 4); ("26_WEEK", 26); ("52_WEEK", 52)] ->
  findOne (is_default_of business_id) (payment_methods (store w)) = Some m ->
  let n := default 0%N charge_num in
  (n <= MAX_SAFE_INTEGER)%N ->
  let intent := initial_intent now business_id billing_plan amount vat n in
  Gateway.again iamport (charge_request intent m) = inr r ->
  paid_echo (charge_request intent m) r ->
  0 <= year_of now <= 9999 ->
  timers w = [] ->
  exists (message : string) (w1 : world) (schedule : Z),
    subscribe iamport now business_id billing_plan amount vat charge_num w
    = Some (Sent true message r, w1)
    /\ run_timers w1
       = Some
           {| store :=
                {| payment_methods := payment_methods (store w);
                   payment_schedule :=
                     payment_schedule (store w)
                     ++ [{| Schedule.merchant_uid :=
                              business_id ++ "_ch" ++ decimal (n + 1);
                            Schedule.business_id := business_id;
                            Schedule.schedule := schedule;
                            Schedule.amount := amount;
                            Schedule.vat := vat;
                            Schedule.billing_plan := billing_plan;
                            Schedule.status := "PENDING";
                            Schedule.failures := None |}];
                   payment_transactions :=
                     payment_transactions (store w)
                     ++ [transaction_of r (metadata_of intent m) status_type.paid] |};
              timers := [];
              charges := charges w ++ [charge_request intent m] |}
    /\ (schedule + 32400000) mod 86400000 = 0
    /\ schedule <= now + weeks * 7 * 86400000 < schedule + 86400000.
Proof.
  intros Hplan' Hfind n Hn intent Hgw [Hst Hecho] Hyear Htimers.
  assert (Hplan : billing_plan_type billing_plan = Some weeks).
  { destruct Hplan' as [[= <- <-]|[[= <- <-]|[[= <- <-]|[]]]]; reflexivity. }
  unfold subscribe. rewrite Hplan. fold n.
  assert ((n <=? MAX_SAFE_INTEGER + 1)%N = true) as -> by (apply N.leb_le; lia).
  cbn [negb].
  change {| Params.business_id := business_id;
            Params.merchant_uid := business_id ++ "_ch" ++ decimal n;
            Params.type := payment_type.initial;
            Params.billing_plan := billing_plan;
            Params.pay_date := now;
            Params.amount := amount;
            Params.vat := vat |} with intent.
  rewrite (pay_resolved iamport intent w m r Hfind Hgw Hst).
  eexists _, _, (seoul_midnight (add_weeks weeks now)).
  split; [reflexivity|]. split.
  - unfold run_timers. cbn [timers store charges]. rewrite Htimers.
    cbn [app run_hooks].
    assert (Hcd : CustomData.of_value (JSON_parse (Result.custom_data r))
                  = Some (metadata_of intent m)).
    { rewrite Hecho. apply echoed_metadata_typed. }
    assert (Hdate : moment (CustomData.pay_date (metadata_of intent m)) = Some now).
    { apply moment_toISOString. exact Hyear. }
    assert (Hs : status_type.at_key (Result.status r) = Some status_type.paid)
      by (by rewrite Hst).
    rewrite (paymentHook_paid r _ (store w) now Hs Hcd Hdate).
    assert (Hm : match_digits_at_end (CustomData.merchant_uid (metadata_of intent m))
                 = Some (decimal n)) by apply match_digits_merchant_uid.
    rewrite Hm, (parseInt_decimal n) by lia. cbn [mbind option_bind].
    rewrite (plus_one_safe n Hn).
    f_equal. f_equal. apply db_ext.
    + reflexivity.
    + unfold next_entry, next_pay_date, insertOne. simpl.
      rewrite Hplan. reflexivity.
    + reflexivity.
  - pose proof (seoul_midnight_spec (add_weeks weeks now)) as [Hmid Hday].
    unfold add_weeks in *. change seoul_offset with 32400000 in Hmid.
    change ms_per_day with 86400000 in *. split; [exact Hmid|exact Hday].
Qed.

Lemma subscribe_paid_starts_first_cycle_witness :
  let w := Sample.world_of (Sample.store_of [SampleRuns.m1] []) in
  let gw := Sample.gateway "paid" in
  let now := 1704056400000 + 1234 in
  let intent := initial_intent now "B1" "4_WEEK" 1000 100 0 in
  let r := Sample.answer "paid" (charge_request intent SampleRuns.m1) in
  In ("4_WEEK", 4) [("4_WEEK", 4); ("26_WEEK", 26); ("52_WEEK", 52)]
  /\ findOne (is_default_of "B1") (payment_methods (store w)) = Some SampleRuns.m1
  /\ (0 <= MAX_SAFE_INTEGER)%N
  /\ Gateway.again gw (charge_request intent SampleRuns.m1) = inr r
  /\ paid_echo (charge_request intent SampleRuns.m1) r
  /\ 0 <= year_of now <= 9999
  /\ timers w = []
  /\ exists message w1,
       subscribe gw now "B1" "4_WEEK" 1000 100 None w = Some (Sent true message r, w1)
       /\ option_map
            (fun w2 => map (fun e => (Schedule.merchant_uid e, Schedule.schedule e,
                                      Schedule.status e))
                         (payment_schedule (store w2)))
            (run_timers w1)
          = Some [("B1_ch1", 1706454000000, "PENDING")].
Proof.
  intros w gw now intent r.
  assert (H1 : In ("4_WEEK", 4) [("4_WEEK", 4); ("26_WEEK", 26); ("52_WEEK", 52)])
    by (left; reflexivity).
  assert (H2 : findOne (is_default_of "B1") (payment_methods (store w))
               = Some SampleRuns.m1) by reflexivity.
  assert (H3 : Gateway.again gw (charge_request intent SampleRuns.m1) = inr r)
    by reflexivity.
  assert (H4 : paid_echo (charge_request intent SampleRuns.m1) r)
    by (split; reflexivity).
  assert (H5 : 0 <= year_of now <= 9999)
    by (vm_compute; split; discriminate).
  assert (H6 : timers w = []) by reflexivity.
  assert (H7 : (0 <= MAX_SAFE_INTEGER)%N) by (vm_compute; discriminate).
  repeat (split; [assumption|]).
  destruct (subscribe_paid_starts_first_cycle
              gw now "B1" "4_WEEK" 1000 100 None w
              SampleRuns.m1 4 r H1 H2 H7 H3 H4 H5 H6)
    as (message & w1 & schedule & Hsub & Hrun & _).
  exists message, w1. split; [exact Hsub|].
  assert (Hw1 : snd <$> subscribe gw now "B1" "4_WEEK" 1000 100 None w
                = Some {| store := store w; timers := [r];
                          charges := [charge_request intent SampleRuns.m1] |})
    by (vm_compute; reflexivity).
  rewrite Hsub in Hw1. injection Hw1 as ->. vm_compute. reflexivity.
Defined.

(** ** Registering and removing payment methods *)

Lemma createPaymentMethod_single_default_witness :
  let d := SampleRuns.d3 in
  let body := {| Card.card_number := "1111-2222-3333-4444";
                 Card.expiry := "2030-01"; Card.birth := "900101";
                 Card.pwd_2digit := "00"; Card.customer_name := None;
                 Card.customer_tel := None; Card.customer_email := None;
                 Card.customer_addr := None; Card.customer_postcode := None |} in
  single_default (payment_methods d)
  /\ exists answer d',
       createPaymentMethod (Sample.gateway "paid") 0 "B1" body d = Some (answer, d')
       /\ length (payment_methods d') = 3%nat
       /\ single_default (payment_methods d').
Proof.
  intros d body.
  assert (H : single_default (payment_methods d)).
  { intros b. unfold count_default. simpl. unfold is_default_of. simpl.
    repeat case_bool_decide; simpl; try lia; naive_solver. }
  split; [exact H|].
  eexists _, _. split; [vm_compute; reflexivity|]. split; [reflexivity|].
  eapply (createPaymentMethod_single_default (Sample.gateway "paid") 0 "B1" body d
            _ _ H).
  vm_compute. reflexivity.
Defined.

Lemma setAsDefault_single_default_own_method_witness :
  let w := Sample.world_of SampleRuns.d3 in
  single_default (payment_methods (store w))
  /\ (forall m, In m (payment_methods (store w)) ->
                Method.customer_uid m = "B1_5678" -> Method.business_id m = "B1")
  /\ count_default "B1"
       (payment_methods
          (store (snd (setAsDefault (Sample.gateway "paid") 0 "B1" "B1_5678" w))))
     = 1%nat
  /\ single_default
       (payment_methods
          (store (snd (setAsDefault (Sample.gateway "paid") 0 "B1" "B1_5678" w)))).
Proof.
  intros w.
  assert (H1 : single_default (payment_methods (store w))).
  { intros b. unfold count_default. simpl. unfold is_default_of. simpl.
    repeat case_bool_decide; simpl; try lia; naive_solver. }
  assert (H2 : forall m, In m (payment_methods (store w)) ->
                         Method.customer_uid m = "B1_5678" ->
                         Method.business_id m = "B1").
  { intros m [<-|[<-|[]]]; reflexivity. }
  split; [exact H1|]. split; [exact H2|]. split; [reflexivity|].
  exact (setAsDefault_single_default_own_method
           (Sample.gateway "paid") 0 "B1" "B1_5678" w H1 H2).
Defined.

Lemma split_group (g s : string) :
  no_dash g = true -> split "-" (g ++ String "-" s) = g :: split "-" s.
Proof.
  induction g as [|c g IH]; [done|]. rewrite append_cons. simpl.
  intros [Hc Hg]%andb_true_iff. apply negb_true_iff in Hc. rewrite Hc.
  by rewrite (IH Hg).
Qed.

Lemma split_last_group (g : string) : no_dash g = true -> split "-" g = [g].
Proof.
  induction g as [|c g IH]; [done|]. simpl.
  intros [Hc Hg]%andb_true_iff. apply negb_true_iff in Hc. rewrite Hc.
  by rewrite (IH Hg).
Qed.

Lemma count_zero_findOne {A : Type} (p : A -> bool) (c : list A) :
  count p c = 0%nat -> findOne p c = None.
Proof.
  intros H. unfold findOne. destruct (List.find p c) as [x|] eqn:E; [|done].
  apply find_some in E as [Hin Hp]. by rewrite (count_zero p c H x Hin) in Hp.
Qed.

(** X19.  A card number of four groups whose last has four characters is
    registered under the customer_uid business_id + "_" + last group; when
    the gateway accepts it and the business has no method with the
    customer_uid the gateway answers, one document is appended to
    'payment-methods', with [default_method = false], and nothing else
    changes: a new method is never the default. *)
Theorem createPaymentMethod_appends_non_default
    (iamport : Gateway.t) (now : Z) (business_id : string) (body : Card.t)
    (d : db) (g1 g2 g3 g4 uid : string) :
  Card.card_number body = g1 ++ "-" ++ g2 ++ "-" ++ g3 ++ "-" ++ g4 ->
  no_dash g1 = true -> no_dash g2 = true -> no_dash g3 = true ->
  no_dash g4 = true -> String.length g4 = 4%nat ->
  Gateway.create iamport (customer_uid_of business_id g4) body = inr uid ->
  findOne (is_method business_id uid) (payment_methods d) = None ->
  createPaymentMethod iamport now business_id body d
  = Some (Sent true ("New payment method (" ++ uid ++ ") has been created.") uid,
          {| payment_methods :=
               payment_methods d ++ [fresh_method now business_id uid];
             payment_schedule := payment_schedule d;
             payment_transactions := payment_transactions d |})
  /\ forall b, count_default b (payment_methods d ++ [fresh_method now business_id uid])
               = count_default b (payment_methods d).
Proof.
  intros Hcard H1 H2 H3 H4 Hlen Hgw Hfind. split.
  - unfold createPaymentMethod. rewrite Hcard.
    change (g1 ++ "-" ++ g2 ++ "-" ++ g3 ++ "-" ++ g4)
      with (g1 ++ String "-" (g2 ++ String "-" (g3 ++ String "-" g4))).
    rewrite !split_group, split_last_group by done.
    cbn [nth_error mbind option_bind]. rewrite Hlen. cbn [Nat.eqb negb].
    fold (customer_uid_of business_id g4). rewrite Hgw.
    unfold upsertOne. fold (is_method business_id uid).
    rewrite (updateOne_none _ _ _ Hfind). reflexivity.
  - intros b. unfold count_default. rewrite List.filter_app, List.length_app.
    simpl. assert (is_default_of b (fresh_method now business_id uid) = false) as ->.
    { apply bool_decide_eq_false. simpl. by intros [_ ?]. }
    simpl. lia.
Qed.

Lemma createPaymentMethod_appends_non_default_witness :
  let body := {| Card.card_number := "1111-2222-3333-4444";
                 Card.expiry := "2030-01"; Card.birth := "900101";
                 Card.pwd_2digit := "00"; Card.customer_name := None;
                 Card.customer_tel := None; Card.customer_email := None;
                 Card.customer_addr := None; Card.customer_postcode := None |} in
  let gw := Sample.gateway "paid" in
  Card.card_number body = "1111" ++ "-" ++ "2222" ++ "-" ++ "3333" ++ "-" ++ "4444"
  /\ String.length "4444" = 4%nat
  /\ Gateway.create gw (customer_uid_of "B1" "4444") body = inr "B1_4444"
  /\ findOne (is_method "B1" "B1_4444") (payment_methods SampleRuns.d3) = None
  /\ option_map (fun r => map Method.customer_uid (payment_methods (snd r)))
       (createPaymentMethod gw 0 "B1" body SampleRuns.d3)
     = Some ["B1_1234"; "B1_5678"; "B1_4444"].
Proof.
  intros body gw.
  assert (H0 : Card.card_number body
               = "1111" ++ "-" ++ "2222" ++ "-" ++ "3333" ++ "-" ++ "4444")
    by reflexivity.
  assert (H1 : String.length "4444" = 4%nat) by reflexivity.
  assert (H2 : Gateway.create gw (customer_uid_of "B1" "4444") body = inr "B1_4444")
    by reflexivity.
  assert (H3 : findOne (is_method "B1" "B1_4444") (payment_methods SampleRuns.d3)
               = None) by reflexivity.
  repeat (split; [assumption|]).
  rewrite (proj1 (createPaymentMethod_appends_non_default
                    gw 0 "B1" body SampleRuns.d3 "1111" "2222" "3333" "4444"
                    "B1_4444" H0 eq_refl eq_refl eq_refl eq_refl H1 H2 H3)).
  reflexivity.
Defined.

(** X20.  Registering again a card that is stored rewrites its document in
    place with [default_method = false]: when that card was the default
    (the business having at most one), the business is left without a
    default method, and the number of documents does not change. *)
Theorem createPaymentMethod_again_resets_default
    (iamport : Gateway.t) (now : Z) (business_id : string) (body : Card.t)
    (d : db) (last_4_digits uid : string) (m : Method.t) :
  nth_error (split "-" (Card.card_number body)) 3 = Some last_4_digits ->
  String.length last_4_digits = 4%nat ->
  Gateway.create iamport (customer_uid_of business_id last_4_digits) body = inr uid ->
  findOne (is_method business_id uid) (payment_methods d) = Some m ->
  Method.default_method m = true ->
  (count_default business_id (payment_methods d) <= 1)%nat ->
  exists (i : nat) (d' : db),
    createPaymentMethod iamport now business_id body d
    = Some (Sent true ("New payment method (" ++ uid ++ ") has been created.") uid, d')
    /\ payment_methods d !! i = Some m
    /\ payment_methods d' = <[i := reset_method now uid m]> (payment_methods d)
    /\ findOne (is_default_of business_id) (payment_methods d') = None.
Proof.
  intros Hnth Hlen Hgw Hfind Hdef Hone.
  destruct (updateOne_some _ (reset_method now uid) _ _ Hfind)
    as (i & Hi & Hq & _ & Hu).
  pose proof (count_updateOne (is_default_of business_id)
                (is_method business_id uid) (reset_method now uid)
                (payment_methods d)) as Hc.
  rewrite Hfind, Hu in Hc. cbn [fst] in Hc.
  apply bool_decide_eq_true in Hq as [Hb _].
  assert (is_default_of business_id m = true) as Hm
    by (by apply bool_decide_eq_true).
  assert (is_default_of business_id (reset_method now uid m) = false) as Hr.
  { apply bool_decide_eq_false. simpl. by intros [_ ?]. }
  rewrite Hm, Hr in Hc. fold (count_default business_id (payment_methods d)) in Hc.
  exists i, (set_methods (<[i := reset_method now uid m]> (payment_methods d)) d).
  split; [|split; [exact Hi|split; [reflexivity|]]].
  - unfold createPaymentMethod. rewrite Hnth. cbn [mbind option_bind].
    rewrite Hlen. cbn [Nat.eqb negb].
    fold (customer_uid_of business_id last_4_digits). rewrite Hgw.
    unfold upsertOne. fold (is_method business_id uid).
    change (fun m0 : Method.t =>
              {| Method.business_id := Method.business_id m0;
                 Method.customer_uid := uid;
                 Method.default_method := false;
                 Method.created_time := Method.created_time m0;
                 Method.updated_time := now |})
      with (reset_method now uid).
    rewrite Hu. reflexivity.
  - apply count_zero_findOne. cbn [payment_methods set_methods].
    unfold count_default, count in *. lia.
Qed.

Lemma createPaymentMethod_again_resets_default_witness :
  let body := {| Card.card_number := "1111-2222-3333-1234";
                 Card.expiry := "2030-01"; Card.birth := "900101";
                 Card.pwd_2digit := "00"; Card.customer_name := None;
                 Card.customer_tel := None; Card.customer_email := None;
                 Card.customer_addr := None; Card.customer_postcode := None |} in
  let gw := Sample.gateway "paid" in
  let d := SampleRuns.d3 in
  nth_error (split "-" (Card.card_number body)) 3 = Some "1234"
  /\ String.length "1234" = 4%nat
  /\ Gateway.create gw (customer_uid_of "B1" "1234") body = inr "B1_1234"
  /\ findOne (is_method "B1" "B1_1234") (payment_methods d) = Some SampleRuns.m1
  /\ Method.default_method SampleRuns.m1 = true
  /\ (count_default "B1" (payment_methods d) <= 1)%nat
  /\ exists answer d',
       createPaymentMethod gw 5 "B1" body d = Some (answer, d')
       /\ findOne (is_default_of "B1") (payment_methods d') = None.
Proof.
  intros body gw d.
  assert (H1 : nth_error (split "-" (Card.card_number body)) 3 = Some "1234")
    by reflexivity.
  assert (H2 : String.length "1234" = 4%nat) by reflexivity.
  assert (H3 : Gateway.create gw (customer_uid_of "B1" "1234") body = inr "B1_1234")
    by reflexivity.
  assert (H4 : findOne (is_method "B1" "B1_1234") (payment_methods d)
               = Some SampleRuns.m1) by reflexivity.
  assert (H5 : Method.default_method SampleRuns.m1 = true) by reflexivity.
  assert (H6 : (count_default "B1" (payment_methods d) <= 1)%nat)
    by (vm_compute; lia).
  repeat (split; [assumption|]).
  destruct (createPaymentMethod_again_resets_default
              gw 5 "B1" body d "1234" "B1_1234" SampleRuns.m1 H1 H2 H3 H4 H5 H6)
    as (i & d' & Hc & _ & _ & Hnone).
  eexists _, d'. split; [exact Hc | exact Hnone].
Defined.

Lemma append_inj_same_length (s1 s2 t1 t2 : string) :
  s1 ++ t1 = s2 ++ t2 -> String.length t1 = String.length t2 ->
  s1 = s2 /\ t1 = t2.
Proof.
  revert s2. induction s1 as [|a s1 IH]; intros [|b s2] H Hlen.
  - done.
  - exfalso. rewrite append_empty in H. subst t1.
    rewrite append_length in Hlen. simpl in Hlen. lia.
  - exfalso. rewrite append_empty in H. subst t2.
    rewrite append_length in Hlen. simpl in Hlen. lia.
  - rewrite !append_cons in H. injection H as -> H.
    destruct (IH s2 H Hlen) as [-> ->]. done.
Qed.

(** X21.  The customer_uid of a card names its business: because the last group
    has exactly four characters, two registrations that ask for the same
    customer_uid are for the same business and the same last group. *)
Theorem customer_uid_names_business (b1 b2 l1 l2 : string) :
  String.length l1 = 4%nat -> String.length l2 = 4%nat ->
  customer_uid_of b1 l1 = customer_uid_of b2 l2 ->
  b1 = b2 /\ l1 = l2.
Proof.
  intros H1 H2. unfold customer_uid_of. intros H.
  apply append_inj_same_length in H as [-> H].
  - split; [done|]. rewrite !append_cons, !append_empty in H. by injection H.
  - rewrite !append_cons, !append_empty. simpl. by rewrite H1, H2.
Qed.

Lemma customer_uid_names_business_witness :
  String.length "1234" = 4%nat
  /\ customer_uid_of "B1" "1234" = "B1_1234"
  /\ forall b l, String.length l = 4%nat ->
                 customer_uid_of b l = customer_uid_of "B1" "1234" ->
                 b = "B1" /\ l = "1234".
Proof.
  assert (H : String.length "1234" = 4%nat) by reflexivity.
  split; [exact H|]. split; [reflexivity|].
  intros b l Hl Heq.
  exact (customer_uid_names_business b "B1" l "1234" Hl H Heq).
Defined.

(** ** Removing a payment method *)

Lemma count_deleteOne {A : Type} (p q : A -> bool) (c : list A) :
  (count p (deleteOne q c) + match findOne q c with
                             | Some x => if p x then 1 else 0
                             | None => 0
                             end
   = count p c)%nat.
Proof.
  unfold findOne. induction c as [|x c IH]; simpl; [done|].
  destruct (q x) eqn:Hq.
  - rewrite count_cons. lia.
  - rewrite !count_cons. lia.
Qed.

Lemma length_deleteOne {A : Type} (q : A -> bool) (c : list A) (x : A) :
  findOne q c = Some x -> (length (deleteOne q c) + 1 = length c)%nat.
Proof.
  unfold findOne. induction c as [|y c IH]; simpl; [done|].
  destruct (q y); [intros _; lia|]. intros H. simpl. specialize (IH H). lia.
Qed.

(** X22.  Removing a payment method never breaks the rule of one default per
    business: whatever the gateway answers and whichever document goes,
    a store with at most one default method per business stays so, and
    the other two collections are not touched. *)
Theorem deletePaymentMethod_keeps_single_default
    (delete_customer : string -> GatewayError.t + string)
    (customer_uid : string) (d : db) :
  single_default (payment_methods d) ->
  let d' := snd (deletePaymentMethod delete_customer customer_uid d) in
  single_default (payment_methods d')
  /\ payment_schedule d' = payment_schedule d
  /\ payment_transactions d' = payment_transactions d.
Proof.
  intros Hone. unfold deletePaymentMethod.
  destruct (delete_customer customer_uid) as [e|uid]; cbn; [done|].
  split; [|done]. intros b. specialize (Hone b).
  pose proof (count_deleteOne (is_default_of b) (has_customer_uid uid)
                (payment_methods d)) as Hc.
  unfold count_default, count in *. lia.
Qed.

Lemma deletePaymentMethod_keeps_single_default_witness :
  single_default (payment_methods SampleRuns.d3)
  /\ single_default
       (payment_methods
          (snd (deletePaymentMethod (fun uid => inr uid) "B1_5678" SampleRuns.d3))).
Proof.
  assert (H : single_default (payment_methods SampleRuns.d3)).
  { intros b. unfold count_default. simpl. unfold is_default_of. simpl.
    repeat case_bool_decide; simpl; try lia; naive_solver. }
  split; [exact H|].
  exact (proj1 (deletePaymentMethod_keeps_single_default
                  (fun uid => inr uid) "B1_5678" SampleRuns.d3 H)).
Defined.

(** X23.  Removing the default method of a business leaves the business without
    a default: when the gateway confirms the removal and the stored
    method with that customer_uid is the default of its business (which
    has at most one), one document is deleted, no default method is left
    for the business, and [pay] for that business is rejected without a
    request to the gateway. *)
Theorem deletePaymentMethod_default_leaves_no_default
    (delete_customer : string -> GatewayError.t + string) (iamport : Gateway.t)
    (customer_uid uid : string) (w : world) (m : Method.t) (p : Params.t) :
  delete_customer customer_uid = inr uid ->
  findOne (has_customer_uid uid) (payment_methods (store w)) = Some m ->
  Method.default_method m = true ->
  (count_default (Method.business_id m) (payment_methods (store w)) <= 1)%nat ->
  Params.business_id p = Method.business_id m ->
  let d' := snd (deletePaymentMethod delete_customer customer_uid (store w)) in
  (length (payment_methods d') + 1 = length (payment_methods (store w)))%nat
  /\ findOne (is_default_of (Method.business_id m)) (payment_methods d') = None
  /\ snd (pay iamport p (set_store d' w)) = set_store d' w.
Proof.
  intros Hgw Hfind Hdef Hone Hp. unfold deletePaymentMethod. rewrite Hgw.
  cbn [snd set_methods payment_methods].
  assert (Hnone : findOne (is_default_of (Method.business_id m))
                    (deleteOne (has_customer_uid uid) (payment_methods (store w)))
                  = None).
  { apply count_zero_findOne.
    pose proof (count_deleteOne (is_default_of (Method.business_id m))
                  (has_customer_uid uid) (payment_methods (store w))) as Hc.
    rewrite Hfind in Hc.
    assert (is_default_of (Method.business_id m) m = true) as Hm
      by (by apply bool_decide_eq_true).
    rewrite Hm in Hc. unfold count_default, count in *. lia. }
  split; [by apply (length_deleteOne _ _ m)|]. split; [exact Hnone|].
  unfold pay. rewrite Hp. cbn [store set_store set_methods payment_methods].
  rewrite Hnone. reflexivity.
Qed.

Lemma deletePaymentMethod_default_leaves_no_default_witness :
  let w := Sample.world_of SampleRuns.d3 in
  let d' := snd (deletePaymentMethod (fun uid => inr uid) "B1_1234" (store w)) in
  findOne (has_customer_uid "B1_1234") (payment_methods (store w)) = Some SampleRuns.m1
  /\ Method.default_method SampleRuns.m1 = true
  /\ (count_default "B1" (payment_methods (store w)) <= 1)%nat
  /\ map Method.customer_uid (payment_methods d') = ["B1_5678"]
  /\ snd (pay (Sample.gateway "paid") SampleRuns.p3 (set_store d' w)) = set_store d' w.
Proof.
  intros w d'.
  assert (H1 : (fun uid : string => @inr GatewayError.t string uid) "B1_1234"
               = inr "B1_1234") by reflexivity.
  assert (H2 : findOne (has_customer_uid "B1_1234") (payment_methods (store w))
               = Some SampleRuns.m1) by reflexivity.
  assert (H3 : Method.default_method SampleRuns.m1 = true) by reflexivity.
  assert (H4 : (count_default (Method.business_id SampleRuns.m1)
                  (payment_methods (store w)) <= 1)%nat) by (vm_compute; lia).
  assert (H5 : Params.business_id SampleRuns.p3 = Method.business_id SampleRuns.m1)
    by reflexivity.
  split; [exact H2|]. split; [exact H3|]. split; [exact H4|].
  split; [reflexivity|].
  exact (proj2 (proj2 (deletePaymentMethod_default_leaves_no_default
                         (fun uid => inr uid) (Sample.gateway "paid")
                         "B1_1234" "B1_1234" w SampleRuns.m1 SampleRuns.p3
                         H1 H2 H3 H4 H5))).
Defined.

(** ** A new default method is the one charged *)

Lemma findOne_after_updateOne {A : Type} (q q' : A -> bool) (u : A -> A)
    (c : list A) (x : A) :
  (forall y, q' (u y) = q' y) ->
  findOne q' c = Some x ->
  exists x', findOne q' (fst (updateOne q u c)) = Some x' /\ (x' = x \/ x' = u x).
Proof.
  intros Hu. unfold findOne. induction c as [|y c IH]; simpl; [done|].
  destruct (q y) eqn:Hq; simpl.
  - rewrite Hu. destruct (q' y); [|by eauto].
    intros [= ->]. eauto.
  - destruct (updateOne q u c) as [c' n]. simpl in *.
    destruct (q' y); [by eauto|]. exact IH.
Qed.

Lemma updateOne_In_first {A : Type} (q : A -> bool) (u : A -> A) (c : list A) (y : A) :
  In y (fst (updateOne q u c)) ->
  In y c \/ exists x, findOne q c = Some x /\ y = u x.
Proof.
  unfold findOne. induction c as [|x c IH]; simpl; [done|].
  destruct (q x); simpl.
  - intros [<-|Hin]; [right; by exists x|]. left. by right.
  - destruct (updateOne q u c) as [c' n]. simpl in *.
    intros [<-|Hin]; [left; by left|].
    destruct (IH Hin) as [?|?]; [left; by right|by right].
Qed.

Lemma setAsDefault_methods (iamport : Gateway.t) (now : Z)
    (business_id customer_uid : string) (w : world) :
  payment_methods (store (snd (setAsDefault iamport now business_id customer_uid w)))
  = fst (unset_then_set business_id customer_uid (payment_methods (store w))).
Proof.
  unfold setAsDefault.
  destruct (unset_then_set _ _ _) as [set n]. cbn [fst].
  destruct (n =? 0)%nat; [reflexivity|]. cbn [snd].
  destruct (findOne _ _) as [fp|]; [|reflexivity].
  destruct (Schedule.failures fp); [|reflexivity].
  rewrite pay_store. reflexivity.
Qed.

(** X24.  After a method of the business is set as default, it is the method
    that is charged: when the stored method with the given customer_uid
    belongs to the business of the request and the business had at most
    one default method, every later payment of that business sends the
    gateway a request for this customer_uid (whatever happened to a
    failed payment that [setAsDefault] retried). *)
Theorem setAsDefault_then_pay_charges_new_default
    (iamport : Gateway.t) (now : Z) (business_id customer_uid : string)
    (w : world) (m : Method.t) (p : Params.t) :
  findOne (has_customer_uid customer_uid) (payment_methods (store w)) = Some m ->
  Method.business_id m = business_id ->
  (count_default business_id (payment_methods (store w)) <= 1)%nat ->
  Params.business_id p = business_id ->
  let w' := snd (setAsDefault iamport now business_id customer_uid w) in
  exists request,
    charges (snd (pay iamport p w')) = (charges w' ++ [request])%list
    /\ Charge.customer_uid request = customer_uid
    /\ Charge.merchant_uid request = Params.merchant_uid p
    /\ Charge.amount request = Params.amount p.
Proof.
  intros Hfind Hb Hone Hp w'.
  pose proof (setAsDefault_methods iamport now business_id customer_uid w) as Hset.
  fold w' in Hset. clearbody w'.
  unfold unset_then_set in Hset.
  pose proof (count_default_unset business_id business_id
                (payment_methods (store w))) as Hzero.
  rewrite bool_decide_eq_true_2 in Hzero by done.
  destruct (findOne_after_updateOne (is_default_of business_id)
              (has_customer_uid customer_uid) (Method.set_default_method false)
              (payment_methods (store w)) m (fun _ => eq_refl) Hfind)
    as (m' & Hfind' & Hm').
  destruct (updateOne (is_default_of business_id)
              (Method.set_default_method false) (payment_methods (store w)))
    as [unset n0]. cbn [fst] in Hzero, Hfind'.
  assert (Hm'b : Method.business_id m' = business_id)
    by (by destruct Hm' as [->| ->]).
  assert (Hm'c : Method.customer_uid m' = customer_uid).
  { apply findOne_In in Hfind' as [_ Hq]. by apply bool_decide_eq_true in Hq. }
  pose proof (updateOne_first_match_In _ (Method.set_default_method true)
                _ _ Hfind') as Hin.
  pose proof (fun y => updateOne_In_first (has_customer_uid customer_uid)
                         (Method.set_default_method true) unset y) as Hfrom.
  destruct (updateOne (has_customer_uid customer_uid)
              (Method.set_default_method true) unset) as [set n1].
  cbn [fst] in Hset, Hin, Hfrom.
  assert (Hdef : is_default_of business_id (Method.set_default_method true m') = true)
    by (by apply bool_decide_eq_true).
  destruct (findOne_is_Some _ _ _ Hin Hdef) as (y & Hy).
  assert (Hyc : Method.customer_uid y = customer_uid).
  { apply findOne_In in Hy as [Hyin Hyq].
    destruct (Hfrom y Hyin) as [Hold|(x & Hx & ->)].
    - exfalso. pose proof (count_pos _ _ _ Hold Hyq) as Hpos.
      unfold count_default, count in *. lia.
    - rewrite Hfind' in Hx. injection Hx as <-. exact Hm'c. }
  unfold pay. rewrite Hp, Hset, Hy.
  destruct (Gateway.again iamport _) as [err|r]; cbv zeta.
  - eexists. split; [reflexivity|]. by rewrite <- Hyc.
  - destruct (bool_decide _); (eexists; split; [reflexivity|]; by rewrite <- Hyc).
Qed.

Lemma setAsDefault_then_pay_charges_new_default_witness :
  let w := Sample.world_of SampleRuns.d3 in
  let gw := Sample.gateway "paid" in
  findOne (has_customer_uid "B1_5678") (payment_methods (store w)) = Some SampleRuns.m2
  /\ (count_default "B1" (payment_methods (store w)) <= 1)%nat
  /\ map Charge.customer_uid
       (charges (snd (pay gw SampleRuns.p3
                        (snd (setAsDefault gw 5 "B1" "B1_5678" w)))))
     = ["B1_5678"]
  /\ exists request,
       charges (snd (pay gw SampleRuns.p3 (snd (setAsDefault gw 5 "B1" "B1_5678" w))))
       = (charges (snd (setAsDefault gw 5 "B1" "B1_5678" w)) ++ [request])%list
       /\ Charge.customer_uid request = "B1_5678".
Proof.
  intros w gw.
  assert (H1 : findOne (has_customer_uid "B1_5678") (payment_methods (store w))
               = Some SampleRuns.m2) by reflexivity.
  assert (H2 : Method.business_id SampleRuns.m2 = "B1") by reflexivity.
  assert (H3 : (count_default "B1" (payment_methods (store w)) <= 1)%nat)
    by (vm_compute; lia).
  assert (H4 : Params.business_id SampleRuns.p3 = "B1") by reflexivity.
  split; [exact H1|]. split; [exact H3|]. split; [vm_compute; reflexivity|].
  destruct (setAsDefault_then_pay_charges_new_default
              gw 5 "B1" "B1_5678" w SampleRuns.m2 SampleRuns.p3 H1 H2 H3 H4)
    as (request & Hc & Hcu & _).
  exists request. split; [exact Hc | exact Hcu].
Defined.

(** ** Listings *)

(** X25.  The listing of payment methods has one element per stored method of
    the business, and shows no more default methods than the store has
    for the business: a business with at most one default method is
    never shown two.  An element whose fetch failed carries no default
    flag. *)
Theorem getPaymentMethods_lists_business_methods
    (Info : Type) (get_customer : string -> GatewayError.t + Info)
    (business_id : string) (d : db) :
  let r := getPaymentMethods Info get_customer business_id d in
  length (listing_data r) = count (method_of business_id) (payment_methods d)
  /\ (count listed_default (listing_data r)
      <= count_default business_id (payment_methods d))%nat.
Proof.
  cbv zeta. unfold getPaymentMethods. cbn [listing_data]. split.
  - by rewrite length_map.
  - change (count_default business_id (payment_methods d))
      with (count (is_default_of business_id) (payment_methods d)).
    unfold find. induction (payment_methods d) as [|x c IH]; [done|].
    rewrite count_cons. cbn [List.filter].
    unfold method_of at 1. unfold is_default_of at 1.
    case_bool_decide as Hb.
    + cbn [map]. rewrite count_cons. unfold fetch_method at 1.
      destruct (get_customer (Method.customer_uid x)); cbn [listed_default].
      * lia.
      * destruct (Method.default_method x) eqn:Hd.
        -- rewrite bool_decide_eq_true_2 by done. lia.
        -- lia.
    + lia.
Qed.

Lemma descending_same_keys {A B : Type} (key : A -> Z) (key' : B -> Z)
    (l : list A) (k : list B) :
  map key' k = map key l -> descending key l -> descending key' k.
Proof.
  unfold descending. revert k. induction l as [|x l IH]; intros [|y k] Hm H;
    try discriminate Hm; [constructor|].
  simpl in Hm. injection Hm as Hy Hm.
  apply StronglySorted_inv in H as [Hs Hall].
  constructor; [by apply IH|].
  clear IH Hs. revert k Hm. induction Hall as [|a l Ha Hall IH]; intros [|b k] Hm;
    try discriminate Hm; constructor.
  - simpl in Hm. injection Hm as Hb _. lia.
  - simpl in Hm. injection Hm as _ Hm. by apply IH.
Qed.

Lemma history_item_fields (format_LL_utc : Z -> string) (t : Tx.t) (i : HistoryItem.t) :
  history_item format_LL_utc t = Some i ->
  HistoryItem.document i = t
  /\ date (HistoryItem.time_paid i) = Tx.time_paid t
  /\ date (HistoryItem.pay_date i) = Tx.pay_date t
  /\ str_kr (HistoryItem.time_paid i) = format_LL_kr (Tx.time_paid t)
  /\ (exists z, moment (Tx.pay_date t) = Some z
                /\ str_kr (HistoryItem.pay_date i) = format_LL_kr z).
Proof.
  unfold history_item. destruct (moment (Tx.pay_date t)) as [z|]; [|done].
  cbn [mbind option_bind]. intros [= <-]. cbn. repeat split; try done.
  by exists z.
Qed.

(** X26.  The history of a business is exactly its stored transactions, newest
    payment first: when the pay date of each of them is in the format
    the service writes, the listing has one element per transaction of
    the business and none of another, in descending order of
    [time_paid], each with the stored dates and their renderings beside
    them. *)
Theorem getHistory_lists_business_newest_first
    (format_LL_utc : Z -> string) (business_id : string) (d : db) :
  (forall t, In t (payment_transactions d) ->
             Tx.business_id t = business_id ->
             is_Some (moment (Tx.pay_date t))) ->
  exists r,
    getHistory format_LL_utc business_id d = Some r
    /\ Permutation (map HistoryItem.document (listing_data r))
         (find (transaction_of_business business_id) (payment_transactions d))
    /\ descending (fun i => date (HistoryItem.time_paid i)) (listing_data r)
    /\ Forall (fun i =>
                 date (HistoryItem.time_paid i) = Tx.time_paid (HistoryItem.document i)
                 /\ date (HistoryItem.pay_date i) = Tx.pay_date (HistoryItem.document i)
                 /\ str_kr (HistoryItem.time_paid i)
                    = format_LL_kr (Tx.time_paid (HistoryItem.document i))
                 /\ option_map format_LL_kr (moment (Tx.pay_date (HistoryItem.document i)))
                    = Some (str_kr (HistoryItem.pay_date i)))
         (listing_data r).
Proof.
  intros Hread. unfold getHistory.
  set (l := sort_desc Tx.time_paid
              (find (transaction_of_business business_id) (payment_transactions d))).
  assert (Hperm : Permutation l
                    (find (transaction_of_business business_id)
                       (payment_transactions d))) by apply sort_desc_perm.
  assert (Hsorted : descending Tx.time_paid l) by apply sort_desc_sorted.
  assert (Hall : Forall (fun t => is_Some (moment (Tx.pay_date t))) l).
  { apply Forall_forall. intros t Hin. apply list_elem_of_In in Hin.
    apply (Permutation_in _ Hperm) in Hin. unfold find in Hin.
    apply filter_In in Hin as [Hin Hq]. apply Hread; [done|].
    by apply bool_decide_eq_true in Hq. }
  clearbody l.
  assert (Hk : exists k, mapM (history_item format_LL_utc) l = Some k
                         /\ Forall2 (fun t i => history_item format_LL_utc t = Some i) l k).
  { clear Hperm Hsorted. induction Hall as [|t l [z Hz] _ (k & Hk & HF)].
    - exists []. split; [done|constructor].
    - assert (exists i, history_item format_LL_utc t = Some i) as [i Hi].
      { unfold history_item. rewrite Hz. by eexists. }
      exists (i :: k). split; [|by constructor].
      rewrite mapM_Some. constructor; [done|]. by apply mapM_Some. }
  destruct Hk as (k & Hk & HF). rewrite Hk. cbn [mbind option_bind].
  eexists. split; [reflexivity|]. cbn [listing_data].
  assert (Hdoc : map HistoryItem.document k = l).
  { clear -HF. induction HF as [|t i l k Hi _ IH]; [done|].
    simpl. apply history_item_fields in Hi as [-> _]. by rewrite IH. }
  assert (Hkey : map (fun i => date (HistoryItem.time_paid i)) k = map Tx.time_paid l).
  { clear -HF. induction HF as [|t i l k Hi _ IH]; [done|].
    simpl. apply history_item_fields in Hi as (_ & -> & _). by rewrite IH. }
  split; [by rewrite Hdoc|]. split; [by apply (descending_same_keys _ _ _ _ Hkey)|].
  clear -HF. induction HF as [|t i l k Hi _ IH]; constructor; [|done].
  apply history_item_fields in Hi as (-> & -> & -> & -> & z & -> & ->). done.
Qed.

Lemma getHistory_lists_business_newest_first_witness :
  let d := default SampleRuns.d3 (paymentHook SampleRuns.paid3 SampleRuns.d3) in
  (forall t, In t (payment_transactions d) -> Tx.business_id t = "B1" ->
             is_Some (moment (Tx.pay_date t)))
  /\ exists r,
       getHistory toISOString "B1" d = Some r
       /\ map (fun i => str_kr (HistoryItem.pay_date i)) (listing_data r)
          = ["2024년 1월 1일"]
       /\ Permutation (map HistoryItem.document (listing_data r))
            (find (transaction_of_business "B1") (payment_transactions d)).
Proof.
  intros d.
  assert (H : forall t, In t (payment_transactions d) -> Tx.business_id t = "B1" ->
                        is_Some (moment (Tx.pay_date t))).
  { intros t Hin _. vm_compute in Hin. destruct Hin as [<-|[]].
    vm_compute. by eexists. }
  split; [exact H|].
  destruct (getHistory_lists_business_newest_first toISOString "B1" d H)
    as (r & Hr & Hperm & _).
  exists r. split; [exact Hr|]. split; [|exact Hperm].
  vm_compute in Hr. injection Hr as <-. vm_compute. reflexivity.
Defined.

(** ** A changed subscription and the next scan *)

Lemma findOne_by_merchant_uid (c : list Schedule.t) (e : Schedule.t) :
  NoDup (map Schedule.merchant_uid c) -> In e c ->
  findOne (has_merchant_uid (Schedule.merchant_uid e)) c = Some e.
Proof.
  unfold findOne. induction c as [|x c IH]; simpl; [done|].
  intros Hnd Hin. apply NoDup_cons in Hnd as [Hnotin Hnd].
  unfold has_merchant_uid at 1. case_bool_decide as Hx.
  - destruct Hin as [->|Hin]; [done|]. exfalso. apply Hnotin. rewrite Hx.
    by apply list_elem_of_In, in_map.
  - destruct Hin as [->|Hin]; [done|]. by apply IH.
Qed.

(** X27.  A change of subscription takes effect with the next charge: when
    the document that [changeSubscription] finds is PENDING and due and
    the business has a default method, the following daily scan sends
    the gateway a request for it with the new amount, whose metadata
    carry the new plan and the unchanged date, for the customer_uid of
    the default method; and no request of that scan for this merchant_uid
    has the old terms (merchant_uids being unique). *)
Theorem changed_subscription_is_charged_at_new_terms
    (iamport : Gateway.t) (now : Z) (business_id new_billing_plan : string)
    (new_amount : Z) (w : world) (e : Schedule.t) (m : Method.t) :
  NoDup (map Schedule.merchant_uid (payment_schedule (store w))) ->
  findOne (is_in_flight_of business_id) (payment_schedule (store w)) = Some e ->
  Schedule.status e = "PENDING" ->
  Schedule.schedule e <= seoul_midnight now ->
  findOne (is_default_of business_id) (payment_methods (store w)) = Some m ->
  let d' := snd (changeSubscription business_id new_billing_plan new_amount (store w)) in
  let w' := snd (_checkScheduledPayments iamport now (set_store d' w)) in
  let new_terms (request : Charge.t) :=
    Charge.amount request = new_amount
    /\ Charge.customer_uid request = Method.customer_uid m
    /\ exists cd,
         CustomData.of_value (JSON_parse (Charge.custom_data request)) = Some cd
         /\ CustomData.billing_plan cd = new_billing_plan
         /\ CustomData.amount cd = new_amount
         /\ CustomData.type cd = "SCHEDULED"
         /\ CustomData.pay_date cd = toISOString (Schedule.schedule e) in
  exists sent,
    charges w' = (charges w ++ sent)%list
    /\ (exists request,
          In request sent
          /\ Charge.merchant_uid request = Schedule.merchant_uid e
          /\ new_terms request)
    /\ forall request,
         In request sent ->
         Charge.merchant_uid request = Schedule.merchant_uid e ->
         new_terms request.
Proof.
  intros Hnd Hfind Hst Hdate Hdef d' w' new_terms.
  assert (Hdue : due now e = true).
  { unfold due. rewrite andb_true_iff, bool_decide_eq_true, Z.leb_le. done. }
  assert (Hin : In e (payment_schedule (store w)))
    by exact (proj1 (findOne_In _ _ _ Hfind)).
  assert (Hbe : Schedule.business_id e = business_id).
  { apply findOne_In in Hfind as [_ Hq]. by apply bool_decide_eq_true in Hq as [? _]. }
  pose proof (findOne_by_merchant_uid _ _ Hnd Hin) as Hfirst.
  assert (Hd' : payment_schedule d'
                = fst (updateOne (has_merchant_uid (Schedule.merchant_uid e))
                         (Schedule.set_plan_amount new_billing_plan new_amount)
                         (payment_schedule (store w)))
                /\ payment_methods d' = payment_methods (store w)).
  { unfold d', changeSubscription. rewrite Hfind.
    by destruct (updateOne _ _ _). }
  destruct Hd' as [Hsched Hmeth].
  destruct (submit_all_effects iamport
              (map (fun document =>
                      schedule_params (Schedule.schedule document) document)
                 (find (due now) (payment_schedule (store (set_store d' w)))))
              (set_store d' w)) as (_ & _ & Hc & _).
  fold (_checkScheduledPayments iamport now (set_store d' w)) in Hc.
  fold w' in Hc. cbn [store charges set_store] in Hc.
  clearbody d' w'. eexists. split; [exact Hc|].
  assert (Hreq : forall x,
            In x (payment_schedule (store w)) ->
            Schedule.merchant_uid x = Schedule.merchant_uid e ->
            request_of d'
              (schedule_params
                 (Schedule.schedule
                    (Schedule.set_plan_amount new_billing_plan new_amount x))
                 (Schedule.set_plan_amount new_billing_plan new_amount x))
            = [charge_request
                 (schedule_params (Schedule.schedule e)
                    (Schedule.set_plan_amount new_billing_plan new_amount e)) m]).
  { intros x Hx Huid. pose proof (findOne_by_merchant_uid _ _ Hnd Hx) as Hx'.
    rewrite Huid, Hfirst in Hx'. injection Hx' as <-.
    unfold request_of. cbn [schedule_params Params.business_id Schedule.set_plan_amount
                              Schedule.business_id].
    by rewrite Hbe, Hmeth, Hdef. }
  assert (Hterms : new_terms
                     (charge_request
                        (schedule_params (Schedule.schedule e)
                           (Schedule.set_plan_amount new_billing_plan new_amount e)) m)).
  { unfold new_terms. split; [reflexivity|]. split; [reflexivity|].
    eexists. split; [apply echoed_metadata_typed|]. repeat split. }
  unfold find. rewrite Hsched. split.
  - eexists. split; [|split; [|exact Hterms]]; [|reflexivity].
    apply in_flat_map. eexists. split.
    + apply in_map_iff.
      exists (Schedule.set_plan_amount new_billing_plan new_amount e).
      split; [reflexivity|]. apply filter_In. split; [|exact Hdue].
      by apply updateOne_first_match_In.
    + rewrite (Hreq e Hin eq_refl). by left.
  - intros request Hrequest Huid.
    apply in_flat_map in Hrequest as (p & Hp & Hrequest).
    apply in_map_iff in Hp as (y & <- & Hy).
    apply filter_In in Hy as [Hy _].
    assert (Hyuid : Schedule.merchant_uid y = Schedule.merchant_uid e).
    { unfold request_of in Hrequest.
      destruct (findOne (is_default_of _) (payment_methods d')) as [m'|];
        [|destruct Hrequest].
      destruct Hrequest as [<-|[]]. exact Huid. }
    destruct (updateOne_unique_key
                (Schedule.set_plan_amount new_billing_plan new_amount)
                _ _ y Hnd (fun _ => eq_refl) Hy Hyuid) as (x & Hx & ->).
    rewrite (Hreq x Hx Hyuid) in Hrequest. destruct Hrequest as [<-|[]].
    exact Hterms.
Qed.

Lemma changed_subscription_is_charged_at_new_terms_witness :
  let w := Sample.world_of SampleRuns.d3 in
  let gw := Sample.gateway "paid" in
  let now := 1704056400000 in
  NoDup (map Schedule.merchant_uid (payment_schedule (store w)))
  /\ findOne (is_in_flight_of "B1") (payment_schedule (store w)) = Some SampleRuns.e3
  /\ Schedule.status SampleRuns.e3 = "PENDING"
  /\ Schedule.schedule SampleRuns.e3 <= seoul_midnight now
  /\ findOne (is_default_of "B1") (payment_methods (store w)) = Some SampleRuns.m1
  /\ map (fun c => (Charge.merchant_uid c, Charge.customer_uid c, Charge.amount c,
                    Charge.name c))
       (charges
          (snd (_checkScheduledPayments gw now
                  (set_store (snd (changeSubscription "B1" "52_WEEK" 99000 (store w)))
                     w))))
     = [("B1_ch3", "B1_1234", 99000, "CAS#B1=1/1-12/29(52WK)")]
  /\ exists sent request,
       charges
         (snd (_checkScheduledPayments gw now
                 (set_store (snd (changeSubscription "B1" "52_WEEK" 99000 (store w)))
                    w)))
       = (charges w ++ sent)%list
       /\ In request sent
       /\ Charge.amount request = 99000.
Proof.
  intros w gw now.
  assert (H1 : NoDup (map Schedule.merchant_uid (payment_schedule (store w)))).
  { apply (bool_decide_unpack _). vm_compute. exact I. }
  assert (H2 : findOne (is_in_flight_of "B1") (payment_schedule (store w))
               = Some SampleRuns.e3) by reflexivity.
  assert (H3 : Schedule.status SampleRuns.e3 = "PENDING") by reflexivity.
  assert (H4 : Schedule.schedule SampleRuns.e3 <= seoul_midnight now)
    by (vm_compute; discriminate).
  assert (H5 : findOne (is_default_of "B1") (payment_methods (store w))
               = Some SampleRuns.m1) by reflexivity.
  repeat (split; [assumption|]). split; [vm_compute; reflexivity|].
  destruct (changed_subscription_is_charged_at_new_terms
              gw now "B1" "52_WEEK" 99000 w SampleRuns.e3 SampleRuns.m1
              H1 H2 H3 H4 H5) as (sent & Hc & (request & Hin & _ & Ha & _) & _).
  exists sent, request. split; [exact Hc|]. split; [exact Hin|exact Ha].
Defined.

(** ** The period in the name of a payment *)

Lemma format_M_D_seoul_day (a b : Z) :
  (a + seoul_offset) / ms_per_day = (b + seoul_offset) / ms_per_day ->
  format_M_D a = format_M_D b.
Proof. unfold format_M_D. by intros ->. Qed.

(** X28.  The period that the name of a payment shows and the date of the next
    cycle fit together: the period starts on the Seoul day of the pay
    date and its last day is the day before the date for which the
    reconciler schedules the next payment, for every plan and pay date. *)
Theorem generateName_period_ends_before_next_cycle (p : Params.t) :
  let span :=
    period_text (Params.pay_date p)
      (next_pay_date (Params.billing_plan p) (Params.pay_date p) - ms_per_day) in
  Name.long (_generateName p)
  = "Castr subscription #" ++ Params.business_id p ++ " " ++ span
    ++ " (" ++ Params.billing_plan p ++ ")"
  /\ exists weeks_text,
       Name.short (_generateName p)
       = "CAS#" ++ Params.business_id p ++ "=" ++ span ++ "(" ++ weeks_text ++ "WK)".
Proof.
  cbv zeta. unfold _generateName, period_text, next_pay_date. cbn [Name.long Name.short].
  set (weeks := default 0 (billing_plan_type (Params.billing_plan p))).
  assert (Hend : format_M_D (add_weeks weeks (Params.pay_date p) - ms_per_day)
                 = format_M_D (seoul_midnight (add_weeks weeks (Params.pay_date p))
                               - ms_per_day)).
  { apply format_M_D_seoul_day.
    unfold seoul_midnight, add_weeks, seoul_offset, ms_per_day, ms_per_hour.
    clearbody weeks. Z.div_mod_to_equations. lia. }
  rewrite Hend. split; [reflexivity|]. eexists. reflexivity.
Qed.

(** X29.  The dates of the cycles do not drift: the date the reconciler gives
    the next cycle is the start of a Seoul day, and from a pay date that
    is itself such a date (as the date of every scheduled document the
    reconciler inserts, which the scan passes on as pay date) the next
    cycle lies exactly the cadence of the plan later. *)
Theorem next_cycle_dates_do_not_drift (plan plan' : string) (t : Z) :
  let previous := next_pay_date plan' t in
  seoul_midnight previous = previous
  /\ next_pay_date plan previous
     = previous + default 0 (billing_plan_type plan) * 7 * ms_per_day.
Proof.
  cbv zeta. unfold next_pay_date.
  set (n := default 0 (billing_plan_type plan)).
  set (n' := default 0 (billing_plan_type plan')). clearbody n n'. split.
  - unfold add_weeks, seoul_midnight, seoul_offset, ms_per_day, ms_per_hour.
    Z.div_mod_to_equations. lia.
  - rewrite seoul_midnight_add_weeks. reflexivity.
Qed.
